(** * AdvancedCryptoTradingAgent: decision pipeline and risk manager

    A shallow embedding of the Python package [advanced_crypto_trading_agent]
    (analysis/technical.py, analysis/fundamental.py, analysis/sentiment.py,
    strategy/hft_strategy.py, risk/risk_manager.py,
    execution/execution_engine.py, trader.py, web/dashboard.py) and of
    main.py, with the properties of its specification.

    Numbers.  The code is embedded twice.  In the main embedding a Python
    [float] is an exact rational ([Q]), Python's [==] on floats is [Qeq], and
    the NaN sentinel that the indicator functions write with [float("nan")]
    is [None] in an [option Q].  Rationals neither round nor overflow, so the
    properties stated on this embedding are those that rounding, overflow and
    NaN leave true: comparisons, orders between results of the same
    operations, values that are computed exactly, and bounds on the entries
    that are defined.  Module [IEEE] embeds the indicator functions, the
    scores and the composite signal on binary64 floats, with Python's
    comparisons, [min], [max] and [sum]; the properties that turn on NaN, on
    overflow or on the rounding of a sum are stated there.  Python [int]s
    that are parameters (periods) are [Z]; list positions are [nat] once the
    source has rejected non-positive periods.

    Errors.  A raised exception is the [Raise] case of [result]; the three
    exception classes the modelled code can raise are [exn].

    Time.  A [datetime] is a number of microseconds ([Z]), a [timedelta] a
    signed number of microseconds ([Z]).  A call of [datetime.utcnow()] and a
    draw of [random.uniform] are read from explicit arguments. *)

From Stdlib Require Import Floats.
From Stdlib Require Uint63.
From Stdlib Require Import String.
From Stdlib Require Import List ZArith QArith Qabs Lia Lqa Bool.
From Stdlib Require Import Permutation Sorted.
Import ListNotations.
Local Open Scope Q_scope.
Set Warnings "-inexact-float".

(** ** Exceptions and the error monad *)

Inductive exn : Type :=
| ValueError
| IndexError
| ZeroDivisionError.

Inductive result (A : Type) : Type :=
| Ok (a : A)
| Raise (e : exn).

Arguments Ok {A} a.
Arguments Raise {A} e.

Definition bind {A B : Type} (m : result A) (k : A -> result B) : result B :=
  match m with
  | Ok a => k a
  | Raise e => Raise e
  end.

Notation "x <- m ;; k" := (bind m (fun x => k))
  (at level 61, m at next level, right associativity).

(** A [for] loop whose body may raise: the first exception ends the loop. *)
Fixpoint for_each {S I : Type} (body : S -> I -> result S) (items : list I) (s : S)
  : result S :=
  match items with
  | [] => Ok s
  | i :: rest => s' <- body s i ;; for_each body rest s'
  end.

(** ** Python built-ins on numbers and lists *)

Module Py.

(** [a < b] on floats. *)
Definition ltb (a b : Q) : bool := negb (Qle_bool b a).

(** [min(a, b)]: the first argument unless the second is smaller. *)
Definition min (a b : Q) : Q := if ltb b a then b else a.

(** [max(a, b)]: the first argument unless the second is greater. *)
Definition max (a b : Q) : Q := if ltb a b then b else a.

(** [min(values)] and [max(values)] of a non-empty list [x :: rest]. *)
Definition min_list (x : Q) (rest : list Q) : Q := fold_left min rest x.
Definition max_list (x : Q) (rest : list Q) : Q := fold_left max rest x.

(** [sum(values)], which starts from 0 and adds from the left. *)
Definition sum (values : list Q) : Q := fold_left Qplus values 0.

(** [a / b], which raises on a zero divisor. *)
Definition div (a b : Q) : result Q :=
  if Qeq_bool b 0 then Raise ZeroDivisionError else Ok (a / b).

(** [l[i]] for a position [i >= 0]. *)
Definition getitem {A : Type} (l : list A) (i : nat) : result A :=
  match nth_error l i with
  | Some a => Ok a
  | None => Raise IndexError
  end.

(** [l[i] = v] for a position [i >= 0]. *)
Fixpoint setitem {A : Type} (l : list A) (i : nat) (v : A) : result (list A) :=
  match l, i with
  | [], _ => Raise IndexError
  | _ :: tl, O => Ok (v :: tl)
  | a :: tl, S j => tl' <- setitem tl j v ;; Ok (a :: tl')
  end.

(** [l[-1]]. *)
Definition last {A : Type} (l : list A) : result A :=
  match rev l with
  | a :: _ => Ok a
  | [] => Raise IndexError
  end.

(** [l[lo:hi]] for bounds [0 <= lo], [0 <= hi]: the slice is cut at the
    end of the list, never an error. *)
Definition slice {A : Type} (l : list A) (lo hi : nat) : list A :=
  firstn (hi - lo) (skipn lo l).

(** [range(lo, hi)]. *)
Definition range (lo hi : nat) : list nat := seq lo (hi - lo).

(** [[v] * n]. *)
Definition replicate {A : Type} (v : A) (n : nat) : list A := repeat v n.

End Py.

(** ** analysis/technical.py *)

(** [float("nan")]: an undefined indicator value. *)
Definition nan : option Q := None.

Record IndicatorResult : Type := mkIndicatorResult {
  value : option Q;
  signal : Q
}.

Definition moving_average (values : list Q) (period : Z) : result (list (option Q)) :=
  if (period <=? 0)%Z then Raise ValueError
  else
    let p := Z.to_nat period in
    Ok (map (fun index =>
               if (index + 1 <? p)%nat then nan
               else
                 let window := Py.slice values (index + 1 - p) (index + 1) in
                 Some (Py.sum window / inject_Z period))
            (Py.range 0 (length values))).

(** [values[idx] - values[idx - 1]] for [idx] in [range(1, len(values))]. *)
Fixpoint deltas (values : list Q) : list Q :=
  match values with
  | a :: (b :: _) as tl => (b - a) :: deltas tl
  | _ => []
  end.

Definition gains_of (values : list Q) : list Q :=
  0.0 :: map (fun delta => Py.max delta 0) (deltas values).

Definition losses_of (values : list Q) : list Q :=
  0.0 :: map (fun delta => Qabs (Py.min delta 0)) (deltas values).

Definition compute_rsi (avg_gain avg_loss : Q) : result Q :=
  if Qeq_bool avg_loss 0 then Ok 100.0
  else
    let rs := avg_gain / avg_loss in
    q <- Py.div 100.0 (1.0 + rs) ;;
    Ok (100.0 - q).

(** The loop state of [relative_strength_index]: the two smoothed averages
    and the output list. *)
Record rsi_state : Type := mkRsiState {
  rs_avg_gain : Q;
  rs_avg_loss : Q;
  rs_values : list (option Q)
}.

Definition rsi_step (period : Z) (gains losses : list Q) (st : rsi_state) (idx : nat)
  : result rsi_state :=
  g <- Py.getitem gains idx ;;
  let avg_gain := (rs_avg_gain st * inject_Z (period - 1) + g) / inject_Z period in
  l <- Py.getitem losses idx ;;
  let avg_loss := (rs_avg_loss st * inject_Z (period - 1) + l) / inject_Z period in
  r <- compute_rsi avg_gain avg_loss ;;
  out <- Py.setitem (rs_values st) idx (Some r) ;;
  Ok (mkRsiState avg_gain avg_loss out).

Definition relative_strength_index (values : list Q) (period : Z)
  : result (list (option Q)) :=
  if (period <=? 0)%Z then Raise ValueError
  else if (Z.of_nat (length values) <? period + 1)%Z then Raise ValueError
  else
    let p := Z.to_nat period in
    let gains := gains_of values in
    let losses := losses_of values in
    let avg_gain := Py.sum (Py.slice gains 1 (p + 1)) / inject_Z period in
    let avg_loss := Py.sum (Py.slice losses 1 (p + 1)) / inject_Z period in
    let rsi_values := Py.replicate nan (length values) in
    r <- compute_rsi avg_gain avg_loss ;;
    rsi_values <- Py.setitem rsi_values p (Some r) ;;
    st <- for_each (rsi_step period gains losses)
                   (Py.range (p + 1) (length values))
                   (mkRsiState avg_gain avg_loss rsi_values) ;;
    Ok (rs_values st).

(** [max(a, b, c)]: the first of the greatest arguments. *)
Definition max3 (a b c : Q) : Q := Py.max (Py.max a b) c.

(** The body of the true-range loop; the state is the list [true_ranges]. *)
Definition true_range_step (highs lows closes : list Q) (true_ranges : list Q) (idx : nat)
  : result (list Q) :=
  h <- Py.getitem highs idx ;;
  l <- Py.getitem lows idx ;;
  c <- Py.getitem closes (idx - 1) ;;
  let tr := max3 (h - l) (Qabs (h - c)) (Qabs (l - c)) in
  Ok (true_ranges ++ [tr]).

Record atr_state : Type := mkAtrState {
  as_atr : Q;
  as_values : list (option Q)
}.

Definition atr_step (period : Z) (true_ranges : list Q) (st : atr_state) (idx : nat)
  : result atr_state :=
  tr <- Py.getitem true_ranges idx ;;
  let atr := (as_atr st * inject_Z (period - 1) + tr) / inject_Z period in
  out <- Py.setitem (as_values st) idx (Some atr) ;;
  Ok (mkAtrState atr out).

Definition average_true_range (highs lows closes : list Q) (period : Z)
  : result (list (option Q)) :=
  if negb ((length highs =? length lows)%nat && (length lows =? length closes)%nat)
  then Raise ValueError
  else if (period <=? 0)%Z then Raise ValueError
  else
    let p := Z.to_nat period in
    h0 <- Py.getitem highs 0 ;;
    l0 <- Py.getitem lows 0 ;;
    true_ranges <- for_each (true_range_step highs lows closes)
                            (Py.range 1 (length highs)) [h0 - l0] ;;
    let atr_values := Py.replicate nan (length highs) in
    let atr := Py.sum (Py.slice true_ranges 0 p) / inject_Z period in
    atr_values <- Py.setitem atr_values (p - 1) (Some atr) ;;
    st <- for_each (atr_step period true_ranges) (Py.range p (length true_ranges))
                   (mkAtrState atr atr_values) ;;
    Ok (as_values st).

(** ** config.py *)

(** A [datetime] and a [timedelta], in microseconds. *)
Definition datetime : Type := Z.
Definition timedelta : Type := Z.

Definition minutes (n : Z) : timedelta := (n * 60000000)%Z.
Definition seconds (n : Z) : timedelta := (n * 1000000)%Z.

(** A Python [dict] with string keys: the entries in insertion order. *)
Module Dict.

Definition t (V : Type) : Type := list (string * V).

Fixpoint get {V : Type} (d : t V) (k : string) : option V :=
  match d with
  | [] => None
  | (k', v) :: rest => if String.eqb k' k then Some v else get rest k
  end.

(** [d.get(k, default)]. *)
Definition get_default {V : Type} (d : t V) (k : string) (default : V) : V :=
  match get d k with
  | Some v => v
  | None => default
  end.

(** [d[k] = v]: an existing key keeps its place, a new one goes last. *)
Fixpoint set {V : Type} (d : t V) (k : string) (v : V) : t V :=
  match d with
  | [] => [(k, v)]
  | (k', v') :: rest =>
      if String.eqb k' k then (k', v) :: rest else (k', v') :: set rest k v
  end.

Definition items {V : Type} (d : t V) : list (string * V) := d.
Definition values {V : Type} (d : t V) : list V := map snd d.
Definition len {V : Type} (d : t V) : nat := length d.

End Dict.

Module Config.

Record TechnicalConfig : Type := mkTechnicalConfig {
fast_ma : Z;
slow_ma : Z;
rsi_period : Z;
atr_period : Z
}.

Record FundamentalConfig : Type := mkFundamentalConfig {
metrics_weights : Dict.t Q;
normalize_window : Z
}.

Record SentimentConfig : Type := mkSentimentConfig {
sources : list string;
smoothing : Q
}.

Record RiskConfig : Type := mkRiskConfig {
max_position_size : Q;
max_leverage : Z;
max_drawdown : Q;
take_profit : Q;
stop_loss : Q;
cooldown : timedelta
}.

Record ExecutionConfig : Type := mkExecutionConfig {
order_type : string;
max_slippage : Q;
order_timeout : timedelta
}.

Record AgentConfig : Type := mkAgentConfig {
technical_config : TechnicalConfig;
fundamental_config : FundamentalConfig;
sentiment_config : SentimentConfig;
risk_config : RiskConfig;
execution_config : ExecutionConfig;
dry_run : bool
}.

Definition default_technical : TechnicalConfig := mkTechnicalConfig 9 26 14 14.

Definition default_fundamental : FundamentalConfig :=
mkFundamentalConfig
  [("network_growth"%string, 0.4); ("exchange_inflows"%string, -0.3);
   ("developer_activity"%string, 0.3)]
  30.

Definition default_sentiment : SentimentConfig :=
mkSentimentConfig ["twitter"%string; "news"%string; "onchain_forums"%string] 0.2.

Definition default_risk : RiskConfig :=
mkRiskConfig 0.15 5 0.03 0.05 0.02 (minutes 5).

Definition default_execution : ExecutionConfig :=
mkExecutionConfig "limit" 0.0005 (seconds 10).

Definition DEFAULT_CONFIG : AgentConfig :=
mkAgentConfig default_technical default_fundamental default_sentiment
              default_risk default_execution true.

End Config.
Import Config.

(** ** analysis/technical.py: [generate_technical_signal]

    The comparison [fast > slow] is false when either average is NaN, and
    [fast - slow] is then NaN. *)
Definition float_gt (a b : option Q) : bool :=
  match a, b with
  | Some x, Some y => Py.ltb y x
  | _, _ => false
  end.

Definition float_sub (a b : option Q) : option Q :=
  match a, b with
  | Some x, Some y => Some (x - y)
  | _, _ => nan
  end.

Definition generate_technical_signal (prices : list Q) (config : TechnicalConfig)
  : result IndicatorResult :=
  fast_ma_values <- moving_average prices (fast_ma config) ;;
  slow_ma_values <- moving_average prices (slow_ma config) ;;
  rsi <- relative_strength_index prices (rsi_period config) ;;
  (* here [len(prices) >= 2], so [len(prices) - 1] is a position *)
  let latest_idx := (length prices - 1)%nat in
  fast <- Py.getitem fast_ma_values latest_idx ;;
  slow <- Py.getitem slow_ma_values latest_idx ;;
  rsi_value <- Py.getitem rsi latest_idx ;;
  let signal := 0.0 in
  let signal := if float_gt fast slow then signal + 0.4 else signal - 0.4 in
  let rsi_component :=
    match rsi_value with
    | None => 0.0
    | Some r =>
        if Py.ltb 70 r then -0.3
        else if Py.ltb r 30 then 0.3
        else 0.0
    end in
  let signal := signal + rsi_component in
  Ok (mkIndicatorResult (float_sub fast slow) signal).

(** ** analysis/fundamental.py *)

Definition normalize_metric (values : list Q) : result Q :=
  match values with
  | [] => Ok 0.0
  | x :: rest =>
      let minimum := Py.min_list x rest in
      let maximum := Py.max_list x rest in
      if Qeq_bool maximum minimum then Ok 0.0
      else
        latest <- Py.last values ;;
        q <- Py.div (latest - minimum) (maximum - minimum) ;;
        Ok (2 * q - 1)
  end.

Definition fundamental_score (history : Dict.t (list Q)) (weights : Dict.t Q)
  : result Q :=
  metrics <- for_each
               (fun (metrics : Dict.t Q) (item : string * list Q) =>
                  let (name, series) := item in
                  normalized <- normalize_metric series ;;
                  let weight := Dict.get_default weights name 0.0 in
                  Ok (Dict.set metrics name (normalized * weight)))
               (Dict.items history) [] ;;
  Ok (Py.sum (Dict.values metrics)).

(** ** analysis/sentiment.py *)

Record SentimentReading : Type := mkSentimentReading {
  source : string;
  score : Q
}.

Definition exponential_smoothing (previous current alpha : Q) : Q :=
  alpha * current + (1 - alpha) * previous.

(** The loop of [aggregate_sentiment]: the dictionary after all readings. *)
Definition smooth_readings (readings : list SentimentReading) (alpha : Q) : Dict.t Q :=
  fold_left
    (fun sentiment_by_source reading =>
       let prev := Dict.get_default sentiment_by_source (source reading) 0.0 in
       Dict.set sentiment_by_source (source reading)
                (exponential_smoothing prev (score reading) alpha))
    readings [].

Definition aggregate_sentiment (readings : list SentimentReading) (alpha : Q) : result Q :=
  let sentiment_by_source := smooth_readings readings alpha in
  match sentiment_by_source with
  | [] => Ok 0.0
  | _ => Py.div (Py.sum (Dict.values sentiment_by_source))
                (inject_Z (Z.of_nat (Dict.len sentiment_by_source)))
  end.

(** ** strategy/hft_strategy.py *)

Record StrategyContext : Type := mkStrategyContext {
  technical : IndicatorResult;
  fundamental : Q;
  sentiment : Q
}.

Definition composite_signal (self : StrategyContext) : Q :=
  Py.max
    (Py.min (signal (technical self) * 0.5 + fundamental self * 0.3 + sentiment self * 0.2)
            1.0)
    (-1.0).

Definition build_strategy_context
    (prices : list Q) (technical_config : TechnicalConfig)
    (fundamentals : Dict.t (list Q)) (fundamental_config : FundamentalConfig)
    (sentiment_readings : list SentimentReading) (sentiment_config : SentimentConfig)
  : result StrategyContext :=
  technical <- generate_technical_signal prices technical_config ;;
  fundamental <- fundamental_score fundamentals (metrics_weights fundamental_config) ;;
  sentiment <- aggregate_sentiment sentiment_readings (smoothing sentiment_config) ;;
  Ok (mkStrategyContext technical fundamental sentiment).

(** ** risk/risk_manager.py

    Every method takes the manager and returns its result together with the
    manager it leaves behind. *)

Module Risk.

Record PositionState : Type := mkPositionState {
  size : Q;
  entry_price : Q;
  last_trade_time : datetime
}.

Record RiskManager : Type := mkRiskManager {
  _config : RiskConfig;
  _position : PositionState;
  _peak_equity : Q
}.

(** [now or datetime.utcnow()]: a [datetime] is always true. *)
Definition now_or (now : option datetime) (utcnow : datetime) : datetime :=
  match now with
  | Some t => t
  | None => utcnow
  end.

(** [RiskManager(config)]; [utcnow] is the clock read by the default
    factory of [PositionState.last_trade_time]. *)
Definition init (config : RiskConfig) (utcnow : datetime) : RiskManager :=
  mkRiskManager config (mkPositionState 0.0 0.0 utcnow) 1.0.

(** The result says whether the drawdown warning was logged. *)
Definition update_equity (self : RiskManager) (equity : Q)
  : result bool * RiskManager :=
  let self :=
    if Py.ltb (_peak_equity self) equity
    then mkRiskManager (_config self) (_position self) equity
    else self in
  match Py.div equity (_peak_equity self) with
  | Raise e => (Raise e, self)
  | Ok q =>
      let drawdown := 1 - q in
      (Ok (Py.ltb (max_drawdown (_config self)) drawdown), self)
  end.

Definition can_trade (self : RiskManager) (now : option datetime) (utcnow : datetime)
  : bool * RiskManager :=
  let now := now_or now utcnow in
  let elapsed : timedelta := (now - last_trade_time (_position self))%Z in
  ((cooldown (_config self) <=? elapsed)%Z, self).

Definition position_size (self : RiskManager) (equity signal_strength : Q)
  : Q * RiskManager :=
  let size :=
    Py.min (Qabs signal_strength) 1.0 * max_position_size (_config self) * equity in
  (Py.max (Py.min size (equity * max_position_size (_config self))) 0.0, self).

Definition record_trade (self : RiskManager) (size price : Q)
                        (now : option datetime) (utcnow : datetime)
  : unit * RiskManager :=
  let now := now_or now utcnow in
  (tt, mkRiskManager (_config self) (mkPositionState size price now) (_peak_equity self)).

Definition stop_levels (self : RiskManager) (entry_price : Q)
  : Dict.t Q * RiskManager :=
  ([("take_profit"%string, entry_price * (1 + take_profit (_config self)));
    ("stop_loss"%string, entry_price * (1 - stop_loss (_config self)))],
   self).

(** One call on a manager, with the clock reading it may consume. *)
Inductive op : Type :=
| UpdateEquity (equity : Q)
| CanTrade (now : option datetime) (utcnow : datetime)
| PositionSize (equity signal_strength : Q)
| RecordTrade (size price : Q) (now : option datetime) (utcnow : datetime)
| StopLevels (entry_price : Q).

(** The manager after one call (an exception leaves what was assigned). *)
Definition exec (self : RiskManager) (o : op) : RiskManager :=
  match o with
  | UpdateEquity equity => snd (update_equity self equity)
  | CanTrade now utcnow => snd (can_trade self now utcnow)
  | PositionSize equity s => snd (position_size self equity s)
  | RecordTrade size price now utcnow => snd (record_trade self size price now utcnow)
  | StopLevels entry_price => snd (stop_levels self entry_price)
  end.

(** The managers seen after each call of a sequence, oldest first. *)
Fixpoint run (self : RiskManager) (ops : list op) : list RiskManager :=
  match ops with
  | [] => []
  | o :: rest => let self' := exec self o in self' :: run self' rest
  end.

End Risk.

(** ** execution/execution_engine.py *)

Module Execution.

Record Order : Type := mkOrder {
  symbol : string;
  side : string;
  quantity : Q;
  price : Q;
  order_type : string;
  timestamp : datetime
}.

Record ExecutionReport : Type := mkExecutionReport {
  order : Order;
  status : string;
  executed_quantity : Q;
  avg_price : Q
}.

Record ExecutionEngine : Type := mkExecutionEngine {
  _config : ExecutionConfig;
  _dry_run : bool
}.

(** What one call of [send_order] reads from outside: the clock and the two
    [random.uniform] draws, in the order the source makes them. *)
Record draws : Type := mkDraws {
  utcnow : datetime;
  uniform_quantity : Q;
  uniform_slippage : Q
}.

Definition send_order (self : ExecutionEngine) (d : draws)
                      (symbol side : string) (quantity price : Q)
  : ExecutionReport :=
  let order := mkOrder symbol side quantity price
                       (Config.order_type (_config self)) (utcnow d) in
  if _dry_run self then
    let executed_qty := quantity * uniform_quantity d in
    let slippage := price * uniform_slippage d in
    let avg_price := price + slippage in
    let status := if Qeq_bool executed_qty quantity
                  then "FILLED"%string else "PARTIALLY_FILLED"%string in
    mkExecutionReport order status executed_qty avg_price
  else
    let executed_qty := 0.0 in
    let avg_price := price in
    let status := "NEW"%string in
    mkExecutionReport order status executed_qty avg_price.

End Execution.

(** ** trader.py *)

Module Trader.

(** One candle as [BinanceClient.get_klines] returns it. *)
Record Kline : Type := mkKline {
  open_time : Z;
  open : Q;
  high : Q;
  low : Q;
  close : Q;
  volume : Q
}.

Record MarketSnapshot : Type := mkMarketSnapshot {
  symbol : string;
  prices : list Q;
  highs : list Q;
  lows : list Q;
  closes : list Q
}.

Record Agent : Type := mkAgent {
  _config : AgentConfig;
  _risk : Risk.RiskManager;
  _execution : Execution.ExecutionEngine
}.

(** [AdvancedCryptoTradingAgent(config)]. *)
Definition init (config : AgentConfig) (utcnow : datetime) : Agent :=
  mkAgent config (Risk.init (risk_config config) utcnow)
          (Execution.mkExecutionEngine (execution_config config) (dry_run config)).

(** What one cycle reads from outside: the candles the client answers with,
    the clock at [can_trade] and at [record_trade], and the reads of
    [send_order]. *)
Record World : Type := mkWorld {
  klines : list Kline;
  utcnow_can_trade : datetime;
  order_draws : Execution.draws;
  utcnow_record_trade : datetime
}.

Definition collect_market_data (w : World) (symbol : string) : MarketSnapshot :=
  let prices := map close (klines w) in
  let highs := map high (klines w) in
  let lows := map low (klines w) in
  let closes := map close (klines w) in
  mkMarketSnapshot symbol prices highs lows closes.

Definition build_context (self : Agent) (snapshot : MarketSnapshot)
    (fundamentals : Dict.t (list Q)) (sentiment_readings : list SentimentReading)
  : result StrategyContext :=
  build_strategy_context
    (prices snapshot) (technical_config (_config self))
    fundamentals (fundamental_config (_config self))
    sentiment_readings (sentiment_config (_config self)).

(** The calls a cycle makes on the execution engine and the risk manager
    after sizing, with their arguments (and the report of the order). *)
Inductive call : Type :=
| SendOrder (symbol side : string) (quantity price : Q)
            (report : Execution.ExecutionReport)
| RecordTrade (size price : Q)
| StopLevels (entry_price : Q).

Record cycle : Type := mkCycle {
  outcome : result unit;
  calls : list call;
  agent : Agent
}.

(** ["BUY" if signal > 0 else "SELL"]. *)
Definition choose_side (signal : Q) : string :=
  if Py.ltb 0 signal then "BUY"%string else "SELL"%string.

(** The part of [trade] that follows the composite signal. *)
Definition decide (self : Agent) (w : World) (symbol : string)
                  (snapshot : MarketSnapshot) (signal : Q) : cycle :=
  let (allowed, risk) := Risk.can_trade (_risk self) None (utcnow_can_trade w) in
  if negb allowed then mkCycle (Ok tt) [] (mkAgent (_config self) risk (_execution self))
  else
    let equity := 1.0 in
    let (position_size, risk) := Risk.position_size risk equity signal in
    let self := mkAgent (_config self) risk (_execution self) in
    if Qeq_bool position_size 0.0 then mkCycle (Ok tt) [] self
    else
      let side := choose_side signal in
      match Py.last (prices snapshot) with
      | Raise e => mkCycle (Raise e) [] self
      | Ok price =>
          match Py.div position_size price with
          | Raise e => mkCycle (Raise e) [] self
          | Ok quantity =>
              let report :=
                Execution.send_order (_execution self) (order_draws w)
                                     symbol side quantity price in
              let (_, risk) :=
                Risk.record_trade risk (Execution.executed_quantity report * price)
                                  (Execution.avg_price report)
                                  None (utcnow_record_trade w) in
              let (stops, risk) := Risk.stop_levels risk (Execution.avg_price report) in
              mkCycle (Ok tt)
                      [SendOrder symbol side quantity price report;
                       RecordTrade (Execution.executed_quantity report * price)
                                   (Execution.avg_price report);
                       StopLevels (Execution.avg_price report)]
                      (mkAgent (_config self) risk (_execution self))
          end
      end.

Definition trade (self : Agent) (w : World) (symbol : string)
    (fundamentals : Dict.t (list Q)) (sentiment_readings : list SentimentReading)
  : cycle :=
  let snapshot := collect_market_data w symbol in
  match build_context self snapshot fundamentals sentiment_readings with
  | Raise e => mkCycle (Raise e) [] self
  | Ok context =>
      let signal := composite_signal context in
      decide self w symbol snapshot signal
  end.

End Trader.

(** ** web/dashboard.py: the ATR block of [build_recommendation]

    [try: atr_values = average_true_range(...); atr = atr_values[-1] if
    atr_values else nan  except ValueError: atr = nan], with the default
    period 14 of [average_true_range]. *)

Definition recommendation_atr (snapshot : Trader.MarketSnapshot) : result (option Q) :=
  match average_true_range (Trader.highs snapshot) (Trader.lows snapshot)
                           (Trader.closes snapshot) 14 with
  | Ok [] => Ok nan
  | Ok atr_values => Py.last atr_values
  | Raise ValueError => Ok nan
  | Raise e => Raise e
  end.

(** ** analysis/fundamental.py: [build_metric_snapshot] *)

Module Fundamental.

Record FundamentalMetric : Type := mkFundamentalMetric {
  name : string;
  value : Q;
  weight : Q
}.

Definition build_metric_snapshot (raw_metrics : Dict.t Q) (weights : Dict.t Q)
  : Dict.t FundamentalMetric :=
  fold_left
    (fun (snapshot : Dict.t FundamentalMetric) (item : string * Q) =>
       let (name, value) := item in
       let weight := Dict.get_default weights name 0.0 in
       Dict.set snapshot name (mkFundamentalMetric name value weight))
    (Dict.items raw_metrics) [].

End Fundamental.

(** ** web/dashboard.py: [RecommendationEngine] *)

Module Dashboard.

Record Recommendation : Type := mkRecommendation {
  symbol : string;
  side : string;
  entry_price : Q;
  exit_price : Q;
  probability : Q;
  statistics : Dict.t Q;
  updated_at : datetime
}.

Record RecommendationEngine : Type := mkRecommendationEngine {
  _agent : Trader.Agent;
  _fundamental_provider : string -> Dict.t (list Q);
  _sentiment_provider : string -> list SentimentReading
}.

(** What one call of [build_recommendation] reads from outside: the candles
    the client answers with and the clock of the [updated_at] default. *)
Record Feed : Type := mkFeed {
  klines : list Trader.Kline;
  now : datetime
}.

Definition build_recommendation (self : RecommendationEngine) (f : Feed) (symbol : string)
  : result Recommendation :=
  (* [collect_market_data] reads nothing of the world but the candles *)
  let snapshot :=
    Trader.collect_market_data (Trader.mkWorld (klines f) 0%Z (Execution.mkDraws 0%Z 0 0) 0%Z)
                               symbol in
  context <- Trader.build_context (_agent self) snapshot
                                  (_fundamental_provider self symbol)
                                  (_sentiment_provider self symbol) ;;
  let signal := composite_signal context in
  price <- Py.last (Trader.prices snapshot) ;;
  let long := Qle_bool 0 signal in
  let side := if long then "LONG"%string else "SHORT"%string in
  let probability := Py.max (Py.min (Qabs signal) 1.0) 0.0 in
  let expected_return := probability * 0.05 in
  let entry_price := price in
  let exit_price :=
    if long then price * (1 + expected_return) else price * (1 - expected_return) in
  atr <- recommendation_atr snapshot ;;
  let statistics :=
    [("signal_strength"%string, signal);
     ("expected_return_pct"%string, expected_return * 100)] in
  let statistics :=
    match atr with
    | Some a => Dict.set statistics "atr" a
    | None => statistics
    end in
  Ok (mkRecommendation symbol side entry_price exit_price probability statistics (now f)).

(** [sorted(items, key=lambda item: item.probability, reverse=True)]: a
    stable sort, greatest probability first; items of equal probability keep
    their order. *)
Fixpoint insert_by_probability (item : Recommendation) (sorted : list Recommendation)
  : list Recommendation :=
  match sorted with
  | [] => [item]
  | other :: rest =>
      if Py.ltb (probability item) (probability other)
      then other :: insert_by_probability item rest
      else item :: other :: rest
  end.

Definition sorted_by_probability (items : list Recommendation) : list Recommendation :=
  fold_right insert_by_probability [] items.

(** The list comprehension of [refresh], from the [i]-th call of
    [build_recommendation] on: the first exception ends it.  [feed i] is what
    the [i]-th call reads. *)
Fixpoint build_all (self : RecommendationEngine) (feed : nat -> Feed) (i : nat)
                   (symbols : list string)
  : result (list Recommendation) :=
  match symbols with
  | [] => Ok []
  | symbol :: symbols' =>
      recommendation <- build_recommendation self (feed i) symbol ;;
      rest <- build_all self feed (S i) symbols' ;;
      Ok (recommendation :: rest)
  end.

Definition refresh (self : RecommendationEngine) (feed : nat -> Feed) (symbols : list string)
  : result (list Recommendation) :=
  recommendations <- build_all self feed 0 symbols ;;
  Ok (sorted_by_probability recommendations).

End Dashboard.

(** ** main.py

    The draws of [random.uniform] are read from a function of their position
    in the call; the trading pairs are those of [config.data]. *)

Module Main.

Definition generate_mock_fundamentals (draw : nat -> Q) : Dict.t (list Q) :=
  [("network_growth"%string, map draw (Py.range 0 30));
   ("exchange_inflows"%string, map draw (Py.range 30 60));
   ("developer_activity"%string, map draw (Py.range 60 90))].

Definition generate_mock_sentiment (sources : list string) (draw : nat -> Q)
  : list SentimentReading :=
  map (fun item : nat * string => mkSentimentReading (snd item) (draw (fst item)))
      (combine (Py.range 0 (length sources)) sources).

(** What the cycle of one trading pair reads from outside. *)
Record Step : Type := mkStep {
  world : Trader.World;
  fundamental_draws : nat -> Q;
  sentiment_draws : nat -> Q
}.

(** The loop of [run_agent] from the [i]-th pair on: the cycles it runs, the
    last one being the one that raised if one did. *)
Fixpoint run_pairs (config : AgentConfig) (agent : Trader.Agent) (steps : nat -> Step)
                   (i : nat) (trading_pairs : list string) : list Trader.cycle :=
  match trading_pairs with
  | [] => []
  | symbol :: rest =>
      let fundamentals := generate_mock_fundamentals (fundamental_draws (steps i)) in
      let sentiment :=
        generate_mock_sentiment (sources (sentiment_config config))
                                (sentiment_draws (steps i)) in
      let cycle := Trader.trade agent (world (steps i)) symbol fundamentals sentiment in
      match Trader.outcome cycle with
      | Raise _ => [cycle]
      | Ok _ => cycle :: run_pairs config (Trader.agent cycle) steps (S i) rest
      end
  end.

(** [run_agent(config)]; [utcnow] is the clock when the agent is created. *)
Definition run_agent (config : AgentConfig) (trading_pairs : list string)
                     (utcnow : datetime) (steps : nat -> Step) : list Trader.cycle :=
  let agent := Trader.init config utcnow in
  run_pairs config agent steps 0 trading_pairs.

End Main.

(** ** The same code on IEEE binary64 floats

    Where a property turns on NaN, on overflow or on rounding, which exact
    rationals do not have, the functions it names are embedded a second time on Rocq's
    primitive floats (IEEE 754 binary64, the [float] of Python), with the
    comparisons, [min], [max], [sum] and the exceptions of Python. *)

Module IEEE.

Local Open Scope float_scope.

(** [min(a, b)] and [max(a, b)]: the first argument unless the second is
    smaller (greater); a comparison with NaN is false. *)
Definition min (a b : float) : float := if b <? a then b else a.
Definition max (a b : float) : float := if a <? b then b else a.

Definition min_list (x : float) (rest : list float) : float := fold_left min rest x.
Definition max_list (x : float) (rest : list float) : float := fold_left max rest x.

(** [sum(values)], added from the left starting from 0 (CPython 3.12 also
    compensates the rounding errors of the partial sums). *)
Definition sum (values : list float) : float := fold_left PrimFloat.add values 0.

(** [a / b]: only a zero divisor raises; NaN and infinities are results. *)
Definition div (a b : float) : result float :=
  if b =? 0 then Raise ZeroDivisionError else Ok (a / b).

(** The float of an [int] [z], for [0 <= z < 2^63]. *)
Definition of_int (z : Z) : float := PrimFloat.of_uint63 (Uint63.of_Z z).

(** *** strategy/hft_strategy.py *)

Record IndicatorResult : Type := mkIndicatorResult {
  value : float;
  signal : float
}.

Record StrategyContext : Type := mkStrategyContext {
  technical : IndicatorResult;
  fundamental : float;
  sentiment : float
}.

(** The weighted sum that [composite_signal] clamps. *)
Definition weighted_sum (self : StrategyContext) : float :=
  signal (technical self) * 0.5 + fundamental self * 0.3 + sentiment self * 0.2.

Definition composite_signal (self : StrategyContext) : float :=
  max (min (signal (technical self) * 0.5 + fundamental self * 0.3 + sentiment self * 0.2)
           1.0)
      (-1.0).

(** The specification's [clamp(x, lo, hi)]. *)
Definition clamp (x lo hi : float) : float :=
  if x <? lo then lo else if hi <? x then hi else x.

(** *** analysis/fundamental.py *)

Definition normalize_metric (values : list float) : result float :=
  match values with
  | [] => Ok 0.0
  | x :: rest =>
      let minimum := min_list x rest in
      let maximum := max_list x rest in
      if maximum =? minimum then Ok 0.0
      else
        latest <- Py.last values ;;
        q <- div (latest - minimum) (maximum - minimum) ;;
        Ok (2 * q - 1)
  end.

Definition fundamental_score (history : Dict.t (list float)) (weights : Dict.t float)
  : result float :=
  metrics <- for_each
               (fun (metrics : Dict.t float) (item : string * list float) =>
                  let (name, series) := item in
                  normalized <- normalize_metric series ;;
                  let weight := Dict.get_default weights name 0.0 in
                  Ok (Dict.set metrics name (normalized * weight)))
               (Dict.items history) [] ;;
  Ok (sum (Dict.values metrics)).

(** *** analysis/technical.py: [relative_strength_index] *)

Fixpoint deltas (values : list float) : list float :=
  match values with
  | a :: (b :: _) as tl => (b - a) :: deltas tl
  | _ => []
  end.

Definition gains_of (values : list float) : list float :=
  0.0 :: map (fun delta => max delta 0) (deltas values).

Definition losses_of (values : list float) : list float :=
  0.0 :: map (fun delta => abs (min delta 0)) (deltas values).

Definition compute_rsi (avg_gain avg_loss : float) : result float :=
  if avg_loss =? 0 then Ok 100.0
  else
    let rs := avg_gain / avg_loss in
    q <- div 100.0 (1.0 + rs) ;;
    Ok (100.0 - q).

Record rsi_state : Type := mkRsiState {
  rs_avg_gain : float;
  rs_avg_loss : float;
  rs_values : list float
}.

Definition rsi_step (period : Z) (gains losses : list float) (st : rsi_state) (idx : nat)
  : result rsi_state :=
  g <- Py.getitem gains idx ;;
  let avg_gain := (rs_avg_gain st * of_int (period - 1) + g) / of_int period in
  l <- Py.getitem losses idx ;;
  let avg_loss := (rs_avg_loss st * of_int (period - 1) + l) / of_int period in
  r <- compute_rsi avg_gain avg_loss ;;
  out <- Py.setitem (rs_values st) idx r ;;
  Ok (mkRsiState avg_gain avg_loss out).

Definition relative_strength_index (values : list float) (period : Z)
  : result (list float) :=
  if (period <=? 0)%Z then Raise ValueError
  else if (Z.of_nat (length values) <? period + 1)%Z then Raise ValueError
  else
    let p := Z.to_nat period in
    let gains := gains_of values in
    let losses := losses_of values in
    let avg_gain := sum (Py.slice gains 1 (p + 1)) / of_int period in
    let avg_loss := sum (Py.slice losses 1 (p + 1)) / of_int period in
    let rsi_values := Py.replicate PrimFloat.nan (length values) in
    r <- compute_rsi avg_gain avg_loss ;;
    rsi_values <- Py.setitem rsi_values p r ;;
    st <- for_each (rsi_step period gains losses)
                   (Py.range (p + 1) (length values))
                   (mkRsiState avg_gain avg_loss rsi_values) ;;
    Ok (rs_values st).

(** *** analysis/technical.py: [moving_average], [generate_technical_signal] *)

Definition moving_average (values : list float) (period : Z) : result (list float) :=
  if (period <=? 0)%Z then Raise ValueError
  else
    let p := Z.to_nat period in
    Ok (map (fun index =>
               if (index + 1 <? p)%nat then PrimFloat.nan
               else
                 let window := Py.slice values (index + 1 - p) (index + 1) in
                 sum window / of_int period)
            (Py.range 0 (length values))).

Definition generate_technical_signal (prices : list float) (config : TechnicalConfig)
  : result IndicatorResult :=
  fast_ma_values <- moving_average prices (fast_ma config) ;;
  slow_ma_values <- moving_average prices (slow_ma config) ;;
  rsi <- relative_strength_index prices (rsi_period config) ;;
  let latest_idx := (length prices - 1)%nat in
  fast <- Py.getitem fast_ma_values latest_idx ;;
  slow <- Py.getitem slow_ma_values latest_idx ;;
  rsi_value <- Py.getitem rsi latest_idx ;;
  let signal := 0.0 in
  let signal := if slow <? fast then signal + 0.4 else signal - 0.4 in
  let rsi_component :=
    if negb (rsi_value =? rsi_value) then 0.0
    else if 70 <? rsi_value then -0.3
    else if rsi_value <? 30 then 0.3
    else 0.0 in
  let signal := signal + rsi_component in
  Ok (mkIndicatorResult (fast - slow) signal).

(** The inputs [generate_technical_signal] accepts. *)
Definition enough_prices (prices : list float) (config : TechnicalConfig) : Prop :=
  (0 < fast_ma config)%Z /\ (0 < slow_ma config)%Z /\ (0 < rsi_period config)%Z
  /\ (rsi_period config + 1 <= Z.of_nat (length prices))%Z.

(** The values of the technical signal: 0.0 plus or minus 0.4 for the moving
    averages, plus 0.3, 0.0 or -0.3 for the RSI, each sum rounded as the code
    computes it (0.4 + 0.3 is the float of 0.7, 0.4 - 0.3 is
    0.10000000000000003). *)
Definition bullish_level (s : float) : Prop :=
  s = 0.0 + 0.4 + 0.3 \/ s = 0.0 + 0.4 + 0.0 \/ s = 0.0 + 0.4 + -0.3.

Definition bearish_level (s : float) : Prop :=
  s = 0.0 - 0.4 + 0.3 \/ s = 0.0 - 0.4 + 0.0 \/ s = 0.0 - 0.4 + -0.3.

Definition technical_level (s : float) : Prop := bullish_level s \/ bearish_level s.

(** *** analysis/sentiment.py and [build_strategy_context] *)

Record SentimentReading : Type := mkSentimentReading {
  source : string;
  score : float
}.

Definition exponential_smoothing (previous current alpha : float) : float :=
  alpha * current + (1 - alpha) * previous.

Definition smooth_readings (readings : list SentimentReading) (alpha : float)
  : Dict.t float :=
  fold_left
    (fun sentiment_by_source reading =>
       let prev := Dict.get_default sentiment_by_source (source reading) 0.0 in
       Dict.set sentiment_by_source (source reading)
                (exponential_smoothing prev (score reading) alpha))
    readings [].

Definition aggregate_sentiment (readings : list SentimentReading) (alpha : float)
  : result float :=
  let sentiment_by_source := smooth_readings readings alpha in
  match sentiment_by_source with
  | [] => Ok 0.0
  | _ => div (sum (Dict.values sentiment_by_source))
             (of_int (Z.of_nat (Dict.len sentiment_by_source)))
  end.

(** The two configurations that hold floats are represented by the field the
    function reads: [fundamental_config.metrics_weights] and
    [sentiment_config.smoothing]. *)
Definition build_strategy_context
    (prices : list float) (technical_config : TechnicalConfig)
    (fundamentals : Dict.t (list float)) (metrics_weights : Dict.t float)
    (sentiment_readings : list SentimentReading) (smoothing : float)
  : result StrategyContext :=
  technical <- generate_technical_signal prices technical_config ;;
  fundamental <- fundamental_score fundamentals metrics_weights ;;
  sentiment <- aggregate_sentiment sentiment_readings smoothing ;;
  Ok (mkStrategyContext technical fundamental sentiment).

(** The default metric weights of config.py. *)
Definition default_metrics_weights : Dict.t float :=
  [("network_growth"%string, 0.4); ("exchange_inflows"%string, -0.3);
   ("developer_activity"%string, 0.3)].

(** A context whose fundamental score is NaN, and finite inputs from which
    [build_strategy_context] builds it: fifteen rising prices, one metric
    whose two observations are 2e308 apart, no sentiment reading. *)
Definition nan_context : StrategyContext :=
  mkStrategyContext (mkIndicatorResult PrimFloat.nan (0.0 - 0.4 + -0.3)) PrimFloat.nan 0.0.

Definition rising_prices : list float :=
  map of_int [1; 2; 3; 4; 5; 6; 7; 8; 9; 10; 11; 12; 13; 14; 15]%Z.

Definition wide_history : Dict.t (list float) :=
  [("network_growth"%string, [-1e308; 1e308])].

(** Positive finite prices whose gains and whose losses each sum beyond the
    largest float. *)
Definition swinging_prices : list float := [1; 1.7e308; 1; 1.7e308; 1].

End IEEE.

(** ** Specification-side definitions and sample inputs *)

(** The specification's [clamp(x, lo, hi)]: [x] limited to [lo, hi]. *)
Definition clamp (x lo hi : Q) : Q :=
  if Py.ltb x lo then lo else if Py.ltb hi x then hi else x.

(** A series all of whose elements are equal. *)
Definition constant_series (values : list Q) : Prop :=
  forall a b, In a values -> In b values -> a == b.

(** The loop invariant of [relative_strength_index] before index [k], for
    an input of [n] values and a period [p]: both smoothed averages are
    non-negative, the positions below [p] are still NaN and those from [p] up
    to [k] hold a value of [0, 100]. *)
Record rsi_inv (n p k : nat) (st : rsi_state) : Prop := mkRsiInv {
  inv_gain : 0 <= rs_avg_gain st;
  inv_loss : 0 <= rs_avg_loss st;
  inv_len : length (rs_values st) = n;
  inv_head : forall i, (i < p)%nat -> nth_error (rs_values st) i = Some nan;
  inv_done : forall i, (p <= i < k)%nat ->
               exists r, nth_error (rs_values st) i = Some (Some r) /\ 0 <= r <= 100
}.

(** A loop invariant of [relative_strength_index] before index [k]: the
    two averages are related by [I] and the positions from [p] up to [k]
    hold a value of [T]. *)
Definition rsi_generic_inv (n p : nat) (I : Q -> Q -> Prop) (T : Q -> Prop)
                           (k : nat) (st : rsi_state) : Prop :=
  I (rs_avg_gain st) (rs_avg_loss st)
  /\ length (rs_values st) = n
  /\ forall i, (p <= i < k)%nat ->
       exists r, nth_error (rs_values st) i = Some (Some r) /\ T r.

(** The loop invariant of [average_true_range] before index [k], for [n]
    candles and a period [p]: the positions below [p - 1] are still NaN,
    those from [p - 1] up to [k] hold a value, and under the condition [cond]
    the running average and these values are not negative. *)
Definition atr_inv (n p : nat) (cond : Prop) (k : nat) (st : atr_state) : Prop :=
  (cond -> 0 <= as_atr st)
  /\ length (as_values st) = n
  /\ (forall i, (i + 1 < p)%nat -> (i < n)%nat -> nth_error (as_values st) i = Some nan)
  /\ (forall i, (p <= i + 1)%nat -> (i < k)%nat ->
        exists a, nth_error (as_values st) i = Some (Some a) /\ (cond -> 0 <= a)).

(** The inputs [generate_technical_signal] accepts. *)
Definition enough_prices (prices : list Q) (config : TechnicalConfig) : Prop :=
  (0 < fast_ma config)%Z /\ (0 < slow_ma config)%Z /\ (0 < rsi_period config)%Z
  /\ (rsi_period config + 1 <= Z.of_nat (length prices))%Z.

(** The keys of a dictionary, and what makes an association list a
    dictionary: no key twice. *)
Definition keys {V : Type} (d : Dict.t V) : list string := map fst d.

Definition well_formed {V : Type} (d : Dict.t V) : Prop := NoDup (keys d).

(** The equities given to [update_equity] in a sequence of calls, and the
    manager the sequence leaves behind. *)
Definition equities (ops : list Risk.op) : list Q :=
  flat_map (fun o => match o with
                     | Risk.UpdateEquity equity => [equity]
                     | _ => []
                     end) ops.

Definition after_calls (self : Risk.RiskManager) (ops : list Risk.op) : Risk.RiskManager :=
  fold_left Risk.exec ops self.

(** The interval [-1, 1] of a valid sentiment score. *)
Definition unit_interval (v : Q) : Prop := -1 <= v <= 1.

(** A list of numbers that never decreases from one element to the next. *)
Fixpoint nondecreasing (l : list Q) : Prop :=
  match l with
  | a :: (b :: _) as tl => a <= b /\ nondecreasing tl
  | _ => True
  end.

(** A list of numbers that decreases from each element to the next. *)
Fixpoint strictly_decreasing (l : list Q) : Prop :=
  match l with
  | a :: (b :: _) as tl => b < a /\ strictly_decreasing tl
  | _ => True
  end.

(** The peak equity before a sequence of calls and after each of them. *)
Definition peaks (self : Risk.RiskManager) (ops : list Risk.op) : list Q :=
  map Risk._peak_equity (self :: Risk.run self ops).



(** A fresh agent with the default configuration, and a market of 32
    one-minute candles: closes 1 to 15, then 1 seventeen times. *)
Definition sample_agent : Trader.Agent := Trader.init DEFAULT_CONFIG 0%Z.

Definition candle (c : Z) : Trader.Kline :=
  Trader.mkKline 0 (inject_Z c) (inject_Z c + 1) (inject_Z c - 1) (inject_Z c) 1.

Definition sample_world : Trader.World :=
  Trader.mkWorld
    (map candle [1; 2; 3; 4; 5; 6; 7; 8; 9; 10; 11; 12; 13; 14; 15; 1; 1; 1; 1; 1; 1;
                 1; 1; 1; 1; 1; 1; 1; 1; 1; 1; 1]%Z)
    1000000000%Z
    (Execution.mkDraws 1000000000%Z 0.95 0.0001)
    1000000001%Z.

Definition sample_fundamentals : Dict.t (list Q) :=
  [("network_growth"%string, [1; 2; 3])].

Definition sample_readings : list SentimentReading :=
  [mkSentimentReading "twitter" 1.0].

(** A dashboard engine on the sample agent, fed the sample candles. *)
Definition sample_engine : Dashboard.RecommendationEngine :=
  Dashboard.mkRecommendationEngine sample_agent
                                   (fun _ => sample_fundamentals) (fun _ => sample_readings).

Definition sample_feed (i : nat) : Dashboard.Feed :=
  Dashboard.mkFeed (Trader.klines sample_world) (Z.of_nat i).

(** The prices of the end-to-end RSI test. *)
Definition prices_1_to_15 : list Q :=
  map inject_Z [1; 2; 3; 4; 5; 6; 7; 8; 9; 10; 11; 12; 13; 14; 15]%Z.

(** * Properties *)

(** ** Comparisons, [min] and [max] *)

Lemma ltb_lt (a b : Q) : Py.ltb a b = true <-> a < b.
Proof.
  unfold Py.ltb. rewrite negb_true_iff. split; intro H.
  - apply Qnot_le_lt. intro Hle. apply Qle_bool_iff in Hle. congruence.
  - destruct (Qle_bool b a) eqn:E; [|reflexivity].
    apply Qle_bool_iff in E. exfalso. apply (Qlt_not_le _ _ H E).
Qed.

Lemma ltb_ge (a b : Q) : Py.ltb a b = false <-> b <= a.
Proof.
  unfold Py.ltb. rewrite negb_false_iff. apply Qle_bool_iff.
Qed.

Lemma eqb_neq (a b : Q) : Qeq_bool a b = false <-> ~ a == b.
Proof.
  split; intro H.
  - intro E. apply Qeq_bool_iff in E. congruence.
  - destruct (Qeq_bool a b) eqn:E; [|reflexivity].
    apply Qeq_bool_iff in E. contradiction.
Qed.

(** Case analysis on a comparison, leaving the order fact in the context. *)
Ltac case_ltb a b :=
  let E := fresh "E" in
  destruct (Py.ltb a b) eqn:E;
  [apply ltb_lt in E | apply ltb_ge in E].

Ltac case_eqb a b :=
  let E := fresh "E" in
  destruct (Qeq_bool a b) eqn:E;
  [apply Qeq_bool_iff in E | apply eqb_neq in E].

Lemma min_le_r (a b : Q) : Py.min a b <= b.
Proof. unfold Py.min. case_ltb b a; lra. Qed.

Lemma max_ge_r (a b : Q) : b <= Py.max a b.
Proof. unfold Py.max. case_ltb a b; lra. Qed.

(** ** Sums of bounded lists *)

Lemma fold_plus_bounds (lo hi : Q) (l : list Q) :
  Forall (fun x => lo <= x <= hi) l ->
  forall a b c : Q, b <= a <= c ->
    b + inject_Z (Z.of_nat (length l)) * lo <= fold_left Qplus l a
    /\ fold_left Qplus l a <= c + inject_Z (Z.of_nat (length l)) * hi.
Proof.
  induction 1 as [|x l Hx Hl IH]; intros a b c Hab.
  - simpl. unfold inject_Z. simpl. lra.
  - cbn [fold_left length].
    destruct (IH (a + x) (b + lo) (c + hi)) as [H1 H2]; [lra|].
    rewrite Nat2Z.inj_succ. unfold Z.succ. rewrite inject_Z_plus.
    change (inject_Z 1) with 1. set (n := inject_Z (Z.of_nat (length l))) in *.
    split.
    + apply Qle_trans with (2 := H1). apply Qle_lteq. right. ring.
    + apply Qle_trans with (1 := H2). apply Qle_lteq. right. ring.
Qed.

Lemma sum_nonneg (l : list Q) : Forall (fun x => 0 <= x) l -> 0 <= Py.sum l.
Proof.
  intro H. unfold Py.sum.
  assert (G : forall a, 0 <= a -> 0 <= fold_left Qplus l a).
  { induction H as [|x l Hx Hl IH]; intros a Ha; simpl; [exact Ha|].
    apply IH. lra. }
  apply G. lra.
Qed.

Lemma inject_Z_pos (z : Z) : (0 < z)%Z -> 0 < inject_Z z.
Proof. intro H. unfold Qlt, inject_Z. simpl. lia. Qed.

Lemma inject_Z_nonneg (z : Z) : (0 <= z)%Z -> 0 <= inject_Z z.
Proof. intro H. unfold Qle, inject_Z. simpl. lia. Qed.

Lemma div_nonneg (a b : Q) : 0 <= a -> 0 < b -> 0 <= a / b.
Proof. intros Ha Hb. apply Qle_shift_div_l; [exact Hb | lra]. Qed.

(** ** Lists: positions and assignment *)

Lemma getitem_lt {A : Type} (l : list A) (i : nat) :
  (i < length l)%nat -> exists a, Py.getitem l i = Ok a /\ nth_error l i = Some a.
Proof.
  intro H. unfold Py.getitem. destruct (nth_error l i) as [a|] eqn:E.
  - exists a. split; reflexivity.
  - apply nth_error_None in E. lia.
Qed.



Lemma setitem_lt {A : Type} (l : list A) (i : nat) (v : A) :
  (i < length l)%nat ->
  exists l', Py.setitem l i v = Ok l'
             /\ length l' = length l
             /\ nth_error l' i = Some v
             /\ forall j, j <> i -> nth_error l' j = nth_error l j.
Proof.
  revert i. induction l as [|a l IH]; intros i H; simpl in H; [lia|].
  destruct i as [|j]; simpl.
  - exists (v :: l). repeat split. intros [|j] Hj; [congruence | reflexivity].
  - destruct (IH j) as (l' & E & Hlen & Hnth & Hother); [lia|].
    rewrite E. simpl. exists (a :: l'). repeat split.
    + simpl. now rewrite Hlen.
    + exact Hnth.
    + intros [|k] Hk; simpl; [reflexivity|]. apply Hother. congruence.
Qed.

Lemma nth_error_replicate {A : Type} (v : A) (n i : nat) :
  (i < n)%nat -> nth_error (Py.replicate v n) i = Some v.
Proof.
  unfold Py.replicate. revert i. induction n as [|n IH]; intros i H; [lia|].
  destruct i as [|j]; simpl; [reflexivity|]. apply IH. lia.
Qed.

Lemma length_replicate {A : Type} (v : A) (n : nat) : length (Py.replicate v n) = n.
Proof. apply repeat_length. Qed.

Lemma Forall_slice {A : Type} (P : A -> Prop) (l : list A) (lo hi : nat) :
  Forall P l -> Forall P (Py.slice l lo hi).
Proof.
  intro H. unfold Py.slice.
  rewrite <- (firstn_skipn lo l) in H. apply Forall_app in H. destruct H as [_ H].
  rewrite <- (firstn_skipn (hi - lo) (skipn lo l)) in H. apply Forall_app in H.
  apply H.
Qed.

(** ** [relative_strength_index] *)

Lemma deltas_length (values : list Q) :
  length (deltas values) = (length values - 1)%nat.
Proof.
  induction values as [|a [|b tl] IH]; [reflexivity | reflexivity |].
  change (deltas (a :: b :: tl)) with ((b - a) :: deltas (b :: tl)).
  cbn [length] in *. lia.
Qed.

Lemma gains_length (values : list Q) :
  values <> [] -> length (gains_of values) = length values.
Proof.
  intro H. unfold gains_of. cbn [length]. rewrite length_map, deltas_length.
  destruct values; [congruence | cbn [length]; lia].
Qed.

Lemma losses_length (values : list Q) :
  values <> [] -> length (losses_of values) = length values.
Proof.
  intro H. unfold losses_of. cbn [length]. rewrite length_map, deltas_length.
  destruct values; [congruence | cbn [length]; lia].
Qed.

Lemma gains_nonneg (values : list Q) : Forall (fun g => 0 <= g) (gains_of values).
Proof.
  unfold gains_of. constructor; [lra|].
  apply Forall_map, Forall_forall. intros delta _. apply max_ge_r.
Qed.

Lemma losses_nonneg (values : list Q) : Forall (fun l => 0 <= l) (losses_of values).
Proof.
  unfold losses_of. constructor; [lra|].
  apply Forall_map, Forall_forall. intros delta _. apply Qabs_nonneg.
Qed.

(** [compute_rsi] returns, and within [0, 100], on non-negative averages. *)
Lemma compute_rsi_range (avg_gain avg_loss : Q) :
  0 <= avg_gain -> 0 <= avg_loss ->
  exists r, compute_rsi avg_gain avg_loss = Ok r /\ 0 <= r <= 100.
Proof.
  intros Hg Hl. unfold compute_rsi. case_eqb avg_loss 0.
  - exists 100.0. split; [reflexivity | lra].
  - assert (Hpos : 0 < avg_loss).
    { apply Qle_lteq in Hl. destruct Hl as [Hl|Hl]; [exact Hl|].
      exfalso. apply E. symmetry. exact Hl. }
    pose proof (div_nonneg _ _ Hg Hpos) as Hrs.
    set (rs := avg_gain / avg_loss) in *.
    unfold Py.div. case_eqb (1.0 + rs) 0; [lra|]. cbn [bind].
    eexists. split; [reflexivity|].
    assert (H1 : 0 <= 100.0 / (1.0 + rs)) by (apply div_nonneg; lra).
    assert (H2 : 100.0 / (1.0 + rs) <= 100).
    { apply Qle_shift_div_r; lra. }
    lra.
Qed.

(** One step of Wilder smoothing keeps a non-negative average non-negative. *)
Lemma smoothed_nonneg (avg new : Q) (period : Z) :
  (0 < period)%Z -> 0 <= avg -> 0 <= new ->
  0 <= (avg * inject_Z (period - 1) + new) / inject_Z period.
Proof.
  intros Hp Ha Hn. apply div_nonneg; [|now apply inject_Z_pos].
  assert (H : 0 <= inject_Z (period - 1)) by (apply inject_Z_nonneg; lia).
  pose proof (Qmult_le_0_compat _ _ Ha H). lra.
Qed.

Section RsiLoop.

Variable period : Z.
Variables gains losses : list Q.
Variable n : nat.
Let p := Z.to_nat period.

Hypothesis period_pos : (0 < period)%Z.
Hypothesis gains_len : length gains = n.
Hypothesis losses_len : length losses = n.
Hypothesis gains_ge0 : Forall (fun g => 0 <= g) gains.
Hypothesis losses_ge0 : Forall (fun l => 0 <= l) losses.

Lemma rsi_step_inv (k : nat) (st : rsi_state) :
  (p < k < n)%nat -> rsi_inv n p k st ->
  exists st', rsi_step period gains losses st k = Ok st' /\ rsi_inv n p (S k) st'.
Proof.
  intros Hk [Hg Hl Hlen Hhead Hdone]. unfold rsi_step.
  destruct (getitem_lt gains k) as (g & Eg & Ng); [lia|].
  destruct (getitem_lt losses k) as (l & El & Nl); [lia|].
  rewrite Eg, El. cbn [bind].
  assert (Hg0 : 0 <= g).
  { exact (proj1 (Forall_forall _ _) gains_ge0 g (nth_error_In _ _ Ng)). }
  assert (Hl0 : 0 <= l).
  { exact (proj1 (Forall_forall _ _) losses_ge0 l (nth_error_In _ _ Nl)). }
  pose proof (smoothed_nonneg _ _ _ period_pos Hg Hg0) as Hg'.
  pose proof (smoothed_nonneg _ _ _ period_pos Hl Hl0) as Hl'.
  destruct (compute_rsi_range _ _ Hg' Hl') as (r & Er & Hr). rewrite Er. cbn [bind].
  destruct (setitem_lt (rs_values st) k (Some r)) as (out & Eo & Olen & Onth & Oother);
    [lia|].
  rewrite Eo. cbn [bind]. eexists. split; [reflexivity|].
  constructor; cbn [rs_avg_gain rs_avg_loss rs_values].
  - exact Hg'.
  - exact Hl'.
  - congruence.
  - intros i Hi. rewrite Oother by lia. now apply Hhead.
  - intros i Hi. destruct (Nat.eq_dec i k) as [->|Hne].
    + exists r. split; assumption.
    + rewrite Oother by exact Hne. apply Hdone. lia.
Qed.

Lemma rsi_loop_inv (m k : nat) (st : rsi_state) :
  (k + m = n)%nat -> (p < k)%nat -> rsi_inv n p k st ->
  exists st', for_each (rsi_step period gains losses) (seq k m) st = Ok st'
              /\ rsi_inv n p n st'.
Proof.
  revert k st. induction m as [|m IH]; intros k st Hkm Hpk Hinv.
  - exists st. split; [reflexivity|].
    assert (Ek : k = n) by lia. rewrite Ek in Hinv. exact Hinv.
  - cbn [seq for_each].
    destruct (rsi_step_inv k st) as (st1 & E1 & Hinv1); [lia | exact Hinv |].
    rewrite E1. cbn [bind]. apply IH; [lia | lia | exact Hinv1].
Qed.

End RsiLoop.

(** One step of the loop keeps the two smoothed averages from being
    negative. *)
Lemma rsi_step_averages (period : Z) (values : list Q) (st st' : rsi_state) (idx : nat) :
  (0 < period)%Z ->
  ~ rs_avg_gain st < 0 -> ~ rs_avg_loss st < 0 ->
  rsi_step period (gains_of values) (losses_of values) st idx = Ok st' ->
  ~ rs_avg_gain st' < 0 /\ ~ rs_avg_loss st' < 0.
Proof.
  intros Hp Hg Hl. unfold rsi_step, Py.getitem.
  destruct (nth_error (gains_of values) idx) as [g|] eqn:Eg; [|discriminate].
  destruct (nth_error (losses_of values) idx) as [l|] eqn:El; [|discriminate].
  cbn [bind].
  destruct (compute_rsi _ _) as [r|]; [|discriminate]. cbn [bind].
  destruct (Py.setitem _ _ _) as [out|]; [|discriminate]. cbn [bind].
  intro H. injection H as <-. cbn [rs_avg_gain rs_avg_loss].
  assert (Hg0 : 0 <= g).
  { exact (proj1 (Forall_forall _ _) (gains_nonneg values) g (nth_error_In _ _ Eg)). }
  assert (Hl0 : 0 <= l).
  { exact (proj1 (Forall_forall _ _) (losses_nonneg values) l (nth_error_In _ _ El)). }
  split; apply Qle_not_lt, smoothed_nonneg; try assumption; apply Qnot_lt_le; assumption.
Qed.

(** C3, as the code has it. For every period > 0 and every input of at
    least period + 1 values, [relative_strength_index] returns a list as
    long as its input whose entries below [period] are NaN and whose every
    defined (non-NaN) entry is at an index from [period] on and lies in
    [0, 100]; the seeds of the smoothed average gain and loss are not
    negative and no step of the loop makes them negative. *)
Theorem rsi_defined_in_0_100 (values : list Q) (period : Z) :
  (0 < period)%Z -> (period + 1 <= Z.of_nat (length values))%Z ->
  (exists out,
     relative_strength_index values period = Ok out
     /\ length out = length values
     /\ (forall i, (i < Z.to_nat period)%nat -> nth_error out i = Some nan)
     /\ (forall i r, nth_error out i = Some (Some r) ->
           (Z.to_nat period <= i)%nat /\ 0 <= r <= 100))
  /\ ~ Py.sum (Py.slice (gains_of values) 1 (Z.to_nat period + 1)) / inject_Z period < 0
  /\ ~ Py.sum (Py.slice (losses_of values) 1 (Z.to_nat period + 1)) / inject_Z period < 0
  /\ (forall st idx st',
        ~ rs_avg_gain st < 0 -> ~ rs_avg_loss st < 0 ->
        rsi_step period (gains_of values) (losses_of values) st idx = Ok st' ->
        ~ rs_avg_gain st' < 0 /\ ~ rs_avg_loss st' < 0).
Proof.
  intros Hp Hlen.
  set (p := Z.to_nat period). set (n := length values).
  set (avg_gain := Py.sum (Py.slice (gains_of values) 1 (p + 1)) / inject_Z period).
  set (avg_loss := Py.sum (Py.slice (losses_of values) 1 (p + 1)) / inject_Z period).
  assert (Hg : 0 <= avg_gain).
  { apply div_nonneg; [|now apply inject_Z_pos].
    apply sum_nonneg, Forall_slice, gains_nonneg. }
  assert (Hl : 0 <= avg_loss).
  { apply div_nonneg; [|now apply inject_Z_pos].
    apply sum_nonneg, Forall_slice, losses_nonneg. }
  split; [|split; [now apply Qle_not_lt | split; [now apply Qle_not_lt|]]].
  2:{ intros st idx st'. now apply rsi_step_averages. }
  unfold relative_strength_index.
  destruct (Z.leb_spec period 0) as [Hle|_]; [lia|].
  destruct (Z.ltb_spec (Z.of_nat (length values)) (period + 1)) as [Hlt|_]; [lia|].
  assert (Hpn : (p < n)%nat) by (subst p n; lia).
  assert (Hne : values <> []) by (intros ->; cbn in Hlen; lia).
  cbv zeta. fold p n avg_gain avg_loss.
  destruct (compute_rsi_range _ _ Hg Hl) as (r & Er & Hr). rewrite Er. cbn [bind].
  destruct (setitem_lt (Py.replicate nan n) p (Some r)) as (out0 & E0 & Olen & Onth & Oother).
  { rewrite length_replicate. exact Hpn. }
  rewrite E0. cbn [bind]. rewrite length_replicate in Olen.
  destruct (rsi_loop_inv period (gains_of values) (losses_of values) n Hp
              (gains_length _ Hne) (losses_length _ Hne)
              (gains_nonneg _) (losses_nonneg _)
              (n - (p + 1)) (p + 1) (mkRsiState avg_gain avg_loss out0))
    as (st & Est & [_ _ Slen Shead Sdone]).
  - lia.
  - fold p. lia.
  - constructor; cbn [rs_avg_gain rs_avg_loss rs_values]; fold p.
    + exact Hg.
    + exact Hl.
    + exact Olen.
    + intros i Hi. rewrite Oother by lia. apply nth_error_replicate. lia.
    + intros i Hi. assert (i = p) as -> by lia. exists r. split; assumption.
  - unfold Py.range. rewrite Est. cbn [bind]. exists (rs_values st).
    split; [reflexivity|]. split; [exact Slen|]. split; [exact Shead|].
    intros i x Hx.
    assert (Hi : (i < n)%nat).
    { rewrite <- Slen. apply nth_error_Some. congruence. }
    destruct (Nat.lt_ge_cases i p) as [Hlt|Hge].
    + rewrite (Shead i Hlt) in Hx. discriminate.
    + split; [exact Hge|].
      destruct (Sdone i (conj Hge Hi)) as (x' & Ex & Hx').
      rewrite Ex in Hx. injection Hx as <-. exact Hx'.
Qed.

Lemma rsi_defined_in_0_100_witness :
  (exists out,
     relative_strength_index prices_1_to_15 14 = Ok out
     /\ length out = length prices_1_to_15
     /\ (forall i, (i < Z.to_nat 14)%nat -> nth_error out i = Some nan)
     /\ (forall i r, nth_error out i = Some (Some r) ->
           (Z.to_nat 14 <= i)%nat /\ 0 <= r <= 100))
  /\ ~ Py.sum (Py.slice (gains_of prices_1_to_15) 1 (Z.to_nat 14 + 1)) / inject_Z 14 < 0
  /\ ~ Py.sum (Py.slice (losses_of prices_1_to_15) 1 (Z.to_nat 14 + 1)) / inject_Z 14 < 0
  /\ (forall st idx st',
        ~ rs_avg_gain st < 0 -> ~ rs_avg_loss st < 0 ->
        rsi_step 14 (gains_of prices_1_to_15) (losses_of prices_1_to_15) st idx = Ok st' ->
        ~ rs_avg_gain st' < 0 /\ ~ rs_avg_loss st' < 0).
Proof.
  apply (rsi_defined_in_0_100 prices_1_to_15 14); [lia | simpl; lia].
Defined.

(** On floats an entry at an index from [period] on can itself be NaN:
    when the gains and the losses of the first [period] differences both sum
    to infinity, the relative strength is inf / inf.  The entry at index
    [period] of the RSI of [swinging_prices] (period 4) is NaN, so it is
    neither at least 0 nor at most 100. *)
Lemma rsi_nan_at_period :
  exists out r,
    IEEE.relative_strength_index IEEE.swinging_prices 4 = Ok out
    /\ nth_error out 4 = Some r
    /\ is_nan r = true
    /\ (0 <=? r)%float = false /\ (r <=? 100)%float = false.
Proof.
  exists [PrimFloat.nan; PrimFloat.nan; PrimFloat.nan; PrimFloat.nan; PrimFloat.nan], PrimFloat.nan. repeat split; vm_compute; reflexivity.
Qed.

(** ** Comparisons of floats *)

Lemma SFcompare_antisym (a b : spec_float) (c : comparison) :
  SFcompare a b = Some c -> SFcompare b a = Some (CompOpp c).
Proof.
  destruct a as [sa|sa| |sa ma ea], b as [sb|sb| |sb mb eb]; cbn;
    try discriminate; intro H; injection H as <-;
    try (destruct sa; reflexivity); try (destruct sb; reflexivity);
    try (destruct sa, sb; reflexivity).
  destruct sa, sb; try reflexivity.
  - rewrite (Z.compare_antisym ea eb). destruct (ea ?= eb)%Z; cbn; try reflexivity.
    rewrite (Pos.compare_cont_antisym ma mb Eq). cbn.
    destruct (PosDef.Pos.compare_cont Eq ma mb); reflexivity.
  - rewrite (Z.compare_antisym ea eb). destruct (ea ?= eb)%Z; cbn; try reflexivity.
    rewrite (Pos.compare_cont_antisym ma mb Eq). cbn.
    destruct (PosDef.Pos.compare_cont Eq ma mb); reflexivity.
Qed.

Lemma SFcompare_none (a b : spec_float) :
  SFcompare a b = None -> a = S754_nan \/ b = S754_nan.
Proof. destruct a, b; cbn; try discriminate; auto. Qed.

Lemma SFcompare_refl (a : spec_float) : a <> S754_nan -> SFcompare a a = Some Eq.
Proof.
  destruct a as [s|s| |s m e]; cbn; intro H; try reflexivity; try congruence.
  - destruct s; reflexivity.
  - rewrite Z.compare_refl.
    assert (E : PosDef.Pos.compare_cont Eq m m = Eq) by apply Pos.compare_cont_refl.
    rewrite E. destruct s; reflexivity.
Qed.

(** [x != x] holds of NaN only. *)
Lemma is_nan_spec (x : float) : is_nan x = true <-> Prim2SF x = S754_nan.
Proof.
  unfold is_nan. rewrite FloatAxioms.eqb_spec. unfold SFeqb. split.
  - destruct (Prim2SF x) eqn:E; try reflexivity; intro H; exfalso;
      rewrite SFcompare_refl in H by discriminate; discriminate.
  - intros ->. reflexivity.
Qed.

(** Every comparison with NaN is false. *)
Lemma float_ltb_nan_l (x y : float) : is_nan x = true -> (x <? y)%float = false.
Proof.
  intro H. apply is_nan_spec in H. rewrite FloatAxioms.ltb_spec. unfold SFltb. now rewrite H.
Qed.

Lemma float_ltb_nan_r (x y : float) : is_nan y = true -> (x <? y)%float = false.
Proof.
  intro H. apply is_nan_spec in H. rewrite FloatAxioms.ltb_spec. unfold SFltb. rewrite H.
  now destruct (Prim2SF x).
Qed.

Lemma float_leb_nan_l (x y : float) : is_nan x = true -> (x <=? y)%float = false.
Proof.
  intro H. apply is_nan_spec in H. rewrite FloatAxioms.leb_spec. unfold SFleb. now rewrite H.
Qed.

Lemma float_leb_nan_r (x y : float) : is_nan y = true -> (x <=? y)%float = false.
Proof.
  intro H. apply is_nan_spec in H. rewrite FloatAxioms.leb_spec. unfold SFleb. rewrite H.
  now destruct (Prim2SF x).
Qed.

(** Two numbers are ordered one way or the other. *)
Lemma float_not_ltb_leb (x y : float) :
  is_nan x = false -> is_nan y = false ->
  (x <? y)%float = false -> (y <=? x)%float = true.
Proof.
  intros Hx Hy. rewrite FloatAxioms.ltb_spec, FloatAxioms.leb_spec. unfold SFltb, SFleb.
  destruct (SFcompare (Prim2SF x) (Prim2SF y)) as [c|] eqn:E.
  - rewrite (SFcompare_antisym _ _ _ E). destruct c; cbn; congruence.
  - apply SFcompare_none in E. destruct E as [E|E]; apply is_nan_spec in E; congruence.
Qed.

(** Nothing above a positive number is below a negative one. *)
Lemma SFltb_pos_neg (x : spec_float) (m1 m2 : positive) (e1 e2 : Z) :
  SFltb (S754_finite false m1 e1) x = true -> SFltb x (S754_finite true m2 e2) = false.
Proof.
  unfold SFltb. destruct x as [s|s| |s m e]; try destruct s; simpl; congruence.
Qed.

Lemma above_1_not_below_minus_1 (x : float) :
  (1.0 <? x)%float = true -> (x <? -1.0)%float = false.
Proof.
  rewrite !FloatAxioms.ltb_spec.
  assert (E1 : Prim2SF 1.0 = S754_finite false 4503599627370496 (-52))
    by (vm_compute; reflexivity).
  assert (E2 : Prim2SF (-1.0) = S754_finite true 4503599627370496 (-52))
    by (vm_compute; reflexivity).
  rewrite E1, E2. apply SFltb_pos_neg.
Qed.

(** ** [composite_signal] *)

(** The composite signal is the clamp of the weighted sum, NaN included. *)
Lemma composite_signal_is_clamp (ctx : IEEE.StrategyContext) :
  IEEE.composite_signal ctx = IEEE.clamp (IEEE.weighted_sum ctx) (-1.0) 1.0.
Proof.
  unfold IEEE.composite_signal, IEEE.clamp. fold (IEEE.weighted_sum ctx).
  set (x := IEEE.weighted_sum ctx). unfold IEEE.max, IEEE.min.
  destruct (1.0 <? x)%float eqn:E1.
  - rewrite (above_1_not_below_minus_1 x E1).
    assert (E : (1.0 <? -1.0)%float = false) by (vm_compute; reflexivity).
    rewrite E. reflexivity.
  - reflexivity.
Qed.

(** When the weighted sum is a number, infinite or not, the composite signal
    lies in [-1, 1]. *)
Lemma composite_signal_of_number (ctx : IEEE.StrategyContext) :
  is_nan (IEEE.weighted_sum ctx) = false ->
  (-1.0 <=? IEEE.composite_signal ctx)%float = true
  /\ (IEEE.composite_signal ctx <=? 1.0)%float = true.
Proof.
  intro Hn. rewrite composite_signal_is_clamp. unfold IEEE.clamp.
  set (x := IEEE.weighted_sum ctx) in *.
  destruct (x <? -1.0)%float eqn:E1; [split; vm_compute; reflexivity|].
  destruct (1.0 <? x)%float eqn:E2; [split; vm_compute; reflexivity|].
  split; apply float_not_ltb_leb; auto.
Qed.

(** Finite inputs from which the pipeline builds a context whose fundamental
    score is NaN: the two observations of the one metric are 2e308 apart, so
    [normalize_metric] computes inf / inf. *)
Lemma nan_context_is_built :
  IEEE.normalize_metric [-1e308; 1e308]%float = Ok PrimFloat.nan
  /\ IEEE.build_strategy_context IEEE.rising_prices default_technical
       IEEE.wide_history IEEE.default_metrics_weights [] 0.2%float
     = Ok IEEE.nan_context.
Proof. split; vm_compute; reflexivity. Qed.

(** C2. The composite signal is documented to lie between -1 and 1, but
    [max(min(x, 1.0), -1.0)] passes a NaN through: for every strategy context
    whose weighted sum technical.signal * 0.5 + fundamental * 0.3 +
    sentiment * 0.2 is NaN, the composite signal is NaN, hence neither at
    least -1 nor at most 1. *)
Theorem composite_signal_nan (ctx : IEEE.StrategyContext) :
  is_nan (IEEE.weighted_sum ctx) = true ->
  is_nan (IEEE.composite_signal ctx) = true
  /\ (-1.0 <=? IEEE.composite_signal ctx)%float = false
  /\ (IEEE.composite_signal ctx <=? 1.0)%float = false.
Proof.
  intro Hn. rewrite composite_signal_is_clamp. unfold IEEE.clamp.
  rewrite (float_ltb_nan_l _ _ Hn), (float_ltb_nan_r _ _ Hn).
  split; [exact Hn|].
  split; [now apply float_leb_nan_r | now apply float_leb_nan_l].
Qed.

Lemma composite_signal_nan_witness :
  is_nan (IEEE.weighted_sum IEEE.nan_context) = true
  /\ is_nan (IEEE.composite_signal IEEE.nan_context) = true
  /\ (-1.0 <=? IEEE.composite_signal IEEE.nan_context)%float = false
  /\ (IEEE.composite_signal IEEE.nan_context <=? 1.0)%float = false.
Proof.
  split; [vm_compute; reflexivity|].
  apply (composite_signal_nan IEEE.nan_context). vm_compute. reflexivity.
Defined.

(** ** Neutral values *)

Lemma max_list_constant (x : Q) (rest : list Q) :
  (forall b, In b rest -> b == x) -> Py.max_list x rest = x.
Proof.
  unfold Py.max_list. induction rest as [|b rest IH]; intro H; [reflexivity|].
  cbn [fold_left]. assert (Hb : b == x) by (apply H; now left).
  unfold Py.max at 2. case_ltb x b; [lra|]. apply IH. intros c Hc. apply H. now right.
Qed.

Lemma min_list_constant (x : Q) (rest : list Q) :
  (forall b, In b rest -> b == x) -> Py.min_list x rest = x.
Proof.
  unfold Py.min_list. induction rest as [|b rest IH]; intro H; [reflexivity|].
  cbn [fold_left]. assert (Hb : b == x) by (apply H; now left).
  unfold Py.min at 2. case_ltb b x; [lra|]. apply IH. intros c Hc. apply H. now right.
Qed.

(** C4. The three edge cases return a neutral value and do not raise:
    [normalize_metric] returns 0.0 on the empty series, on every series whose
    maximum equals its minimum and so on every constant series; [compute_rsi]
    returns 100.0 whenever the average loss is 0; [aggregate_sentiment]
    returns 0.0 on no readings. *)
Theorem neutral_values :
  normalize_metric [] = Ok 0.0
  /\ (forall x rest, Py.max_list x rest == Py.min_list x rest ->
        normalize_metric (x :: rest) = Ok 0.0)
  /\ (forall values, constant_series values -> normalize_metric values = Ok 0.0)
  /\ (forall avg_gain avg_loss, avg_loss == 0 -> compute_rsi avg_gain avg_loss = Ok 100.0)
  /\ (forall alpha, aggregate_sentiment [] alpha = Ok 0.0).
Proof.
  assert (Hmm : forall x rest, Py.max_list x rest == Py.min_list x rest ->
                  normalize_metric (x :: rest) = Ok 0.0).
  { intros x rest H. unfold normalize_metric.
    apply Qeq_bool_iff in H. now rewrite H. }
  repeat split.
  - exact Hmm.
  - intros [|x rest] H; [reflexivity|]. apply Hmm.
    assert (Hall : forall b, In b rest -> b == x).
    { intros b Hb. apply H; [now right | now left]. }
    rewrite max_list_constant, min_list_constant by exact Hall. reflexivity.
  - intros g l H. unfold compute_rsi. apply Qeq_bool_iff in H. now rewrite H.
Qed.

Lemma neutral_values_witness :
  normalize_metric [5; 5; 5] = Ok 0.0 /\ compute_rsi 3 (0 # 7) = Ok 100.0.
Proof.
  destruct neutral_values as (_ & _ & Hconst & Hrsi & _). split.
  - apply Hconst. intros a b Ha Hb. simpl in Ha, Hb.
    destruct Ha as [<-|[<-|[<-|[]]]]; destruct Hb as [<-|[<-|[<-|[]]]]; reflexivity.
  - apply Hrsi. reflexivity.
Defined.

(** ** [aggregate_sentiment] *)

Lemma exponential_smoothing_bounded (previous current alpha : Q) :
  0 <= alpha <= 1 -> unit_interval previous -> unit_interval current ->
  unit_interval (exponential_smoothing previous current alpha).
Proof.
  unfold unit_interval, exponential_smoothing. intros Ha Hp Hc. split; nra.
Qed.

Lemma dict_get_default_bounded (d : Dict.t Q) (k : string) :
  Forall unit_interval (Dict.values d) -> unit_interval (Dict.get_default d k 0.0).
Proof.
  unfold Dict.get_default. induction d as [|[k' v] d IH]; intro H; cbn.
  - unfold unit_interval. lra.
  - inversion H; subst. destruct (String.eqb k' k); [assumption | now apply IH].
Qed.

Lemma dict_set_bounded (d : Dict.t Q) (k : string) (v : Q) :
  Forall unit_interval (Dict.values d) -> unit_interval v ->
  Forall unit_interval (Dict.values (Dict.set d k v)).
Proof.
  induction d as [|[k' v'] d IH]; intros H Hv; cbn.
  - constructor; [exact Hv | constructor].
  - inversion H; subst. destruct (String.eqb k' k); cbn.
    + constructor; assumption.
    + constructor; [assumption | now apply IH].
Qed.

Lemma smooth_readings_bounded (readings : list SentimentReading) (alpha : Q) :
  0 <= alpha <= 1 ->
  Forall (fun r => unit_interval (score r)) readings ->
  Forall unit_interval (Dict.values (smooth_readings readings alpha)).
Proof.
  intros Ha Hr. unfold smooth_readings.
  assert (G : forall d, Forall unit_interval (Dict.values d) ->
            Forall unit_interval
              (Dict.values
                 (fold_left
                    (fun sentiment_by_source reading =>
                       let prev := Dict.get_default sentiment_by_source (source reading) 0.0 in
                       Dict.set sentiment_by_source (source reading)
                                (exponential_smoothing prev (score reading) alpha))
                    readings d))).
  { induction Hr as [|r readings Hs Hrest IH]; intros d Hd; [exact Hd|].
    cbn [fold_left]. apply IH. apply dict_set_bounded; [exact Hd|].
    apply exponential_smoothing_bounded; [exact Ha | | exact Hs].
    now apply dict_get_default_bounded. }
  apply G. constructor.
Qed.

(** C10. For readings whose scores all lie in [-1, 1] and a smoothing factor
    in [0, 1], every per-source smoothed state stays in [-1, 1] and
    [aggregate_sentiment] returns a value of [-1, 1]. *)
Theorem aggregate_sentiment_bounded (readings : list SentimentReading) (alpha : Q) :
  0 <= alpha <= 1 ->
  Forall (fun r => -1 <= score r <= 1) readings ->
  Forall (fun v => -1 <= v <= 1) (Dict.values (smooth_readings readings alpha))
  /\ exists v, aggregate_sentiment readings alpha = Ok v /\ -1 <= v <= 1.
Proof.
  intros Ha Hr. pose proof (smooth_readings_bounded readings alpha Ha Hr) as Hd.
  split; [exact Hd|]. unfold aggregate_sentiment.
  destruct (smooth_readings readings alpha) as [|kv d] eqn:E.
  - exists 0.0. split; [reflexivity | lra].
  - set (dict := kv :: d) in *. unfold Dict.len.
    assert (Hn : 0 < inject_Z (Z.of_nat (length dict))).
    { apply inject_Z_pos. subst dict. cbn [length]. lia. }
    unfold Py.div. case_eqb (inject_Z (Z.of_nat (length dict))) 0; [lra|].
    eexists. split; [reflexivity|].
    destruct (fold_plus_bounds (-1) 1 (Dict.values dict) Hd 0 0 0) as [H1 H2]; [lra|].
    unfold Dict.values in H1, H2. rewrite length_map in H1, H2.
    fold (Dict.values dict) in H1, H2. fold (Py.sum (Dict.values dict)) in H1, H2.
    split.
    + apply Qle_shift_div_l; [exact Hn | lra].
    + apply Qle_shift_div_r; [exact Hn | lra].
Qed.

Lemma aggregate_sentiment_bounded_witness :
  let readings := [mkSentimentReading "a" 1.0; mkSentimentReading "b" (-0.5);
                   mkSentimentReading "a" 0.25] in
  Forall (fun v => -1 <= v <= 1) (Dict.values (smooth_readings readings 0.2))
  /\ exists v, aggregate_sentiment readings 0.2 = Ok v /\ -1 <= v <= 1.
Proof.
  apply aggregate_sentiment_bounded; [lra|].
  repeat constructor; cbn; lra.
Defined.

(** ** The risk manager *)

Lemma update_equity_peak (self : Risk.RiskManager) (equity : Q) :
  Risk._peak_equity self <= Risk._peak_equity (snd (Risk.update_equity self equity)).
Proof.
  unfold Risk.update_equity.
  case_ltb (Risk._peak_equity self) equity;
    match goal with
    | |- context [Py.div ?a ?b] => destruct (Py.div a b)
    end; cbn; lra.
Qed.

Lemma exec_peak (self : Risk.RiskManager) (o : Risk.op) :
  Risk._peak_equity self <= Risk._peak_equity (Risk.exec self o).
Proof.
  destruct o; cbn [Risk.exec].
  - apply update_equity_peak.
  - cbn. lra.
  - cbn. lra.
  - cbn. lra.
  - cbn. lra.
Qed.

(** C5. The peak equity never decreases: not across one [update_equity] with
    any argument, not across any other call on the manager, and so along any
    sequence of calls the peaks read before it and after each call form a
    non-decreasing list. *)
Theorem peak_equity_monotone :
  (forall self equity,
     Risk._peak_equity self <= Risk._peak_equity (snd (Risk.update_equity self equity)))
  /\ (forall self o, Risk._peak_equity self <= Risk._peak_equity (Risk.exec self o))
  /\ (forall self ops, nondecreasing (peaks self ops)).
Proof.
  split; [exact update_equity_peak|]. split; [exact exec_peak|].
  intros self ops. revert self. unfold peaks.
  induction ops as [|o ops IH]; intro self; [exact I|].
  cbn [Risk.run map nondecreasing]. split; [apply exec_peak|].
  exact (IH (Risk.exec self o)).
Qed.

(** C6. [can_trade] answers true exactly when the time elapsed since the
    last trade is at least the cooldown, and leaves the manager as it was.
    With a strictly positive cooldown it answers false at the very timestamp
    given to the preceding [record_trade] and true at every timestamp at least
    one cooldown later. *)
Theorem can_trade_cooldown :
  (forall self now utcnow,
     fst (Risk.can_trade self now utcnow) = true
     <-> (cooldown (Risk._config self)
          <= Risk.now_or now utcnow - Risk.last_trade_time (Risk._position self))%Z)
  /\ (forall self now utcnow, snd (Risk.can_trade self now utcnow) = self)
  /\ (forall self size price t utcnow utcnow',
        (0 < cooldown (Risk._config self))%Z ->
        let self' := snd (Risk.record_trade self size price (Some t) utcnow) in
        fst (Risk.can_trade self' (Some t) utcnow') = false
        /\ forall now, (cooldown (Risk._config self) <= now - t)%Z ->
             fst (Risk.can_trade self' (Some now) utcnow') = true).
Proof.
  split; [|split].
  - intros self now utcnow. unfold Risk.can_trade. cbn [fst]. apply Z.leb_le.
  - reflexivity.
  - intros self size price t utcnow utcnow' Hc. cbn. split.
    + apply Z.leb_gt. lia.
    + intros now Hnow. apply Z.leb_le. exact Hnow.
Qed.

Lemma can_trade_cooldown_witness :
  let self := Risk.init default_risk 0%Z in
  let self' := snd (Risk.record_trade self 1 100 (Some 1000%Z) 7%Z) in
  fst (Risk.can_trade self' (Some 1000%Z) 8%Z) = false
  /\ forall now, (cooldown (Risk._config self) <= now - 1000)%Z ->
       fst (Risk.can_trade self' (Some now) 8%Z) = true.
Proof.
  destruct can_trade_cooldown as (_ & _ & H).
  apply (H (Risk.init default_risk 0%Z) 1 100 1000%Z 7%Z 8%Z). reflexivity.
Defined.




(** ** [average_true_range] on short input *)




(** ** One decision cycle *)

Lemma choose_side_spec (signal : Q) :
  (0 < signal -> Trader.choose_side signal = "BUY"%string)
  /\ (signal <= 0 -> Trader.choose_side signal = "SELL"%string).
Proof.
  unfold Trader.choose_side. case_ltb 0 signal; split; intro; try reflexivity; lra.
Qed.

(** The calls of a cycle that sends an order. *)
Lemma decide_calls (self : Trader.Agent) (w : Trader.World) (symbol : string)
      (snapshot : Trader.MarketSnapshot) (signal : Q) :
  Trader.calls (Trader.decide self w symbol snapshot signal) <> [] ->
  exists price quantity,
    let position_size := fst (Risk.position_size (Trader._risk self) 1.0 signal) in
    let side := Trader.choose_side signal in
    let report := Execution.send_order (Trader._execution self) (Trader.order_draws w)
                                       symbol side quantity price in
    fst (Risk.can_trade (Trader._risk self) None (Trader.utcnow_can_trade w)) = true
    /\ ~ position_size == 0
    /\ Py.last (Trader.prices snapshot) = Ok price
    /\ Py.div position_size price = Ok quantity
    /\ Trader.calls (Trader.decide self w symbol snapshot signal)
       = [Trader.SendOrder symbol side quantity price report;
          Trader.RecordTrade (Execution.executed_quantity report * price)
                             (Execution.avg_price report);
          Trader.StopLevels (Execution.avg_price report)]
    /\ Risk._position (Trader._risk (Trader.agent (Trader.decide self w symbol snapshot signal)))
       = Risk.mkPositionState (Execution.executed_quantity report * price)
                              (Execution.avg_price report)
                              (Trader.utcnow_record_trade w).
Proof.
  unfold Trader.decide. cbn [Risk.can_trade Risk.position_size fst snd Risk.now_or].
  destruct (_ <=? _)%Z; cbn [negb]; [|intro H; now contradiction H].
  match goal with
  | |- context [Qeq_bool ?a 0.0] => set (ps := a); case_eqb ps 0.0
  end; [intro H; now contradiction H|].
  destruct (Py.last (Trader.prices snapshot)) as [price|e];
    [|intro H; now contradiction H].
  destruct (Py.div ps price) as [quantity|e] eqn:Ed;
    [|intro H; now contradiction H].
  intros _. exists price, quantity. cbn.
  repeat split; try reflexivity; [|exact Ed].
  intro H. apply E. rewrite H. reflexivity.
Qed.

Lemma trade_calls (self : Trader.Agent) (w : Trader.World) (symbol : string)
      (fundamentals : Dict.t (list Q)) (sentiment_readings : list SentimentReading) :
  Trader.calls (Trader.trade self w symbol fundamentals sentiment_readings) <> [] ->
  exists context,
    Trader.build_context self (Trader.collect_market_data w symbol)
                         fundamentals sentiment_readings = Ok context
    /\ Trader.trade self w symbol fundamentals sentiment_readings
       = Trader.decide self w symbol (Trader.collect_market_data w symbol)
                       (composite_signal context).
Proof.
  unfold Trader.trade.
  destruct (Trader.build_context _ _ _ _) as [context|e]; cbn [Trader.calls].
  - intros _. exists context. split; reflexivity.
  - intro H. now contradiction H.
Qed.

(** C1, as the code has it. A cycle that sends an order calls [record_trade]
    with size = executed quantity * the requested order price (the last price
    of the snapshot, the price given to [send_order]) and price = the average
    fill price of the report, then computes the stop levels from the average
    fill price; the position is left holding exactly these values. *)
Theorem trade_records_executed_quantity
    (self : Trader.Agent) (w : Trader.World) (symbol : string)
    (fundamentals : Dict.t (list Q)) (sentiment_readings : list SentimentReading) :
  let cycle := Trader.trade self w symbol fundamentals sentiment_readings in
  Trader.calls cycle <> [] ->
  exists side quantity price report,
    Py.last (Trader.prices (Trader.collect_market_data w symbol)) = Ok price
    /\ report = Execution.send_order (Trader._execution self) (Trader.order_draws w)
                                     symbol side quantity price
    /\ Execution.price (Execution.order report) = price
    /\ Trader.calls cycle
       = [Trader.SendOrder symbol side quantity price report;
          Trader.RecordTrade (Execution.executed_quantity report * price)
                             (Execution.avg_price report);
          Trader.StopLevels (Execution.avg_price report)]
    /\ Risk._position (Trader._risk (Trader.agent cycle))
       = Risk.mkPositionState (Execution.executed_quantity report * price)
                              (Execution.avg_price report)
                              (Trader.utcnow_record_trade w).
Proof.
  cbn zeta. intro Hcalls.
  destruct (trade_calls _ _ _ _ _ Hcalls) as (context & _ & Etrade).
  rewrite Etrade in Hcalls |- *.
  destruct (decide_calls _ _ _ _ _ Hcalls)
    as (price & quantity & _ & _ & Hlast & _ & Hc & Hpos).
  exists (Trader.choose_side (composite_signal context)), quantity, price.
  eexists. split; [exact Hlast|]. split; [reflexivity|]. split; [|split].
  - unfold Execution.send_order. destruct (Execution._dry_run _); reflexivity.
  - exact Hc.
  - exact Hpos.
Qed.

Lemma trade_records_executed_quantity_witness :
  let cycle := Trader.trade sample_agent sample_world "BTCUSDT"
                            sample_fundamentals sample_readings in
  exists side quantity price report,
    Py.last (Trader.prices (Trader.collect_market_data sample_world "BTCUSDT")) = Ok price
    /\ report = Execution.send_order (Trader._execution sample_agent)
                                     (Trader.order_draws sample_world)
                                     "BTCUSDT" side quantity price
    /\ Execution.price (Execution.order report) = price
    /\ Trader.calls cycle
       = [Trader.SendOrder "BTCUSDT" side quantity price report;
          Trader.RecordTrade (Execution.executed_quantity report * price)
                             (Execution.avg_price report);
          Trader.StopLevels (Execution.avg_price report)]
    /\ Risk._position (Trader._risk (Trader.agent cycle))
       = Risk.mkPositionState (Execution.executed_quantity report * price)
                              (Execution.avg_price report)
                              (Trader.utcnow_record_trade sample_world).
Proof.
  apply (trade_records_executed_quantity sample_agent sample_world "BTCUSDT"
                                         sample_fundamentals sample_readings).
  vm_compute. discriminate.
Defined.

(** C1 as stated fails. In the sample cycle the composite signal is -0.04,
    the position size 0.006 and the last price 1: the order asks for 0.006 at
    1 and is filled for 0.0057 at an average price of 1.0001.  The size given
    to [record_trade] is 0.0057 * 1, the executed quantity times the requested
    price, not 0.0057 * 1.0001. *)
Lemma record_trade_size_not_avg_price :
  exists side quantity price report size entry,
    Trader.calls (Trader.trade sample_agent sample_world "BTCUSDT"
                               sample_fundamentals sample_readings)
    = [Trader.SendOrder "BTCUSDT" side quantity price report;
       Trader.RecordTrade size entry;
       Trader.StopLevels entry]
    /\ entry = Execution.avg_price report
    /\ size == Execution.executed_quantity report * price
    /\ ~ size == Execution.executed_quantity report * Execution.avg_price report.
Proof.
  do 6 eexists. split; [vm_compute; reflexivity|].
  split; [reflexivity|]. split; [reflexivity | discriminate].
Qed.

Lemma zero_signal_no_size (self : Risk.RiskManager) (equity signal : Q) :
  signal == 0 -> fst (Risk.position_size self equity signal) == 0.
Proof.
  intro H. unfold Risk.position_size. cbn [fst].
  set (m := max_position_size (Risk._config self)).
  assert (Hmin : Py.min (Qabs signal) 1.0 == 0).
  { assert (Ha : Qabs signal == 0) by (rewrite H; reflexivity).
    unfold Py.min. case_ltb 1.0 (Qabs signal); lra. }
  assert (Hraw : Py.min (Qabs signal) 1.0 * m * equity == 0) by (rewrite Hmin; ring).
  set (raw := Py.min (Qabs signal) 1.0 * m * equity) in *.
  unfold Py.max, Py.min. case_ltb (equity * m) raw.
  - case_ltb (equity * m) 0.0; lra.
  - case_ltb raw 0.0; lra.
Qed.

(** C8. Whenever a cycle sends an order, [can_trade] answered true, the
    position size is not zero, and the side is BUY if the composite signal is
    greater than 0 and SELL otherwise; the side selection maps a signal of
    exactly 0 to SELL. *)
Theorem trade_side_from_signal
    (self : Trader.Agent) (w : Trader.World) (symbol : string)
    (fundamentals : Dict.t (list Q)) (sentiment_readings : list SentimentReading)
    (sym side : string) (quantity price : Q) (report : Execution.ExecutionReport) :
  In (Trader.SendOrder sym side quantity price report)
     (Trader.calls (Trader.trade self w symbol fundamentals sentiment_readings)) ->
  (exists context,
     Trader.build_context self (Trader.collect_market_data w symbol)
                          fundamentals sentiment_readings = Ok context
     /\ fst (Risk.can_trade (Trader._risk self) None (Trader.utcnow_can_trade w)) = true
     /\ ~ fst (Risk.position_size (Trader._risk self) 1.0 (composite_signal context)) == 0
     /\ side = Trader.choose_side (composite_signal context)
     /\ Execution.side (Execution.order report) = side
     /\ (0 < composite_signal context -> side = "BUY"%string)
     /\ (composite_signal context <= 0 -> side = "SELL"%string))
  /\ (forall signal, signal == 0 -> Trader.choose_side signal = "SELL"%string).
Proof.
  intro Hin. split.
  - assert (Hne : Trader.calls (Trader.trade self w symbol fundamentals sentiment_readings)
                  <> []).
    { intro E. rewrite E in Hin. exact Hin. }
    destruct (trade_calls _ _ _ _ _ Hne) as (context & Hctx & Etrade).
    rewrite Etrade in Hne, Hin.
    destruct (decide_calls _ _ _ _ _ Hne)
      as (price' & quantity' & Hcan & Hsize & _ & _ & Hc & _).
    rewrite Hc in Hin. cbn [In] in Hin.
    destruct Hin as [Hin|[Hin|[Hin|[]]]]; try discriminate Hin.
    injection Hin as _ Eside _ _ Ereport.
    exists context. split; [exact Hctx|]. split; [exact Hcan|]. split; [exact Hsize|].
    split; [now symmetry|]. split.
    + rewrite <- Ereport, <- Eside. unfold Execution.send_order.
      destruct (Execution._dry_run _); reflexivity.
    + rewrite <- Eside. apply choose_side_spec.
  - intros signal H. apply choose_side_spec. lra.
Qed.

Lemma trade_side_from_signal_witness :
  (exists context,
     Trader.build_context sample_agent (Trader.collect_market_data sample_world "BTCUSDT")
                          sample_fundamentals sample_readings = Ok context
     /\ fst (Risk.can_trade (Trader._risk sample_agent) None
                            (Trader.utcnow_can_trade sample_world)) = true
     /\ ~ fst (Risk.position_size (Trader._risk sample_agent) 1.0 (composite_signal context))
          == 0
     /\ "SELL"%string = Trader.choose_side (composite_signal context))
  /\ Trader.choose_side 0 = "SELL"%string.
Proof.
  assert (E : exists quantity price report rest,
            Trader.calls (Trader.trade sample_agent sample_world "BTCUSDT"
                                       sample_fundamentals sample_readings)
            = Trader.SendOrder "BTCUSDT" "SELL" quantity price report :: rest).
  { do 4 eexists. vm_compute. reflexivity. }
  destruct E as (quantity & price & report & rest & E).
  destruct (trade_side_from_signal sample_agent sample_world "BTCUSDT"
              sample_fundamentals sample_readings
              "BTCUSDT" "SELL" quantity price report) as [Hsent Hzero].
  { rewrite E. left. reflexivity. }
  destruct Hsent as (context & Hctx & Hcan & Hsize & Hside & _ & _ & Hsell).
  split.
  - exists context. repeat split; assumption.
  - apply Hzero. reflexivity.
Defined.

(** A cycle whose composite signal is exactly 0 sizes its position at 0 and
    ends at the size check: it sends no order. *)
Lemma zero_signal_no_order (self : Trader.Agent) (w : Trader.World) (symbol : string)
      (snapshot : Trader.MarketSnapshot) (signal : Q) :
  signal == 0 ->
  Trader.calls (Trader.decide self w symbol snapshot signal) = []
  /\ Trader.outcome (Trader.decide self w symbol snapshot signal) = Ok tt.
Proof.
  intro H. pose proof (zero_signal_no_size (Trader._risk self) 1.0 signal H) as Hz.
  unfold Trader.decide. cbn [Risk.can_trade].
  destruct (_ <=? _)%Z; cbn [negb]; [|split; reflexivity].
  destruct (Risk.position_size (Trader._risk self) 1.0 signal) as [ps risk] eqn:Ep.
  cbn [fst] in Hz. case_eqb ps 0.0; [split; reflexivity|].
  exfalso. apply E. rewrite Hz. reflexivity.
Qed.

(** ** The repository's tests and the specification's examples *)

Example test_moving_average_basic :
  moving_average (map inject_Z [1; 2; 3; 4; 5]%Z) 3
  = Ok [nan; nan; Some (6 # 3); Some (9 # 3); Some (12 # 3)]
  /\ 12 # 3 == 4.
Proof. split; reflexivity. Qed.

Example test_rsi_bounds :
  relative_strength_index prices_1_to_15 14
  = Ok (Py.replicate nan 14 ++ [Some 100.0]).
Proof. reflexivity. Qed.

Example test_average_true_range_len_match :
  exists atr,
    average_true_range [2; 3; 4] [1; 2; 3] [1.5; 2.5; 3.5] 2 = Ok atr
    /\ length atr = 3%nat.
Proof. eexists. split; reflexivity. Qed.

Example normalize_metric_1_2_3 :
  exists v, normalize_metric [1; 2; 3] = Ok v /\ v == 1.0.
Proof. eexists. split; reflexivity. Qed.

Example aggregate_sentiment_one_source :
  exists v, aggregate_sentiment [mkSentimentReading "a" 1.0] 0.2 = Ok v /\ v == 0.2.
Proof. eexists. split; reflexivity. Qed.

Example moving_average_bad_period :
  moving_average [1; 2; 3] 0 = Raise ValueError
  /\ relative_strength_index [1; 2; 3] 3 = Raise ValueError
  /\ average_true_range [1; 2] [1] [1; 2] 1 = Raise ValueError.
Proof. repeat split. Qed.

(** * Further properties of the code *)

(** ** [moving_average] *)

Lemma nth_error_map_range {A : Type} (f : nat -> A) (n i : nat) :
  (i < n)%nat -> nth_error (map f (Py.range 0 n)) i = Some (f i).
Proof.
  intro H. unfold Py.range. rewrite Nat.sub_0_r.
  rewrite nth_error_map, nth_error_seq.
  destruct (Nat.ltb_spec i n); [reflexivity | lia].
Qed.

Lemma length_slice {A : Type} (l : list A) (lo hi : nat) :
  (lo <= hi <= length l)%nat -> length (Py.slice l lo hi) = (hi - lo)%nat.
Proof.
  intro H. unfold Py.slice. rewrite length_firstn, length_skipn. lia.
Qed.

(** X1. With a period > 0, [moving_average] returns one entry per input:
    NaN at each index below period - 1, and from index period - 1 on the sum
    of the trailing window, which holds exactly [period] values and ends at
    that index, divided by the period; a period that is not positive raises
    ValueError. *)
Theorem moving_average_shape (values : list Q) (period : Z) :
  ((period <= 0)%Z -> moving_average values period = Raise ValueError)
  /\ ((0 < period)%Z ->
      exists out,
        moving_average values period = Ok out
        /\ length out = length values
        /\ (forall i, (i + 1 < Z.to_nat period)%nat -> (i < length values)%nat ->
              nth_error out i = Some nan)
        /\ (forall i, (Z.to_nat period <= i + 1)%nat -> (i < length values)%nat ->
              let window := Py.slice values (i + 1 - Z.to_nat period) (i + 1) in
              length window = Z.to_nat period
              /\ nth_error (rev window) 0 = nth_error values i
              /\ nth_error out i = Some (Some (Py.sum window / inject_Z period)))).
Proof.
  unfold moving_average. split.
  - intro Hp. destruct (Z.leb_spec period 0) as [_|Hlt]; [reflexivity | lia].
  - intro Hp. destruct (Z.leb_spec period 0) as [Hle|_]; [lia|].
    eexists. split; [reflexivity|]. split; [|split].
    + rewrite length_map. unfold Py.range. rewrite length_seq. lia.
    + intros i Hi Hn. rewrite nth_error_map_range by exact Hn.
      destruct (Nat.ltb_spec (i + 1) (Z.to_nat period)); [reflexivity | lia].
    + intros i Hi Hn. cbv zeta.
      set (window := Py.slice values (i + 1 - Z.to_nat period) (i + 1)).
      assert (Hlen : length window = Z.to_nat period).
      { subst window. rewrite length_slice; lia. }
      split; [exact Hlen|]. split.
      * rewrite nth_error_rev, Hlen.
        destruct (Nat.ltb_spec 0 (Z.to_nat period)) as [_|H0]; [|lia].
        subst window. unfold Py.slice.
        rewrite nth_error_firstn, nth_error_skipn.
        destruct (Nat.ltb_spec (Z.to_nat period - 1) (i + 1 - (i + 1 - Z.to_nat period)));
          [|lia].
        f_equal. lia.
      * rewrite nth_error_map_range by exact Hn.
        destruct (Nat.ltb_spec (i + 1) (Z.to_nat period)); [lia | reflexivity].
Qed.

Lemma moving_average_shape_witness :
  exists out,
    moving_average [1; 2; 3; 4; 5] 3 = Ok out
    /\ length out = 5%nat
    /\ nth_error out 1 = Some nan
    /\ nth_error out 4 = Some (Some (Py.sum [3; 4; 5] / 3)).
Proof.
  destruct (moving_average_shape [1; 2; 3; 4; 5] 3) as (_ & H).
  destruct H as (out & E & Hlen & Hnan & Hdef); [lia|].
  exists out. split; [exact E|]. split; [exact Hlen|].
  split; [apply Hnan; simpl; lia|].
  destruct (Hdef 4%nat) as (_ & _ & H1); [simpl; lia | simpl; lia |].
  exact H1.
Defined.

(** ** [relative_strength_index] on rising and on falling prices *)

Section RsiGeneric.

Variable period : Z.
Variables gains losses : list Q.
Variable n : nat.
Let p := Z.to_nat period.

(** A property [I] of the two averages that the smoothing keeps for gains of
    [G] and losses of [L], and that gives every RSI value the property [T]. *)
Variables (I : Q -> Q -> Prop) (G L T : Q -> Prop).

Hypothesis gains_len : length gains = n.
Hypothesis losses_len : length losses = n.
Hypothesis gains_G : Forall G (tl gains).
Hypothesis losses_L : Forall L (tl losses).
Hypothesis smooth_I :
  forall avg_gain avg_loss g l, I avg_gain avg_loss -> G g -> L l ->
    I ((avg_gain * inject_Z (period - 1) + g) / inject_Z period)
      ((avg_loss * inject_Z (period - 1) + l) / inject_Z period).
Hypothesis rsi_T :
  forall avg_gain avg_loss, I avg_gain avg_loss ->
    exists r, compute_rsi avg_gain avg_loss = Ok r /\ T r.

Lemma rsi_generic_loop (m k : nat) (st : rsi_state) :
  (k + m = n)%nat -> (p < k)%nat -> rsi_generic_inv n p I T k st ->
  exists st', for_each (rsi_step period gains losses) (seq k m) st = Ok st'
              /\ rsi_generic_inv n p I T n st'.
Proof.
  revert k st. induction m as [|m IH]; intros k st Hkm Hpk Hinv.
  - exists st. split; [reflexivity|].
    assert (Ek : k = n) by lia. rewrite Ek in Hinv. exact Hinv.
  - cbn [seq for_each]. destruct Hinv as (HI & Hlen & Hdone).
    unfold rsi_step at 1.
    destruct (getitem_lt gains k) as (g & Eg & Ng); [lia|].
    destruct (getitem_lt losses k) as (l & El & Nl); [lia|].
    rewrite Eg, El. cbn [bind].
    assert (Hg : G g).
    { apply (proj1 (Forall_forall _ _) gains_G g), (nth_error_In _ (k - 1)).
      destruct gains as [|g0 gs], k as [|k']; try discriminate Ng; [lia|].
      cbn [tl]. now rewrite Nat.sub_succ, Nat.sub_0_r. }
    assert (Hl : L l).
    { apply (proj1 (Forall_forall _ _) losses_L l), (nth_error_In _ (k - 1)).
      destruct losses as [|l0 ls], k as [|k']; try discriminate Nl; [lia|].
      cbn [tl]. now rewrite Nat.sub_succ, Nat.sub_0_r. }
    pose proof (smooth_I _ _ g l HI Hg Hl) as HI'.
    destruct (rsi_T _ _ HI') as (r & Er & Hr). rewrite Er. cbn [bind].
    destruct (setitem_lt (rs_values st) k (Some r)) as (out & Eo & Olen & Onth & Oother);
      [lia|].
    rewrite Eo. cbn [bind]. apply IH; [lia | lia |].
    split; [exact HI'|]. split; [cbn; congruence|].
    intros i Hi. cbn [rs_values]. destruct (Nat.eq_dec i k) as [->|Hne].
    + exists r. split; assumption.
    + rewrite Oother by exact Hne. apply Hdone. lia.
Qed.

End RsiGeneric.

Lemma rsi_generic (values : list Q) (period : Z) (I : Q -> Q -> Prop) (G L T : Q -> Prop) :
  (0 < period)%Z -> (period + 1 <= Z.of_nat (length values))%Z ->
  Forall G (tl (gains_of values)) -> Forall L (tl (losses_of values)) ->
  (forall avg_gain avg_loss g l, I avg_gain avg_loss -> G g -> L l ->
     I ((avg_gain * inject_Z (period - 1) + g) / inject_Z period)
       ((avg_loss * inject_Z (period - 1) + l) / inject_Z period)) ->
  (forall avg_gain avg_loss, I avg_gain avg_loss ->
     exists r, compute_rsi avg_gain avg_loss = Ok r /\ T r) ->
  I (Py.sum (Py.slice (gains_of values) 1 (Z.to_nat period + 1)) / inject_Z period)
    (Py.sum (Py.slice (losses_of values) 1 (Z.to_nat period + 1)) / inject_Z period) ->
  exists out,
    relative_strength_index values period = Ok out
    /\ length out = length values
    /\ forall i, (Z.to_nat period <= i < length values)%nat ->
         exists r, nth_error out i = Some (Some r) /\ T r.
Proof.
  intros Hp Hlen HG HL Hsmooth HT Hseed. unfold relative_strength_index.
  destruct (Z.leb_spec period 0) as [Hle|_]; [lia|].
  destruct (Z.ltb_spec (Z.of_nat (length values)) (period + 1)) as [Hlt|_]; [lia|].
  set (p := Z.to_nat period) in *. set (n := length values).
  assert (Hpn : (p < n)%nat) by (subst p n; lia).
  assert (Hne : values <> []) by (intros ->; cbn in Hlen; lia).
  cbv zeta.
  destruct (HT _ _ Hseed) as (r & Er & Hr). rewrite Er. cbn [bind].
  destruct (setitem_lt (Py.replicate nan n) p (Some r)) as (out0 & E0 & Olen & Onth & Oother).
  { rewrite length_replicate. exact Hpn. }
  rewrite E0. cbn [bind]. rewrite length_replicate in Olen.
  destruct (rsi_generic_loop period (gains_of values) (losses_of values) n I G L T
              (gains_length _ Hne) (losses_length _ Hne) HG HL Hsmooth HT
              (n - (p + 1)) (p + 1)
              (mkRsiState
                 (Py.sum (Py.slice (gains_of values) 1 (p + 1)) / inject_Z period)
                 (Py.sum (Py.slice (losses_of values) 1 (p + 1)) / inject_Z period)
                 out0))
    as (st & Est & _ & Slen & Sdone).
  - lia.
  - fold p. lia.
  - split; [exact Hseed|]. split; [exact Olen|]. fold p.
    intros i Hi. cbn [rs_values]. assert (i = p) as -> by lia.
    exists r. split; assumption.
  - unfold Py.range. rewrite Est. cbn [bind]. exists (rs_values st).
    split; [reflexivity|]. split; [exact Slen | exact Sdone].
Qed.

Lemma deltas_nonneg (values : list Q) :
  nondecreasing values -> Forall (fun d => 0 <= d) (deltas values).
Proof.
  induction values as [|a [|b tl] IH]; intro H; [constructor | constructor |].
  change (deltas (a :: b :: tl)) with ((b - a) :: deltas (b :: tl)).
  destruct H as [Hab Htl]. constructor; [lra | now apply IH].
Qed.

Lemma sum_zero (l : list Q) : Forall (fun x => x == 0) l -> Py.sum l == 0.
Proof.
  intro H.
  assert (Hb : Forall (fun x => 0 <= x <= 0) l).
  { apply Forall_forall. intros x Hx.
    pose proof (proj1 (Forall_forall _ _) H x Hx) as E. cbv beta in E. lra. }
  destruct (fold_plus_bounds 0 0 l Hb 0 0 0) as [H1 H2]; [lra|].
  fold (Py.sum l) in H1, H2. lra.
Qed.

Lemma fold_plus_pos (l : list Q) :
  Forall (fun x => 0 < x) l -> forall a, 0 < a -> 0 < fold_left Qplus l a.
Proof.
  induction 1 as [|x l Hx Hl IH]; intros a Ha; simpl; [exact Ha|].
  apply IH. lra.
Qed.

Lemma sum_pos (l : list Q) : l <> [] -> Forall (fun x => 0 < x) l -> 0 < Py.sum l.
Proof.
  intros Hne H. unfold Py.sum. destruct H as [|x l Hx Hl]; [congruence|].
  cbn [fold_left]. apply fold_plus_pos; [exact Hl | lra].
Qed.

Lemma slice_from_1 {A : Type} (l : list A) (hi : nat) :
  Py.slice l 1 (hi + 1) = firstn hi (tl l).
Proof.
  unfold Py.slice. replace (hi + 1 - 1)%nat with hi by lia. now destruct l.
Qed.

Lemma Forall_firstn {A : Type} (P : A -> Prop) (l : list A) (k : nat) :
  Forall P l -> Forall P (firstn k l).
Proof.
  intro H. rewrite <- (firstn_skipn k l) in H. apply Forall_app in H. apply H.
Qed.

Lemma smoothed_zero (avg new : Q) (period : Z) :
  (0 < period)%Z -> avg == 0 -> new == 0 ->
  (avg * inject_Z (period - 1) + new) / inject_Z period == 0.
Proof.
  intros Hp Ha Hn. rewrite Ha, Hn. unfold Qdiv. ring.
Qed.

Lemma smoothed_pos (avg new : Q) (period : Z) :
  (0 < period)%Z -> 0 < avg -> 0 < new ->
  0 < (avg * inject_Z (period - 1) + new) / inject_Z period.
Proof.
  intros Hp Ha Hn. apply Qlt_shift_div_l; [now apply inject_Z_pos|].
  assert (H : 0 <= inject_Z (period - 1)) by (apply inject_Z_nonneg; lia).
  pose proof (Qmult_le_0_compat _ _ (Qlt_le_weak _ _ Ha) H). lra.
Qed.

(** X2. On prices that never fall, with a period > 0 and at least
    period + 1 prices, no loss is ever averaged and every RSI value from
    index [period] on is exactly 100.0. *)
Theorem rsi_of_rising_prices (values : list Q) (period : Z) :
  (0 < period)%Z -> (period + 1 <= Z.of_nat (length values))%Z ->
  nondecreasing values ->
  exists out,
    relative_strength_index values period = Ok out
    /\ length out = length values
    /\ forall i, (Z.to_nat period <= i < length values)%nat ->
         nth_error out i = Some (Some 100.0).
Proof.
  intros Hp Hlen Hup.
  assert (HL : Forall (fun l => l == 0) (tl (losses_of values))).
  { unfold losses_of. cbn [tl].
    apply Forall_map. pose proof (deltas_nonneg values Hup) as Hd.
    apply Forall_forall. intros d Hin.
    pose proof (proj1 (Forall_forall _ _) Hd d Hin) as Hd0. cbv beta in Hd0.
    unfold Py.min. case_ltb 0 d; [reflexivity|].
    apply Qabs_case; intro; lra. }
  destruct (rsi_generic values period (fun _ avg_loss => avg_loss == 0)
              (fun _ => True) (fun l => l == 0) (fun r => r = 100.0) Hp Hlen)
    as (out & E & Olen & Hout).
  - apply Forall_forall. intros; exact I.
  - exact HL.
  - intros avg_gain avg_loss g l Ha _ Hl. now apply smoothed_zero.
  - intros avg_gain avg_loss Ha. exists 100.0. split; [|reflexivity].
    unfold compute_rsi. apply Qeq_bool_iff in Ha. now rewrite Ha.
  - cbv beta. rewrite slice_from_1.
    rewrite (sum_zero _ (Forall_firstn _ _ _ HL)). unfold Qdiv. ring.
  - exists out. split; [exact E|]. split; [exact Olen|].
    intros i Hi. destruct (Hout i Hi) as (r & Hr & ->). exact Hr.
Qed.

Lemma rsi_of_rising_prices_witness :
  exists out,
    relative_strength_index prices_1_to_15 14 = Ok out
    /\ length out = length prices_1_to_15
    /\ forall i, (Z.to_nat 14 <= i < length prices_1_to_15)%nat ->
         nth_error out i = Some (Some 100.0).
Proof.
  apply (rsi_of_rising_prices prices_1_to_15 14); [lia | simpl; lia |].
  cbn. unfold Qle; cbn. repeat split; lia.
Defined.

Lemma deltas_negative (values : list Q) :
  strictly_decreasing values -> Forall (fun d => d < 0) (deltas values).
Proof.
  induction values as [|a [|b tl] IH]; intro H; [constructor | constructor |].
  change (deltas (a :: b :: tl)) with ((b - a) :: deltas (b :: tl)).
  destruct H as [Hab Htl]. constructor; [lra | now apply IH].
Qed.

(** X3. On strictly falling prices, with a period > 0 and at least
    period + 1 prices, no gain is ever averaged: [relative_strength_index]
    returns a list as long as its input in which every defined (non-NaN)
    value from index [period] on equals 0. *)
Theorem rsi_of_falling_prices (values : list Q) (period : Z) :
  (0 < period)%Z -> (period + 1 <= Z.of_nat (length values))%Z ->
  strictly_decreasing values ->
  exists out,
    relative_strength_index values period = Ok out
    /\ length out = length values
    /\ forall i r, (Z.to_nat period <= i)%nat ->
         nth_error out i = Some (Some r) -> r == 0.
Proof.
  intros Hp Hlen Hdown. pose proof (deltas_negative values Hdown) as Hd.
  assert (HG : Forall (fun g => g == 0) (tl (gains_of values))).
  { unfold gains_of. cbn [tl]. apply Forall_map, Forall_forall. intros d Hin.
    pose proof (proj1 (Forall_forall _ _) Hd d Hin) as Hd0. cbv beta in Hd0.
    unfold Py.max. case_ltb d 0; [reflexivity | lra]. }
  assert (HL : Forall (fun l => 0 < l) (tl (losses_of values))).
  { unfold losses_of. cbn [tl]. apply Forall_map, Forall_forall. intros d Hin.
    pose proof (proj1 (Forall_forall _ _) Hd d Hin) as Hd0. cbv beta in Hd0.
    unfold Py.min. case_ltb 0 d; [lra|].
    apply Qabs_case; intro; lra. }
  destruct (rsi_generic values period (fun avg_gain avg_loss => avg_gain == 0 /\ 0 < avg_loss)
              (fun g => g == 0) (fun l => 0 < l) (fun r => r == 0) Hp Hlen HG HL)
    as (out & E & Olen & Hout).
  - intros avg_gain avg_loss g l [Hg Hl] Hg0 Hl0. split.
    + now apply smoothed_zero.
    + now apply smoothed_pos.
  - intros avg_gain avg_loss [Hg Hl]. unfold compute_rsi.
    case_eqb avg_loss 0; [lra|].
    assert (Hrs : avg_gain / avg_loss == 0) by (rewrite Hg; unfold Qdiv; ring).
    unfold Py.div. case_eqb (1.0 + avg_gain / avg_loss) 0; [lra|]. cbn [bind].
    eexists. split; [reflexivity|]. rewrite Hrs. reflexivity.
  - cbv beta. rewrite !slice_from_1. split.
    + rewrite (sum_zero _ (Forall_firstn _ _ _ HG)). unfold Qdiv. ring.
    + apply Qlt_shift_div_l; [now apply inject_Z_pos|]. rewrite Qmult_0_l.
      apply sum_pos; [|now apply Forall_firstn].
      unfold losses_of. cbn [tl]. intro E.
      apply (f_equal (@length Q)) in E.
      rewrite length_firstn, length_map, deltas_length in E. cbn [length] in E. lia.
  - exists out. split; [exact E|]. split; [exact Olen|].
    intros i r Hi Hr.
    assert (Hn : (i < length values)%nat).
    { rewrite <- Olen. apply nth_error_Some. congruence. }
    destruct (Hout i (conj Hi Hn)) as (r' & Hr' & H0).
    rewrite Hr' in Hr. injection Hr as <-. exact H0.
Qed.

Lemma rsi_of_falling_prices_witness :
  exists out,
    relative_strength_index [5; 4; 3; 2; 1] 3 = Ok out
    /\ length out = 5%nat
    /\ forall i r, (Z.to_nat 3 <= i)%nat ->
         nth_error out i = Some (Some r) -> r == 0.
Proof.
  apply (rsi_of_falling_prices [5; 4; 3; 2; 1] 3); [lia | simpl; lia |].
  cbn. unfold Qlt; cbn. repeat split; lia.
Defined.

(** ** [average_true_range] on enough candles *)

Lemma max3_ge_last (a b c : Q) : c <= max3 a b c.
Proof. unfold max3. apply max_ge_r. Qed.

Lemma true_range_loop_shape (highs lows closes : list Q) (m k : nat) (acc : list Q) :
  (1 <= k)%nat -> (k + m <= length highs)%nat ->
  length highs = length lows -> length lows = length closes ->
  exists rest,
    for_each (true_range_step highs lows closes) (seq k m) acc = Ok (acc ++ rest)
    /\ length rest = m
    /\ Forall (fun tr => 0 <= tr) rest.
Proof.
  intros Hk Hkm Hhl Hlc. revert k acc Hk Hkm.
  induction m as [|m IH]; intros k acc Hk Hkm; cbn [seq for_each].
  - exists []. rewrite app_nil_r. repeat split. constructor.
  - unfold true_range_step at 1.
    destruct (getitem_lt highs k) as (h & Eh & _); [lia|].
    destruct (getitem_lt lows k) as (l & El & _); [lia|].
    destruct (getitem_lt closes (k - 1)) as (c & Ec & _); [lia|].
    rewrite Eh, El, Ec. cbn [bind].
    destruct (IH (S k) (acc ++ [max3 (h - l) (Qabs (h - c)) (Qabs (l - c))]))
      as (rest & E & Hlen & Hpos); [lia | lia |].
    exists (max3 (h - l) (Qabs (h - c)) (Qabs (l - c)) :: rest).
    rewrite E, <- app_assoc. split; [reflexivity|]. split; [cbn; lia|].
    constructor; [|exact Hpos].
    apply Qle_trans with (2 := max3_ge_last _ _ _). apply Qabs_nonneg.
Qed.

Lemma atr_loop (period : Z) (true_ranges : list Q) (cond : Prop) (m k : nat)
      (st : atr_state) :
  (0 < period)%Z ->
  (cond -> Forall (fun tr => 0 <= tr) true_ranges) ->
  (k + m = length true_ranges)%nat -> (Z.to_nat period <= k)%nat ->
  atr_inv (length true_ranges) (Z.to_nat period) cond k st ->
  exists st',
    for_each (atr_step period true_ranges) (seq k m) st = Ok st'
    /\ atr_inv (length true_ranges) (Z.to_nat period) cond (length true_ranges) st'.
Proof.
  intros Hp Htr. revert k st. induction m as [|m IH]; intros k st Hkm Hpk Hinv.
  - exists st. split; [reflexivity|]. rewrite Nat.add_0_r in Hkm.
    rewrite Hkm in Hinv. exact Hinv.
  - cbn [seq for_each]. destruct Hinv as (Hatr & Hlen & Hnan & Hdone).
    unfold atr_step at 1.
    destruct (getitem_lt true_ranges k) as (tr & Et & Nt); [lia|].
    rewrite Et. cbn [bind].
    destruct (setitem_lt (as_values st) k
                (Some ((as_atr st * inject_Z (period - 1) + tr) / inject_Z period)))
      as (out & Eo & Olen & Onth & Oother); [lia|].
    rewrite Eo. cbn [bind]. apply IH; [lia | lia |].
    assert (Hnew : cond -> 0 <= (as_atr st * inject_Z (period - 1) + tr) / inject_Z period).
    { intro Hc. apply smoothed_nonneg; [exact Hp | now apply Hatr |].
      exact (proj1 (Forall_forall _ _) (Htr Hc) tr (nth_error_In _ _ Nt)). }
    split; [exact Hnew|]. cbn [as_values]. split; [congruence|]. split.
    + intros i Hi Hn. rewrite Oother by lia. now apply Hnan.
    + intros i Hi Hk. destruct (Nat.eq_dec i k) as [->|Hne].
      * eexists. split; [exact Onth | exact Hnew].
      * rewrite Oother by exact Hne. apply Hdone; lia.
Qed.

Lemma atr_ok (highs lows closes : list Q) (period : Z) :
  (0 < period)%Z ->
  length highs = length lows -> length lows = length closes ->
  (period <= Z.of_nat (length highs))%Z ->
  exists out,
    average_true_range highs lows closes period = Ok out
    /\ length out = length highs
    /\ (forall i, (i + 1 < Z.to_nat period)%nat -> (i < length highs)%nat ->
          nth_error out i = Some nan)
    /\ (forall i, (Z.to_nat period <= i + 1)%nat -> (i < length highs)%nat ->
          exists a, nth_error out i = Some (Some a)
                    /\ (hd 0 lows <= hd 0 highs -> 0 <= a)).
Proof.
  intros Hp Hhl Hlc Hn. unfold average_true_range.
  rewrite <- Hlc, <- Hhl, !Nat.eqb_refl. cbn [andb negb].
  destruct (Z.leb_spec period 0) as [Hle|_]; [lia|].
  set (p := Z.to_nat period). set (n := length highs) in *.
  assert (Hpn : (1 <= p <= n)%nat) by (subst p n; lia).
  destruct (getitem_lt highs 0) as (h0 & Eh & Nh); [lia|].
  destruct (getitem_lt lows 0) as (l0 & El & Nl); [lia|].
  rewrite Eh, El. cbn [bind].
  destruct (true_range_loop_shape highs lows closes (n - 1) 1 [h0 - l0])
    as (rest & Et & Rlen & Rpos); [lia | fold n; lia | assumption | assumption |].
  unfold Py.range. fold n. rewrite Et. cbn [bind].
  set (trs := [h0 - l0] ++ rest).
  assert (Tlen : length trs = n) by (subst trs; cbn; lia).
  set (cond := hd 0 lows <= hd 0 highs).
  assert (Htr : cond -> Forall (fun tr => 0 <= tr) trs).
  { intro Hc. subst trs cond. constructor; [|exact Rpos].
    destruct highs, lows; try discriminate; cbn in *.
    injection Nh as ->. injection Nl as ->. lra. }
  set (atr := Py.sum (Py.slice trs 0 p) / inject_Z period).
  assert (Hatr : cond -> 0 <= atr).
  { intro Hc. apply div_nonneg; [|now apply inject_Z_pos].
    apply sum_nonneg, Forall_slice, Htr, Hc. }
  destruct (setitem_lt (Py.replicate nan n) (p - 1) (Some atr))
    as (out0 & E0 & Olen & Onth & Oother).
  { rewrite length_replicate. lia. }
  rewrite E0. cbn [bind]. rewrite length_replicate in Olen.
  destruct (atr_loop period trs cond (n - p) p (mkAtrState atr out0) Hp Htr)
    as (st & Est & _ & Slen & Snan & Sdone).
  - lia.
  - lia.
  - rewrite Tlen. split; [exact Hatr|]. cbn [as_values]. split; [exact Olen|]. split.
    + intros i Hi Hin. rewrite Oother by lia. apply nth_error_replicate. exact Hin.
    + intros i Hi Hk. assert (i = (p - 1)%nat) as -> by (fold p in Hi; lia).
      exists atr. split; [exact Onth | exact Hatr].
  - rewrite Tlen in *. rewrite Est. cbn [bind]. exists (as_values st).
    split; [reflexivity|]. split; [exact Slen|]. split; [exact Snan | exact Sdone].
Qed.

(** X4. With a period > 0 and three series of one length n >= period,
    [average_true_range] returns a list of length n that is NaN below index
    period - 1; every defined (non-NaN) entry is at an index from period - 1
    on and, when the first low is not above the first high, is not
    negative. *)
Theorem atr_shape (highs lows closes : list Q) (period : Z) :
  (0 < period)%Z ->
  length highs = length lows -> length lows = length closes ->
  (period <= Z.of_nat (length highs))%Z ->
  exists out,
    average_true_range highs lows closes period = Ok out
    /\ length out = length highs
    /\ (forall i, (i + 1 < Z.to_nat period)%nat -> (i < length highs)%nat ->
          nth_error out i = Some nan)
    /\ (forall i a, nth_error out i = Some (Some a) ->
          (Z.to_nat period <= i + 1)%nat
          /\ (hd 0 lows <= hd 0 highs -> 0 <= a)).
Proof.
  intros Hp Hhl Hlc Hn.
  destruct (atr_ok highs lows closes period Hp Hhl Hlc Hn) as (out & E & Hlen & Hnan & Hdef).
  exists out. split; [exact E|]. split; [exact Hlen|]. split; [exact Hnan|].
  intros i a Ha.
  assert (Hi : (i < length highs)%nat).
  { rewrite <- Hlen. apply nth_error_Some. congruence. }
  destruct (Nat.lt_ge_cases (i + 1) (Z.to_nat period)) as [Hlt|Hge].
  - rewrite (Hnan i Hlt Hi) in Ha. discriminate.
  - split; [exact Hge|].
    destruct (Hdef i Hge Hi) as (a' & Ea & Hpos).
    rewrite Ea in Ha. injection Ha as <-. exact Hpos.
Qed.

Lemma atr_shape_witness :
  exists out,
    average_true_range [2; 3; 4] [1; 2; 3] [1.5; 2.5; 3.5] 2 = Ok out
    /\ length out = 3%nat
    /\ nth_error out 0 = Some nan
    /\ forall a, nth_error out 2 = Some (Some a) -> 0 <= a.
Proof.
  destruct (atr_shape [2; 3; 4] [1; 2; 3] [1.5; 2.5; 3.5] 2)
    as (out & E & Hlen & Hnan & Hdef); [lia | reflexivity | reflexivity | simpl; lia |].
  exists out. split; [exact E|]. split; [exact Hlen|]. split.
  - apply Hnan; simpl; lia.
  - intros a Ha. apply (Hdef 2%nat a Ha). cbn. lra.
Defined.

(** ** [generate_technical_signal] *)

Lemma moving_average_ok (values : list Q) (period : Z) :
  (0 < period)%Z ->
  exists out, moving_average values period = Ok out /\ length out = length values.
Proof.
  intro Hp. unfold moving_average.
  destruct (Z.leb_spec period 0) as [Hle|_]; [lia|].
  eexists. split; [reflexivity|].
  rewrite length_map. unfold Py.range. rewrite length_seq. lia.
Qed.

Lemma moving_average_bad_period_raises (values : list Q) (period : Z) :
  (period <= 0)%Z -> moving_average values period = Raise ValueError.
Proof.
  intro Hp. unfold moving_average.
  destruct (Z.leb_spec period 0) as [_|Hgt]; [reflexivity | lia].
Qed.

Lemma rsi_ok (values : list Q) (period : Z) :
  (0 < period)%Z -> (period + 1 <= Z.of_nat (length values))%Z ->
  exists out,
    relative_strength_index values period = Ok out
    /\ length out = length values
    /\ forall i, (Z.to_nat period <= i < length values)%nat ->
         exists r, nth_error out i = Some (Some r) /\ 0 <= r <= 100.
Proof.
  intros Hp Hlen.
  pose proof (gains_nonneg values) as HG. pose proof (losses_nonneg values) as HL.
  unfold gains_of in HG. unfold losses_of in HL.
  apply Forall_inv_tail in HG. apply Forall_inv_tail in HL.
  apply (rsi_generic values period (fun g l => 0 <= g /\ 0 <= l)
           (fun g => 0 <= g) (fun l => 0 <= l) (fun r => 0 <= r <= 100) Hp Hlen HG HL).
  - intros g l x y [Hg Hl] Hx Hy. split; now apply smoothed_nonneg.
  - intros g l [Hg Hl]. now apply compute_rsi_range.
  - cbv beta. rewrite !slice_from_1. split.
    + apply div_nonneg; [|now apply inject_Z_pos].
      apply sum_nonneg, Forall_firstn, HG.
    + apply div_nonneg; [|now apply inject_Z_pos].
      apply sum_nonneg, Forall_firstn, HL.
Qed.

Lemma rsi_bad_input_raises (values : list Q) (period : Z) :
  (period <= 0)%Z \/ (Z.of_nat (length values) < period + 1)%Z ->
  relative_strength_index values period = Raise ValueError.
Proof.
  intro H. unfold relative_strength_index.
  destruct (Z.leb_spec period 0) as [_|Hgt]; [reflexivity|].
  destruct (Z.ltb_spec (Z.of_nat (length values)) (period + 1)) as [_|Hge];
    [reflexivity | lia].
Qed.

Lemma technical_signal_raises (prices : list Q) (config : TechnicalConfig) :
  ~ enough_prices prices config ->
  generate_technical_signal prices config = Raise ValueError.
Proof.
  intro Hbad. unfold generate_technical_signal.
  destruct (Z.ltb_spec 0 (fast_ma config)) as [Hf|Hf];
    [|now rewrite moving_average_bad_period_raises].
  destruct (moving_average_ok prices _ Hf) as (fa & -> & _). cbn [bind].
  destruct (Z.ltb_spec 0 (slow_ma config)) as [Hs|Hs];
    [|now rewrite moving_average_bad_period_raises].
  destruct (moving_average_ok prices _ Hs) as (sl & -> & _). cbn [bind].
  rewrite rsi_bad_input_raises; [reflexivity|].
  destruct (Z.ltb_spec 0 (rsi_period config)) as [Hr|Hr]; [|now left].
  right. unfold enough_prices in Hbad. lia.
Qed.

(** The same function on floats. *)

Lemma float_moving_average_ok (values : list float) (period : Z) :
  (0 < period)%Z ->
  exists out, IEEE.moving_average values period = Ok out /\ length out = length values.
Proof.
  intro Hp. unfold IEEE.moving_average.
  destruct (Z.leb_spec period 0) as [Hle|_]; [lia|].
  eexists. split; [reflexivity|].
  rewrite length_map. unfold Py.range. rewrite length_seq. lia.
Qed.

Lemma float_moving_average_bad_period (values : list float) (period : Z) :
  (period <= 0)%Z -> IEEE.moving_average values period = Raise ValueError.
Proof.
  intro Hp. unfold IEEE.moving_average.
  destruct (Z.leb_spec period 0) as [_|Hgt]; [reflexivity | lia].
Qed.

Lemma float_rsi_bad_input (values : list float) (period : Z) :
  (period <= 0)%Z \/ (Z.of_nat (length values) < period + 1)%Z ->
  IEEE.relative_strength_index values period = Raise ValueError.
Proof.
  intro H. unfold IEEE.relative_strength_index.
  destruct (Z.leb_spec period 0) as [_|Hgt]; [reflexivity|].
  destruct (Z.ltb_spec (Z.of_nat (length values)) (period + 1)) as [_|Hge];
    [reflexivity | lia].
Qed.


Lemma float_moving_average_last_nan (values : list float) (period : Z) (out : list float)
      (x : float) :
  (Z.of_nat (length values) < period)%Z ->
  IEEE.moving_average values period = Ok out ->
  Py.getitem out (length values - 1) = Ok x ->
  x = PrimFloat.nan.
Proof.
  intros Hshort. unfold IEEE.moving_average.
  destruct (Z.leb_spec period 0) as [Hle|Hp]; [discriminate|].
  intro E. injection E as <-. unfold Py.getitem.
  destruct (length values) as [|n] eqn:En; [discriminate|].
  rewrite nth_error_map_range by lia.
  destruct (Nat.ltb_spec (S n - 1 + 1) (Z.to_nat period)) as [_|Hge]; [|lia].
  intro E. now injection E as <-.
Qed.

(** A difference with a NaN operand is NaN. *)
Lemma float_sub_nan (x y : float) :
  is_nan x = true \/ is_nan y = true -> is_nan (x - y)%float = true.
Proof.
  intro H. apply is_nan_spec. rewrite FloatAxioms.sub_spec.
  destruct H as [H|H]; apply is_nan_spec in H; rewrite H.
  - reflexivity.
  - now destruct (Prim2SF x) as [[|]|[|]| |].
Qed.

(** What [generate_technical_signal] returns, read off its last lines. *)
Lemma float_technical_result (prices : list float) (config : TechnicalConfig)
      (r : IEEE.IndicatorResult) :
  IEEE.generate_technical_signal prices config = Ok r ->
  exists fa sl fast slow,
    IEEE.moving_average prices (fast_ma config) = Ok fa
    /\ IEEE.moving_average prices (slow_ma config) = Ok sl
    /\ Py.getitem fa (length prices - 1) = Ok fast
    /\ Py.getitem sl (length prices - 1) = Ok slow
    /\ IEEE.value r = (fast - slow)%float
    /\ ((slow <? fast)%float = true /\ IEEE.bullish_level (IEEE.signal r)
        \/ (slow <? fast)%float = false /\ IEEE.bearish_level (IEEE.signal r)).
Proof.
  unfold IEEE.generate_technical_signal.
  destruct (IEEE.moving_average prices (fast_ma config)) as [fa|e] eqn:Efa; [|discriminate].
  destruct (IEEE.moving_average prices (slow_ma config)) as [sl|e] eqn:Esl; [|discriminate].
  destruct (IEEE.relative_strength_index prices (rsi_period config)) as [rsi|e];
    [|discriminate]. cbn [bind].
  destruct (Py.getitem fa _) as [fast|e] eqn:Efast; [|discriminate].
  destruct (Py.getitem sl _) as [slow|e] eqn:Eslow; [|discriminate].
  destruct (Py.getitem rsi _) as [rsi_value|e]; [|discriminate]. cbn [bind].
  intro E. injection E as <-. cbn [IEEE.signal IEEE.value].
  exists fa, sl, fast, slow.
  split; [reflexivity|]. split; [reflexivity|]. split; [exact Efast|].
  split; [exact Eslow|]. split; [reflexivity|].
  unfold IEEE.bullish_level, IEEE.bearish_level.
  destruct (slow <? fast)%float; [left | right]; (split; [reflexivity|]);
    destruct (negb (rsi_value =? rsi_value)%float); auto;
    destruct (70 <? rsi_value)%float; auto;
    destruct (rsi_value <? 30)%float; auto.
Qed.

Lemma float_technical_signal_raises (prices : list float) (config : TechnicalConfig) :
  ~ IEEE.enough_prices prices config ->
  IEEE.generate_technical_signal prices config = Raise ValueError.
Proof.
  intro Hbad. unfold IEEE.generate_technical_signal.
  destruct (Z.ltb_spec 0 (fast_ma config)) as [Hf|Hf];
    [|now rewrite float_moving_average_bad_period].
  destruct (float_moving_average_ok prices _ Hf) as (fa & -> & _). cbn [bind].
  destruct (Z.ltb_spec 0 (slow_ma config)) as [Hs|Hs];
    [|now rewrite float_moving_average_bad_period].
  destruct (float_moving_average_ok prices _ Hs) as (sl & -> & _). cbn [bind].
  rewrite float_rsi_bad_input; [reflexivity|].
  destruct (Z.ltb_spec 0 (rsi_period config)) as [Hr|Hr]; [|now left].
  right. unfold IEEE.enough_prices in Hbad. lia.
Qed.

Lemma bearish_level_negative (s : float) : IEEE.bearish_level s -> (s <? 0)%float = true.
Proof. intros [->|[->| ->]]; vm_compute; reflexivity. Qed.

Lemma bullish_level_positive (s : float) : IEEE.bullish_level s -> (0 <? s)%float = true.
Proof. intros [->|[->| ->]]; vm_compute; reflexivity. Qed.

(** X5. In exact arithmetic [generate_technical_signal] returns exactly when
    the two moving-average periods and the RSI period are positive and there
    are at least rsi_period + 1 prices, and raises ValueError on every other
    input.  On floats it raises ValueError on the same inputs, and the signal
    of every result it returns is one of the six sums 0.0 +/- 0.4 + (0.3, 0.0
    or -0.3) as floats, positive when the fast average is above the slow one
    and negative otherwise; the value it reports is fast - slow. *)
Theorem technical_signal_levels (config : TechnicalConfig) :
  (forall prices : list Q,
     (enough_prices prices config ->
        exists r, generate_technical_signal prices config = Ok r)
     /\ (~ enough_prices prices config ->
           generate_technical_signal prices config = Raise ValueError))
  /\ (forall prices : list float,
        (~ IEEE.enough_prices prices config ->
           IEEE.generate_technical_signal prices config = Raise ValueError)
        /\ (forall r, IEEE.generate_technical_signal prices config = Ok r ->
              IEEE.technical_level (IEEE.signal r)
              /\ (IEEE.bullish_level (IEEE.signal r) -> (0 <? IEEE.signal r)%float = true)
              /\ (IEEE.bearish_level (IEEE.signal r) -> (IEEE.signal r <? 0)%float = true))).
Proof.
  split.
  - intro prices. split.
    + intros (Hf & Hs & Hr & Hn).
      destruct (generate_technical_signal prices config) as [r|e] eqn:E.
      * exists r. reflexivity.
      * exfalso. revert E. unfold generate_technical_signal.
        destruct (moving_average_ok prices _ Hf) as (fa & -> & Lf).
        destruct (moving_average_ok prices _ Hs) as (sl & -> & Ls).
        destruct (rsi_ok prices _ Hr Hn) as (rsi & -> & Lr & _). cbn [bind].
        destruct (getitem_lt fa (length prices - 1)) as (fast & -> & _); [lia|].
        destruct (getitem_lt sl (length prices - 1)) as (slow & -> & _); [lia|].
        destruct (getitem_lt rsi (length prices - 1)) as (rv & -> & _); [lia|].
        cbn [bind]. discriminate.
    + apply technical_signal_raises.
  - intro prices. split; [apply float_technical_signal_raises|].
    intros r E.
    destruct (float_technical_result _ _ _ E) as (fa & sl & fast & slow & _ & _ & _ & _ & _ & H).
    split; [|split].
    + destruct H as [[_ H]|[_ H]]; [now left | now right].
    + apply bullish_level_positive.
    + apply bearish_level_negative.
Qed.

Lemma technical_signal_levels_witness :
  (exists r, generate_technical_signal prices_1_to_15 default_technical = Ok r)
  /\ generate_technical_signal [1; 2; 3] default_technical = Raise ValueError
  /\ IEEE.technical_level
       (IEEE.signal (IEEE.mkIndicatorResult PrimFloat.nan (0.0 - 0.4 + -0.3)%float)).
Proof.
  destruct (technical_signal_levels default_technical) as (HQ & HF).
  split; [|split].
  - apply (HQ prices_1_to_15). unfold enough_prices. cbn. lia.
  - apply (HQ [1; 2; 3]). unfold enough_prices. cbn. lia.
  - apply (HF IEEE.rising_prices). vm_compute. reflexivity.
Defined.

(** ** [normalize_metric] and [fundamental_score] *)

Lemma min_list_le (rest : list Q) (x y : Q) :
  In y (x :: rest) -> Py.min_list x rest <= y.
Proof.
  unfold Py.min_list. revert x y. induction rest as [|b rest IH]; intros x y Hy.
  - destruct Hy as [<-|[]]. cbn. lra.
  - cbn [fold_left]. pose proof (min_le_r x b) as Hb.
    assert (Hx : Py.min x b <= x) by (unfold Py.min; case_ltb b x; lra).
    destruct Hy as [<-|[<-|Hy]].
    + apply Qle_trans with (2 := Hx). apply IH. now left.
    + apply Qle_trans with (2 := Hb). apply IH. now left.
    + apply IH. now right.
Qed.

Lemma max_list_ge (rest : list Q) (x y : Q) :
  In y (x :: rest) -> y <= Py.max_list x rest.
Proof.
  unfold Py.max_list. revert x y. induction rest as [|b rest IH]; intros x y Hy.
  - destruct Hy as [<-|[]]. cbn. lra.
  - cbn [fold_left]. pose proof (max_ge_r x b) as Hb.
    assert (Hx : x <= Py.max x b) by (unfold Py.max; case_ltb x b; lra).
    destruct Hy as [<-|[<-|Hy]].
    + apply Qle_trans with (1 := Hx). apply IH. now left.
    + apply Qle_trans with (1 := Hb). apply IH. now left.
    + apply IH. now right.
Qed.

Lemma last_in {A : Type} (l : list A) (a : A) : Py.last l = Ok a -> In a l.
Proof.
  unfold Py.last. destruct (rev l) as [|b tl] eqn:E; [discriminate|].
  intro H. injection H as ->. apply in_rev. rewrite E. now left.
Qed.

Lemma last_nonempty {A : Type} (x : A) (rest : list A) :
  exists a, Py.last (x :: rest) = Ok a.
Proof.
  unfold Py.last. destruct (rev (x :: rest)) as [|b tl] eqn:E.
  - apply (f_equal (@length A)) in E. rewrite length_rev in E. discriminate.
  - now exists b.
Qed.

Lemma normalize_metric_range_aux (values : list Q) :
  exists v, normalize_metric values = Ok v /\ -1 <= v <= 1.
Proof.
  destruct values as [|x rest]; [exists 0.0; split; [reflexivity | lra]|].
  unfold normalize_metric.
  set (minimum := Py.min_list x rest). set (maximum := Py.max_list x rest).
  case_eqb maximum minimum; [exists 0.0; split; [reflexivity | lra]|].
  destruct (last_nonempty x rest) as (latest & El). rewrite El. cbn [bind].
  pose proof (min_list_le rest x latest (last_in _ _ El)) as Hmin.
  pose proof (max_list_ge rest x latest (last_in _ _ El)) as Hmax.
  fold minimum in Hmin. fold maximum in Hmax.
  assert (Hpos : 0 < maximum - minimum).
  { apply Qle_lteq in Hmin. apply Qle_lteq in Hmax.
    destruct Hmin as [Hmin|Hmin], Hmax as [Hmax|Hmax]; lra. }
  unfold Py.div. case_eqb (maximum - minimum) 0; [lra|]. cbn [bind].
  eexists. split; [reflexivity|].
  assert (H0 : 0 <= (latest - minimum) / (maximum - minimum)).
  { apply div_nonneg; lra. }
  assert (H1 : (latest - minimum) / (maximum - minimum) <= 1).
  { apply Qle_shift_div_r; lra. }
  lra.
Qed.

Lemma dict_set_fresh {V : Type} (d : Dict.t V) (k : string) (v : V) :
  ~ In k (keys d) -> Dict.set d k v = d ++ [(k, v)].
Proof.
  induction d as [|[k' v'] d IH]; intro H; cbn; [reflexivity|].
  destruct (String.eqb_spec k' k) as [->|Hne].
  - exfalso. apply H. now left.
  - rewrite IH; [reflexivity|]. intro Hin. apply H. now right.
Qed.

(** X6. [normalize_metric] never raises, whatever the series, and the value
    it returns is neither below -1 nor above 1.  (On floats the value can be
    NaN, for which both comparisons are false: [nan_context_is_built].) *)
Theorem normalize_metric_range (values : list Q) :
  exists v, normalize_metric values = Ok v /\ ~ v < -1 /\ ~ 1 < v.
Proof.
  destruct (normalize_metric_range_aux values) as (v & E & Hv).
  exists v. split; [exact E|]. split; lra.
Qed.

(** ** [build_metric_snapshot] *)

Lemma snapshot_loop (weights : Dict.t Q) (items : list (string * Q))
      (snapshot : Dict.t Fundamental.FundamentalMetric) :
  NoDup (map fst items) ->
  (forall k, In k (map fst items) -> ~ In k (keys snapshot)) ->
  fold_left
    (fun (snapshot : Dict.t Fundamental.FundamentalMetric) (item : string * Q) =>
       let (name, value) := item in
       let weight := Dict.get_default weights name 0.0 in
       Dict.set snapshot name (Fundamental.mkFundamentalMetric name value weight))
    items snapshot
  = snapshot
    ++ map (fun item : string * Q =>
              (fst item,
               Fundamental.mkFundamentalMetric
                 (fst item) (snd item) (Dict.get_default weights (fst item) 0.0)))
           items.
Proof.
  revert snapshot. induction items as [|[name value] items IH]; intros snapshot Hnd Hfresh.
  - cbn. now rewrite app_nil_r.
  - cbn [fold_left]. cbv zeta. rewrite dict_set_fresh by (apply Hfresh; now left).
    cbn [map fst] in Hnd. inversion Hnd as [|? ? Hnotin Hnd']; subst.
    rewrite IH; [now rewrite <- app_assoc | exact Hnd' |].
    intros k Hk Hin. unfold keys in Hin. rewrite map_app in Hin.
    apply in_app_or in Hin. destruct Hin as [Hin|[<-|[]]].
    + apply (Hfresh k); [now right | exact Hin].
    + contradiction.
Qed.

Lemma dict_get_map {V W : Type} (f : string -> V -> W) (d : Dict.t V) (k : string) :
  Dict.get (map (fun item : string * V => (fst item, f (fst item) (snd item))) d) k
  = match Dict.get d k with
    | Some v => Some (f k v)
    | None => None
    end.
Proof.
  induction d as [|[k' v] d IH]; cbn; [reflexivity|].
  destruct (String.eqb_spec k' k) as [->|Hne]; [reflexivity | exact IH].
Qed.

(** X8. On raw metrics that are a dictionary, [build_metric_snapshot] keeps
    the names in their order; looking a name up in the snapshot gives the
    metric carrying that name, its raw value and its configured weight (0.0 if
    it has none), and a name absent from the raw metrics is absent from the
    snapshot. *)
Theorem build_metric_snapshot_lookup (raw_metrics : Dict.t Q) (weights : Dict.t Q) :
  well_formed raw_metrics ->
  keys (Fundamental.build_metric_snapshot raw_metrics weights) = keys raw_metrics
  /\ forall name,
       Dict.get (Fundamental.build_metric_snapshot raw_metrics weights) name
       = match Dict.get raw_metrics name with
         | Some value =>
             Some (Fundamental.mkFundamentalMetric
                     name value (Dict.get_default weights name 0.0))
         | None => None
         end.
Proof.
  intro Hwf. unfold Fundamental.build_metric_snapshot, Dict.items.
  rewrite snapshot_loop; [| exact Hwf | intros k _ []]. cbn [app]. split.
  - unfold keys. rewrite map_map. cbn [fst]. reflexivity.
  - intro name.
    apply (dict_get_map
             (fun k v => Fundamental.mkFundamentalMetric k v (Dict.get_default weights k 0.0))).
Qed.

Lemma build_metric_snapshot_lookup_witness :
  let raw := [("network_growth"%string, 1.1); ("hash_rate"%string, 250)] in
  let snapshot := Fundamental.build_metric_snapshot raw (metrics_weights default_fundamental) in
  keys snapshot = ["network_growth"%string; "hash_rate"%string]
  /\ Dict.get snapshot "hash_rate"
     = Some (Fundamental.mkFundamentalMetric "hash_rate" 250 0.0)
  /\ Dict.get snapshot "exchange_inflows" = None.
Proof.
  destruct (build_metric_snapshot_lookup
              [("network_growth"%string, 1.1); ("hash_rate"%string, 250)]
              (metrics_weights default_fundamental)) as (Hkeys & Hget).
  - unfold well_formed, keys. cbn. repeat constructor; cbn; intuition discriminate.
  - cbv zeta. split; [exact Hkeys|]. split.
    + rewrite Hget. reflexivity.
    + rewrite Hget. reflexivity.
Defined.

(** ** [aggregate_sentiment]: sources and smoothing *)

Lemma keys_set {V : Type} (d : Dict.t V) (k k' : string) (v : V) :
  In k' (keys (Dict.set d k v)) <-> k' = k \/ In k' (keys d).
Proof.
  induction d as [|[k0 v0] d IH]; cbn.
  - intuition.
  - destruct (String.eqb_spec k0 k) as [->|Hne]; cbn.
    + intuition.
    + unfold keys in IH. rewrite IH. intuition.
Qed.

Lemma well_formed_set {V : Type} (d : Dict.t V) (k : string) (v : V) :
  well_formed d -> well_formed (Dict.set d k v).
Proof.
  unfold well_formed. induction d as [|[k0 v0] d IH]; intro H; cbn.
  - constructor; [intros [] | constructor].
  - inversion H as [|? ? Hnotin Hnd]; subst.
    destruct (String.eqb_spec k0 k) as [->|Hne]; cbn.
    + constructor; assumption.
    + constructor; [|now apply IH].
      intro Hin. apply (keys_set d k k0 v) in Hin. destruct Hin as [->|Hin]; contradiction.
Qed.

Lemma smooth_readings_snoc (readings : list SentimentReading) (r : SentimentReading)
      (alpha : Q) :
  smooth_readings (readings ++ [r]) alpha
  = let d := smooth_readings readings alpha in
    Dict.set d (source r)
             (exponential_smoothing (Dict.get_default d (source r) 0.0) (score r) alpha).
Proof.
  unfold smooth_readings. rewrite fold_left_app. reflexivity.
Qed.

(** X9. [aggregate_sentiment] keeps one smoothed value per distinct source:
    the dictionary it builds has no source twice, and its sources are exactly
    the sources of the readings. *)
Theorem one_state_per_source (readings : list SentimentReading) (alpha : Q) :
  well_formed (smooth_readings readings alpha)
  /\ forall s, In s (keys (smooth_readings readings alpha))
               <-> In s (map source readings).
Proof.
  induction readings as [|r readings IH] using rev_ind.
  - split; [constructor | intro s; cbn; tauto].
  - destruct IH as [Hwf Hkeys]. rewrite smooth_readings_snoc. cbv zeta. split.
    + now apply well_formed_set.
    + intro s. rewrite keys_set, Hkeys, map_app, in_app_iff. cbn. intuition.
Qed.

Lemma single_source_dict (readings : list SentimentReading) (s : string) (alpha : Q) :
  (forall x, In x readings -> source x = s) ->
  smooth_readings readings alpha = []
  \/ exists v, smooth_readings readings alpha = [(s, v)].
Proof.
  induction readings as [|r readings IH] using rev_ind; intro H; [now left|].
  right. rewrite smooth_readings_snoc. cbv zeta.
  assert (Hr : source r = s) by (apply H, in_or_app; right; now left).
  rewrite Hr. destruct IH as [->|[v ->]].
  - intros x Hx. apply H, in_or_app. now left.
  - eexists. reflexivity.
  - eexists. cbn. rewrite String.eqb_refl. reflexivity.
Qed.

(** X10. With a single source the aggregate is an exponential moving
    average that starts from 0: the aggregate of no reading is 0.0, and one
    more reading of that source moves the aggregate [previous] to
    alpha * score + (1 - alpha) * previous. *)
Theorem single_source_recurrence (readings : list SentimentReading) (r : SentimentReading)
        (alpha : Q) :
  (forall x, In x readings -> source x = source r) ->
  aggregate_sentiment [] alpha = Ok 0.0
  /\ exists previous next,
       aggregate_sentiment readings alpha = Ok previous
       /\ aggregate_sentiment (readings ++ [r]) alpha = Ok next
       /\ next == alpha * score r + (1 - alpha) * previous.
Proof.
  intro H. split; [reflexivity|].
  unfold aggregate_sentiment. rewrite smooth_readings_snoc. cbv zeta.
  destruct (single_source_dict readings (source r) alpha H) as [->|[v ->]].
  - exists 0.0, ((0 + exponential_smoothing 0.0 (score r) alpha) / inject_Z 1).
    split; [reflexivity|]. split; [reflexivity|].
    unfold exponential_smoothing, Qdiv. change (/ inject_Z 1) with 1. ring.
  - exists ((0 + v) / inject_Z 1),
           ((0 + exponential_smoothing v (score r) alpha) / inject_Z 1).
    split; [reflexivity|].
    split; [unfold Dict.get_default, Dict.get, Dict.set; rewrite !String.eqb_refl; reflexivity|].
    unfold exponential_smoothing, Qdiv. change (/ inject_Z 1) with 1. ring.
Qed.

Lemma single_source_recurrence_witness :
  aggregate_sentiment [] 0.2 = Ok 0.0
  /\ exists previous next,
       aggregate_sentiment [mkSentimentReading "news" 1.0] 0.2 = Ok previous
       /\ aggregate_sentiment ([mkSentimentReading "news" 1.0]
                               ++ [mkSentimentReading "news" 0.5]) 0.2 = Ok next
       /\ next == 0.2 * 0.5 + (1 - 0.2) * previous.
Proof.
  apply (single_source_recurrence [mkSentimentReading "news" 1.0]
                                  (mkSentimentReading "news" 0.5) 0.2).
  intros x [<-|[]]. reflexivity.
Defined.

(** ** The composite signal of a built context *)

(** ** The risk manager over its lifetime *)

Lemma update_equity_peak_max (self : Risk.RiskManager) (equity : Q) :
  Risk._peak_equity (snd (Risk.update_equity self equity))
  = Py.max (Risk._peak_equity self) equity
  /\ Risk._config (snd (Risk.update_equity self equity)) = Risk._config self
  /\ Risk._position (snd (Risk.update_equity self equity)) = Risk._position self.
Proof.
  unfold Risk.update_equity, Py.max.
  destruct (Py.ltb (Risk._peak_equity self) equity);
    match goal with
    | |- context [Py.div ?a ?b] => destruct (Py.div a b)
    end; cbn; repeat split.
Qed.

Lemma after_calls_peak (ops : list Risk.op) (self : Risk.RiskManager) :
  Risk._peak_equity (after_calls self ops)
  = fold_left Py.max (equities ops) (Risk._peak_equity self)
  /\ Risk._config (after_calls self ops) = Risk._config self.
Proof.
  unfold after_calls. revert self. induction ops as [|o ops IH]; intro self.
  - split; reflexivity.
  - cbn [fold_left equities flat_map]. destruct (IH (Risk.exec self o)) as [-> ->].
    rewrite fold_left_app.
    destruct o; cbn [Risk.exec fold_left]; try (split; reflexivity).
    destruct (update_equity_peak_max self equity) as (-> & -> & _). split; reflexivity.
Qed.

Lemma fold_max_ge (l : list Q) (a : Q) : a <= fold_left Py.max l a.
Proof.
  revert a. induction l as [|b l IH]; intro a; cbn [fold_left]; [lra|].
  apply Qle_trans with (2 := IH _). unfold Py.max. case_ltb a b; lra.
Qed.

(** X12. Over the lifetime of a manager, whatever calls are made on it: the
    peak equity is the greatest of 1.0 and the equities given to
    [update_equity] so far, so it is at least 1.0; the configuration is the
    one the manager was created with; and [update_equity] never raises.  With
    a maximum drawdown that is not negative, an equity that draws the warning
    is below the peak, so an equity that sets a new peak draws none. *)
Theorem peak_is_running_maximum (config : RiskConfig) (utcnow : datetime)
        (ops : list Risk.op) :
  let self := after_calls (Risk.init config utcnow) ops in
  Risk._peak_equity self = Py.max_list 1.0 (equities ops)
  /\ 1 <= Risk._peak_equity self
  /\ Risk._config self = config
  /\ forall equity,
       exists warned,
         fst (Risk.update_equity self equity) = Ok warned
         /\ (0 <= max_drawdown config -> warned = true ->
               equity < Risk._peak_equity (snd (Risk.update_equity self equity))).
Proof.
  cbv zeta. destruct (after_calls_peak ops (Risk.init config utcnow)) as [Hpeak Hconfig].
  cbn [Risk.init Risk._peak_equity Risk._config] in Hpeak, Hconfig.
  set (self := after_calls (Risk.init config utcnow) ops) in *.
  assert (Hge : 1 <= Risk._peak_equity self).
  { rewrite Hpeak. apply Qle_trans with (2 := fold_max_ge _ _). lra. }
  split; [exact Hpeak|]. split; [exact Hge|]. split; [exact Hconfig|].
  intro equity. unfold Risk.update_equity.
  set (self' := if Py.ltb (Risk._peak_equity self) equity
                then Risk.mkRiskManager (Risk._config self) (Risk._position self) equity
                else self).
  assert (Hpos : 1 <= Risk._peak_equity self' /\ Risk._config self' = config).
  { subst self'. case_ltb (Risk._peak_equity self) equity; cbn; split; (lra || assumption). }
  destruct Hpos as [Hpos Hcfg]. unfold Py.div.
  case_eqb (Risk._peak_equity self') 0; [lra|]. cbn [fst snd].
  eexists. split; [reflexivity|]. rewrite Hcfg, ltb_lt.
  set (pk := Risk._peak_equity self') in *. set (m := max_drawdown config).
  set (q := equity / pk).
  assert (Eq : equity == q * pk) by (subst q; field; lra).
  intros Hm H. nra.
Qed.

Lemma peak_is_running_maximum_witness :
  let self := after_calls (Risk.init default_risk 0%Z)
                          [Risk.UpdateEquity 7; Risk.UpdateEquity 6.79] in
  Risk._peak_equity self = 7
  /\ exists warned,
       fst (Risk.update_equity self 5) = Ok warned
       /\ (warned = true -> 5 < Risk._peak_equity (snd (Risk.update_equity self 5))).
Proof.
  destruct (peak_is_running_maximum default_risk 0%Z
              [Risk.UpdateEquity 7; Risk.UpdateEquity 6.79]) as (Hpeak & _ & _ & Hwarn).
  split; [exact Hpeak|].
  destruct (Hwarn 5) as (warned & E & H).
  exists warned. split; [exact E|]. intro Hw. apply H; [cbn; lra | exact Hw].
Defined.

(** X13. No call changes the configuration of a manager, and only
    [record_trade] changes its position, which it overwrites with exactly the
    size, price and time it is given (the clock reading if no time is). *)
Theorem only_record_trade_moves_position (self : Risk.RiskManager) (o : Risk.op) :
  Risk._config (Risk.exec self o) = Risk._config self
  /\ match o with
     | Risk.RecordTrade size price now utcnow =>
         Risk._position (Risk.exec self o)
         = Risk.mkPositionState size price (Risk.now_or now utcnow)
     | _ => Risk._position (Risk.exec self o) = Risk._position self
     end.
Proof.
  destruct o; cbn [Risk.exec]; try (split; reflexivity).
  destruct (update_equity_peak_max self equity) as (_ & Hc & Hp). split; assumption.
Qed.

(** X14. For a positive entry price and take-profit and stop-loss fractions
    that are not negative, [stop_levels] returns the two levels
    entry_price * (1 + take_profit) and entry_price * (1 - stop_loss): the
    stop loss is not above the entry price and the take profit is not below
    it; the manager is left as it was. *)
Theorem stop_levels_bracket_entry (self : Risk.RiskManager) (entry_price : Q) :
  0 < entry_price ->
  0 <= take_profit (Risk._config self) -> 0 <= stop_loss (Risk._config self) ->
  exists tp sl,
    fst (Risk.stop_levels self entry_price)
    = [("take_profit"%string, tp); ("stop_loss"%string, sl)]
    /\ tp == entry_price * (1 + take_profit (Risk._config self))
    /\ sl == entry_price * (1 - stop_loss (Risk._config self))
    /\ sl <= entry_price <= tp
    /\ snd (Risk.stop_levels self entry_price) = self.
Proof.
  intros He Htp Hsl. cbn. eexists. eexists.
  split; [reflexivity|]. split; [reflexivity|]. split; [reflexivity|].
  split; [|reflexivity]. split; nra.
Qed.

Lemma stop_levels_bracket_entry_witness :
  exists tp sl,
    fst (Risk.stop_levels (Risk.init default_risk 0%Z) 100)
    = [("take_profit"%string, tp); ("stop_loss"%string, sl)]
    /\ tp == 100 * (1 + take_profit default_risk)
    /\ sl == 100 * (1 - stop_loss default_risk)
    /\ sl <= 100 <= tp
    /\ snd (Risk.stop_levels (Risk.init default_risk 0%Z) 100) = Risk.init default_risk 0%Z.
Proof.
  apply (stop_levels_bracket_entry (Risk.init default_risk 0%Z) 100); cbn; lra.
Defined.

(** ** [send_order] *)

(** X15. A simulated order whose quantity and price are not negative, with
    a fill draw in [0.9, 1.0] and a slippage draw within the configured
    maximum, is filled for quantity * draw, between quantity * 0.9 and the
    quantity, at the average price price + price * draw, between
    price + price * (- max_slippage) and price + price * max_slippage; it is
    FILLED exactly when the executed quantity equals the quantity and
    PARTIALLY_FILLED otherwise, and the order of the report echoes the
    request. *)
Theorem simulated_fill_bounds (self : Execution.ExecutionEngine) (d : Execution.draws)
        (symbol side : string) (quantity price : Q) :
  Execution._dry_run self = true ->
  0 <= quantity -> 0 <= price ->
  0.9 <= Execution.uniform_quantity d <= 1.0 ->
  - max_slippage (Execution._config self) <= Execution.uniform_slippage d
    <= max_slippage (Execution._config self) ->
  let report := Execution.send_order self d symbol side quantity price in
  quantity * 0.9 <= Execution.executed_quantity report <= quantity
  /\ price + price * (- max_slippage (Execution._config self))
     <= Execution.avg_price report
     <= price + price * max_slippage (Execution._config self)
  /\ (Execution.status report = "FILLED"%string
      <-> Execution.executed_quantity report == quantity)
  /\ (Execution.status report = "PARTIALLY_FILLED"%string
      <-> ~ Execution.executed_quantity report == quantity)
  /\ Execution.order report
     = Execution.mkOrder symbol side quantity price
                         (Config.order_type (Execution._config self)) (Execution.utcnow d).
Proof.
  intros Hdry Hq Hp Hu Hs. cbv zeta. unfold Execution.send_order. rewrite Hdry.
  cbn [Execution.executed_quantity Execution.avg_price Execution.status Execution.order].
  split; [split; nra|]. split; [split; nra|].
  case_eqb (quantity * Execution.uniform_quantity d) quantity.
  - split; [tauto|]. split; [|reflexivity]. split; [discriminate | tauto].
  - split; [split; [discriminate | tauto]|]. split; [|reflexivity]. tauto.
Qed.

Lemma simulated_fill_bounds_witness :
  let report :=
    Execution.send_order (Execution.mkExecutionEngine default_execution true)
                         (Execution.mkDraws 0%Z 0.95 0.0001) "BTCUSDT" "BUY" 2 100 in
  2 * 0.9 <= Execution.executed_quantity report <= 2
  /\ 100 + 100 * (- 0.0005) <= Execution.avg_price report <= 100 + 100 * 0.0005
  /\ (Execution.status report = "FILLED"%string
      <-> Execution.executed_quantity report == 2)
  /\ (Execution.status report = "PARTIALLY_FILLED"%string
      <-> ~ Execution.executed_quantity report == 2)
  /\ Execution.order report
     = Execution.mkOrder "BTCUSDT" "BUY" 2 100 "limit" 0%Z.
Proof.
  apply (simulated_fill_bounds (Execution.mkExecutionEngine default_execution true)
                               (Execution.mkDraws 0%Z 0.95 0.0001) "BTCUSDT" "BUY" 2 100);
    cbn; try reflexivity; lra.
Defined.

(** ** Decision cycles: cooldown, sizing and failures *)

Lemma agent_eta (self : Trader.Agent) :
  Trader.mkAgent (Trader._config self) (Trader._risk self) (Trader._execution self) = self.
Proof. now destruct self. Qed.

Lemma decide_no_order (self : Trader.Agent) (w : Trader.World) (symbol : string)
      (snapshot : Trader.MarketSnapshot) (signal : Q) :
  Trader.calls (Trader.decide self w symbol snapshot signal) = [] ->
  Trader.agent (Trader.decide self w symbol snapshot signal) = self.
Proof.
  unfold Trader.decide. cbn [Risk.can_trade Risk.position_size].
  destruct (_ <=? _)%Z; cbn [negb]; [|intros _; apply agent_eta].
  destruct (Qeq_bool _ 0.0); [intros _; apply agent_eta|].
  destruct (Py.last (Trader.prices snapshot)) as [price|e]; [|intros _; apply agent_eta].
  destruct (Py.div _ price) as [quantity|e]; [|intros _; apply agent_eta].
  cbn. discriminate.
Qed.

Lemma decide_raise_no_order (self : Trader.Agent) (w : Trader.World) (symbol : string)
      (snapshot : Trader.MarketSnapshot) (signal : Q) (e : exn) :
  Trader.outcome (Trader.decide self w symbol snapshot signal) = Raise e ->
  Trader.calls (Trader.decide self w symbol snapshot signal) = [].
Proof.
  unfold Trader.decide. cbn [Risk.can_trade Risk.position_size].
  destruct (_ <=? _)%Z; cbn [negb]; [|reflexivity].
  destruct (Qeq_bool _ 0.0); [reflexivity|].
  destruct (Py.last (Trader.prices snapshot)) as [price|e']; [|reflexivity].
  destruct (Py.div _ price) as [quantity|e']; [|reflexivity].
  cbn. discriminate.
Qed.

Lemma decide_frame (self : Trader.Agent) (w : Trader.World) (symbol : string)
      (snapshot : Trader.MarketSnapshot) (signal : Q) :
  let self' := Trader.agent (Trader.decide self w symbol snapshot signal) in
  Trader._config self' = Trader._config self
  /\ Trader._execution self' = Trader._execution self
  /\ Risk._config (Trader._risk self') = Risk._config (Trader._risk self)
  /\ Risk._peak_equity (Trader._risk self') = Risk._peak_equity (Trader._risk self).
Proof.
  cbv zeta. unfold Trader.decide. cbn [Risk.can_trade Risk.position_size].
  destruct (_ <=? _)%Z; cbn [negb]; [|cbn; repeat split].
  destruct (Qeq_bool _ 0.0); [cbn; repeat split|].
  destruct (Py.last (Trader.prices snapshot)) as [price|e]; [|cbn; repeat split].
  destruct (Py.div _ price) as [quantity|e]; cbn; repeat split.
Qed.

(** X16. After a cycle that sent an order, any cycle started on the same
    agent before the cooldown has elapsed since that trade was recorded sends
    no order and leaves the agent exactly as it was, whatever its inputs. *)
Theorem cooldown_blocks_next_cycle
    (self : Trader.Agent) (w1 w2 : Trader.World) (symbol1 symbol2 : string)
    (fundamentals1 fundamentals2 : Dict.t (list Q))
    (readings1 readings2 : list SentimentReading) :
  let cycle1 := Trader.trade self w1 symbol1 fundamentals1 readings1 in
  let cycle2 := Trader.trade (Trader.agent cycle1) w2 symbol2 fundamentals2 readings2 in
  Trader.calls cycle1 <> [] ->
  (Trader.utcnow_can_trade w2 - Trader.utcnow_record_trade w1
   < cooldown (Risk._config (Trader._risk self)))%Z ->
  Trader.calls cycle2 = [] /\ Trader.agent cycle2 = Trader.agent cycle1.
Proof.
  cbv zeta. intros Hsent Hsoon.
  destruct (trade_calls _ _ _ _ _ Hsent) as (context & _ & Etrade).
  rewrite Etrade in Hsent |- *.
  destruct (decide_calls _ _ _ _ _ Hsent) as (price & quantity & _ & _ & _ & _ & _ & Hpos).
  destruct (decide_frame self w1 symbol1 (Trader.collect_market_data w1 symbol1)
                         (composite_signal context)) as (_ & _ & Hcfg & _).
  set (self1 := Trader.agent (Trader.decide self w1 symbol1 _ _)) in *.
  unfold Trader.trade at 1 2.
  destruct (Trader.build_context self1 _ fundamentals2 readings2) as [context2|e];
    [|split; reflexivity].
  unfold Trader.decide. cbn [Risk.can_trade Risk.now_or].
  rewrite Hpos, Hcfg. cbn [Risk.last_trade_time].
  destruct (Z.leb_spec (cooldown (Risk._config (Trader._risk self)))
                       (Trader.utcnow_can_trade w2 - Trader.utcnow_record_trade w1))
    as [Hle|_]; [lia|].
  cbn [negb Trader.calls Trader.agent]. split; [reflexivity | apply agent_eta].
Qed.

Lemma cooldown_blocks_next_cycle_witness :
  let cycle1 := Trader.trade sample_agent sample_world "BTCUSDT"
                             sample_fundamentals sample_readings in
  let cycle2 := Trader.trade (Trader.agent cycle1) sample_world "ETHUSDT"
                             sample_fundamentals sample_readings in
  Trader.calls cycle2 = [] /\ Trader.agent cycle2 = Trader.agent cycle1.
Proof.
  apply (cooldown_blocks_next_cycle sample_agent sample_world sample_world
                                    "BTCUSDT" "ETHUSDT").
  - vm_compute. discriminate.
  - vm_compute. reflexivity.
Defined.

(** X18. A cycle that sends no order leaves the agent exactly as it was; a
    cycle that raises has sent no order; and a cycle given fewer candles than
    the technical signal needs (or a non-positive period) raises
    ValueError. *)
Theorem cycle_without_order
    (self : Trader.Agent) (w : Trader.World) (symbol : string)
    (fundamentals : Dict.t (list Q)) (sentiment_readings : list SentimentReading) :
  let cycle := Trader.trade self w symbol fundamentals sentiment_readings in
  (Trader.calls cycle = [] -> Trader.agent cycle = self)
  /\ (forall e, Trader.outcome cycle = Raise e -> Trader.calls cycle = [])
  /\ (~ enough_prices (map Trader.close (Trader.klines w))
                      (technical_config (Trader._config self)) ->
        Trader.outcome cycle = Raise ValueError).
Proof.
  cbv zeta. unfold Trader.trade. split; [|split].
  - destruct (Trader.build_context _ _ _ _) as [context|e]; [|reflexivity].
    apply decide_no_order.
  - intro e. destruct (Trader.build_context _ _ _ _) as [context|e']; [|reflexivity].
    apply decide_raise_no_order.
  - intro Hbad. unfold Trader.build_context, build_strategy_context.
    cbn [Trader.collect_market_data Trader.prices].
    rewrite technical_signal_raises by exact Hbad. reflexivity.
Qed.

Lemma cycle_without_order_witness :
  let w := Trader.mkWorld (map candle [1; 2; 3]%Z) 1000000000%Z
                          (Execution.mkDraws 0%Z 0.95 0.0001) 1000000001%Z in
  let cycle := Trader.trade sample_agent w "BTCUSDT" sample_fundamentals sample_readings in
  Trader.outcome cycle = Raise ValueError
  /\ Trader.calls cycle = []
  /\ Trader.agent cycle = sample_agent.
Proof.
  cbv zeta.
  destruct (cycle_without_order
              sample_agent
              (Trader.mkWorld (map candle [1; 2; 3]%Z) 1000000000%Z
                              (Execution.mkDraws 0%Z 0.95 0.0001) 1000000001%Z)
              "BTCUSDT" sample_fundamentals sample_readings) as (Hsame & Hraise & Hshort).
  assert (E : Trader.outcome
                (Trader.trade sample_agent
                   (Trader.mkWorld (map candle [1; 2; 3]%Z) 1000000000%Z
                                   (Execution.mkDraws 0%Z 0.95 0.0001) 1000000001%Z)
                   "BTCUSDT" sample_fundamentals sample_readings) = Raise ValueError).
  { apply Hshort. unfold enough_prices. cbn. lia. }
  split; [exact E|]. split; [exact (Hraise _ E)|]. apply Hsame. exact (Hraise _ E).
Defined.

(** ** The recommendations of the dashboard *)

Lemma composite_signal_range (ctx : StrategyContext) : -1 <= composite_signal ctx <= 1.
Proof.
  unfold composite_signal.
  set (x := signal (technical ctx) * 0.5 + fundamental ctx * 0.3 + sentiment ctx * 0.2).
  pose proof (min_le_r x 1.0). unfold Py.max. case_ltb (Py.min x 1.0) (-1.0); lra.
Qed.

(** X19. A recommendation that [build_recommendation] returns is for the
    requested symbol and enters at the last close; its statistics carry the
    composite signal of the built context and the expected return in percent.
    Its probability is neither below 0 nor above 1, and neither below nor
    above the absolute signal.  It is LONG when signal >= 0 holds, with the
    exit at price * (1 + probability * 0.05), and SHORT when it does not, with
    the exit at price * (1 - probability * 0.05). *)
Theorem recommendation_fields (self : Dashboard.RecommendationEngine) (f : Dashboard.Feed)
        (symbol : string) (rec : Dashboard.Recommendation) :
  Dashboard.build_recommendation self f symbol = Ok rec ->
  exists context price,
    let signal := composite_signal context in
    let probability := Dashboard.probability rec in
    Trader.build_context (Dashboard._agent self)
      (Trader.mkMarketSnapshot symbol (map Trader.close (Dashboard.klines f))
         (map Trader.high (Dashboard.klines f)) (map Trader.low (Dashboard.klines f))
         (map Trader.close (Dashboard.klines f)))
      (Dashboard._fundamental_provider self symbol)
      (Dashboard._sentiment_provider self symbol) = Ok context
    /\ Py.last (map Trader.close (Dashboard.klines f)) = Ok price
    /\ Dashboard.symbol rec = symbol
    /\ Dashboard.entry_price rec = price
    /\ Dict.get (Dashboard.statistics rec) "signal_strength" = Some signal
    /\ Dict.get (Dashboard.statistics rec) "expected_return_pct"
       = Some (probability * 0.05 * 100)
    /\ (~ probability < 0 /\ ~ 1 < probability)
    /\ (~ probability < Qabs signal /\ ~ Qabs signal < probability)
    /\ ((Dashboard.side rec = "LONG"%string /\ 0 <= signal
         /\ Dashboard.exit_price rec = price * (1 + probability * 0.05))
        \/ (Dashboard.side rec = "SHORT"%string /\ ~ 0 <= signal
            /\ Dashboard.exit_price rec = price * (1 - probability * 0.05))).
Proof.
  unfold Dashboard.build_recommendation.
  cbn [Trader.collect_market_data Trader.prices Trader.klines].
  destruct (Trader.build_context _ _ _ _) as [context|e]; [|discriminate]. cbn [bind].
  destruct (Py.last (map Trader.close (Dashboard.klines f))) as [price|e]; [|discriminate].
  cbn [bind]. destruct (recommendation_atr _) as [atr|e]; [|discriminate]. cbn [bind].
  intro E. injection E as <-. exists context, price. cbv zeta.
  pose proof (composite_signal_range context) as Hs.
  set (signal := composite_signal context) in *.
  assert (Habs : 0 <= Qabs signal <= 1).
  { split; [apply Qabs_nonneg | apply Qabs_Qle_condition; lra]. }
  assert (Hp : Py.max (Py.min (Qabs signal) 1.0) 0.0 == Qabs signal).
  { unfold Py.max, Py.min. case_ltb 1.0 (Qabs signal); [lra|].
    case_ltb (Qabs signal) 0.0; [lra | reflexivity]. }
  cbn [Dashboard.symbol Dashboard.entry_price Dashboard.probability Dashboard.side
       Dashboard.exit_price Dashboard.statistics].
  split; [reflexivity|]. split; [reflexivity|]. split; [reflexivity|].
  split; [reflexivity|]. split; [destruct atr; reflexivity|].
  split; [destruct atr; reflexivity|].
  split; [split; lra|]. split; [split; lra|].
  destruct (Qle_bool 0 signal) eqn:El.
  - left. apply Qle_bool_iff in El. split; [reflexivity|]. split; [exact El | reflexivity].
  - right. split; [reflexivity|]. split; [|reflexivity].
    intro H. apply Qle_bool_iff in H. congruence.
Qed.

Lemma recommendation_symbol (self : Dashboard.RecommendationEngine) (f : Dashboard.Feed)
      (symbol : string) (rec : Dashboard.Recommendation) :
  Dashboard.build_recommendation self f symbol = Ok rec -> symbol = Dashboard.symbol rec.
Proof.
  unfold Dashboard.build_recommendation.
  destruct (Trader.build_context _ _ _ _) as [context|e]; [|discriminate]. cbn [bind].
  destruct (Py.last _) as [price|e]; [|discriminate]. cbn [bind].
  destruct (recommendation_atr _) as [atr|e]; [|discriminate]. cbn [bind].
  intro E. injection E as <-. reflexivity.
Qed.

Lemma insert_permutation (item : Dashboard.Recommendation)
      (sorted : list Dashboard.Recommendation) :
  Permutation (item :: sorted) (Dashboard.insert_by_probability item sorted).
Proof.
  induction sorted as [|other rest IH]; cbn; [reflexivity|].
  destruct (Py.ltb _ _); [|reflexivity].
  rewrite perm_swap. now apply perm_skip.
Qed.

Lemma build_all_shape (self : Dashboard.RecommendationEngine) (feed : nat -> Dashboard.Feed)
      (symbols : list string) (i : nat) (built : list Dashboard.Recommendation) :
  Dashboard.build_all self feed i symbols = Ok built ->
  map Dashboard.symbol built = symbols.
Proof.
  revert i built. induction symbols as [|symbol symbols IH]; intros i built; cbn.
  - intro E. injection E as <-. reflexivity.
  - destruct (Dashboard.build_recommendation self (feed i) symbol) as [rec|e] eqn:Er;
      [|discriminate]. cbn [bind].
    destruct (Dashboard.build_all self feed (S i) symbols) as [rest|e] eqn:Eb;
      [|discriminate]. cbn [bind].
    intro E. injection E as <-. cbn [map]. rewrite (IH _ _ Eb).
    destruct (recommendation_symbol _ _ _ _ Er). reflexivity.
Qed.

Lemma recommendation_fields_witness :
  exists rec price,
    Dashboard.build_recommendation sample_engine (sample_feed 0) "BTCUSDT" = Ok rec
    /\ Py.last (map Trader.close (Dashboard.klines (sample_feed 0))) = Ok price
    /\ Dashboard.symbol rec = "BTCUSDT"%string
    /\ Dashboard.entry_price rec = price
    /\ ~ Dashboard.probability rec < 0 /\ ~ 1 < Dashboard.probability rec.
Proof.
  destruct (Dashboard.build_recommendation sample_engine (sample_feed 0) "BTCUSDT")
    as [rec|e] eqn:E; [|vm_compute in E; discriminate].
  destruct (recommendation_fields sample_engine (sample_feed 0) "BTCUSDT" rec E)
    as (context & price & _ & Hlast & Hsym & Hentry & _ & _ & Hr & _).
  exists rec, price. repeat split; try assumption; apply Hr.
Defined.

Lemma build_all_raises (self : Dashboard.RecommendationEngine) (feed : nat -> Dashboard.Feed)
      (symbols : list string) (k i : nat) (symbol : string) (e : exn) :
  nth_error symbols i = Some symbol ->
  Dashboard.build_recommendation self (feed (k + i)%nat) symbol = Raise e ->
  exists e', Dashboard.build_all self feed k symbols = Raise e'.
Proof.
  revert k i. induction symbols as [|s symbols IH]; intros k i Hnth Hraise.
  - destruct i; discriminate.
  - cbn [Dashboard.build_all]. destruct i as [|i]; cbn in Hnth.
    + injection Hnth as ->. rewrite Nat.add_0_r in Hraise. rewrite Hraise.
      exists e. reflexivity.
    + destruct (Dashboard.build_recommendation self (feed k) s) as [rec|e0];
        [|exists e0; reflexivity]. cbn [bind].
      destruct (IH (S k) i Hnth) as (e' & ->).
      { replace (S k + i)%nat with (k + S i)%nat by lia. exact Hraise. }
      exists e'. reflexivity.
Qed.

(** X20. When [refresh] returns, its list holds exactly the recommendations
    built for the symbols, one per symbol, in some order.  When building the
    recommendation of any one symbol raises, [refresh] raises and returns no
    list at all. *)
Theorem refresh_returns_every_recommendation
    (self : Dashboard.RecommendationEngine) (feed : nat -> Dashboard.Feed)
    (symbols : list string) :
  (forall out,
     Dashboard.refresh self feed symbols = Ok out ->
     exists built,
       Dashboard.build_all self feed 0 symbols = Ok built
       /\ map Dashboard.symbol built = symbols
       /\ Permutation built out
       /\ length out = length symbols)
  /\ (forall i symbol e,
        nth_error symbols i = Some symbol ->
        Dashboard.build_recommendation self (feed i) symbol = Raise e ->
        exists e', Dashboard.refresh self feed symbols = Raise e').
Proof.
  split.
  - intros out. unfold Dashboard.refresh.
    destruct (Dashboard.build_all self feed 0 symbols) as [built|e] eqn:Eb; [|discriminate].
    cbn [bind]. intro E. injection E as <-. exists built.
    assert (Hperm : Permutation built (Dashboard.sorted_by_probability built)).
    { unfold Dashboard.sorted_by_probability.
      induction built as [|rec built IH] in |- *; cbn [fold_right]; [constructor|].
      apply perm_trans with (2 := insert_permutation _ _). now apply perm_skip. }
    split; [reflexivity|]. split; [exact (build_all_shape _ _ _ _ _ Eb)|].
    split; [exact Hperm|].
    rewrite <- (Permutation_length Hperm), <- (build_all_shape _ _ _ _ _ Eb).
    now rewrite length_map.
  - intros i symbol e Hnth Hraise. unfold Dashboard.refresh.
    destruct (build_all_raises self feed symbols 0 i symbol e Hnth Hraise) as (e' & ->).
    exists e'. reflexivity.
Qed.

Lemma refresh_returns_every_recommendation_witness :
  (exists out built,
     Dashboard.refresh sample_engine sample_feed ["BTCUSDT"%string; "ETHUSDT"%string] = Ok out
     /\ Permutation built out
     /\ length out = 2%nat)
  /\ exists e',
       Dashboard.refresh sample_engine (fun _ => Dashboard.mkFeed [] 0%Z)
                         ["BTCUSDT"%string] = Raise e'.
Proof.
  split.
  - destruct (refresh_returns_every_recommendation
                sample_engine sample_feed ["BTCUSDT"%string; "ETHUSDT"%string]) as [Hok _].
    destruct (Dashboard.refresh sample_engine sample_feed
                                ["BTCUSDT"%string; "ETHUSDT"%string])
      as [out|e] eqn:E; [|vm_compute in E; discriminate].
    destruct (Hok out eq_refl) as (built & _ & _ & Hperm & Hlen).
    exists out, built. repeat split; assumption.
  - destruct (refresh_returns_every_recommendation
                sample_engine (fun _ => Dashboard.mkFeed [] 0%Z) ["BTCUSDT"%string])
      as [_ Hraise].
    apply (Hraise 0%nat "BTCUSDT"%string ValueError); reflexivity.
Defined.

Lemma last_of_final_position {A : Type} (l : list A) (a : A) :
  nth_error l (length l - 1) = Some a -> Py.last l = Ok a.
Proof.
  unfold Py.last. destruct l as [|x l] using rev_ind; [discriminate|].
  rewrite rev_app_distr, length_app. cbn [length rev app].
  replace (length l + 1 - 1)%nat with (length l) by lia.
  rewrite nth_error_app2 by lia. rewrite Nat.sub_diag. cbn.
  intro H. now injection H as ->.
Qed.

Lemma enough_prices_dec (prices : list Q) (config : TechnicalConfig) :
  enough_prices prices config \/ ~ enough_prices prices config.
Proof.
  unfold enough_prices.
  destruct (Z.ltb_spec 0 (fast_ma config)); [|right; lia].
  destruct (Z.ltb_spec 0 (slow_ma config)); [|right; lia].
  destruct (Z.ltb_spec 0 (rsi_period config)); [|right; lia].
  destruct (Z.leb_spec (rsi_period config + 1) (Z.of_nat (length prices)));
    [left; lia | right; lia].
Qed.

Lemma built_context_enough_prices (self : Trader.Agent) (snapshot : Trader.MarketSnapshot)
      (fundamentals : Dict.t (list Q)) (readings : list SentimentReading)
      (context : StrategyContext) :
  Trader.build_context self snapshot fundamentals readings = Ok context ->
  enough_prices (Trader.prices snapshot) (technical_config (Trader._config self)).
Proof.
  intro E. destruct (enough_prices_dec (Trader.prices snapshot)
                                       (technical_config (Trader._config self)))
    as [H|H]; [exact H|].
  exfalso. revert E. unfold Trader.build_context, build_strategy_context.
  rewrite technical_signal_raises by exact H. discriminate.
Qed.

(** X21. With an agent whose RSI period is at least 13,
    [build_recommendation] returns whenever the context can be built: the
    candles that let the context be built are enough for the 14-period ATR,
    so its IndexError cannot occur and its ValueError handler is never
    entered.  An "atr" statistic, when the recommendation carries one, is not
    negative if the first candle has its low at or below its high. *)
Theorem recommendation_returns (self : Dashboard.RecommendationEngine) (f : Dashboard.Feed)
        (symbol : string) (context : StrategyContext) :
  (13 <= rsi_period (technical_config (Trader._config (Dashboard._agent self))))%Z ->
  Trader.build_context (Dashboard._agent self)
    (Trader.mkMarketSnapshot symbol (map Trader.close (Dashboard.klines f))
       (map Trader.high (Dashboard.klines f)) (map Trader.low (Dashboard.klines f))
       (map Trader.close (Dashboard.klines f)))
    (Dashboard._fundamental_provider self symbol)
    (Dashboard._sentiment_provider self symbol) = Ok context ->
  (14 <= length (Dashboard.klines f))%nat
  /\ exists rec,
       Dashboard.build_recommendation self f symbol = Ok rec
       /\ forall atr,
            Dict.get (Dashboard.statistics rec) "atr" = Some atr ->
            hd 0 (map Trader.low (Dashboard.klines f))
            <= hd 0 (map Trader.high (Dashboard.klines f)) ->
            0 <= atr.
Proof.
  intros Hperiod Ec. unfold Dashboard.build_recommendation, Trader.collect_market_data.
  cbv zeta. cbn [Trader.prices Trader.klines].
  rewrite Ec. cbn [bind].
  apply built_context_enough_prices in Ec. destruct Ec as (_ & _ & _ & Hn).
  cbn [Trader.prices] in Hn. rewrite length_map in Hn.
  split; [lia|].
  destruct (getitem_lt (map Trader.close (Dashboard.klines f))
                       (length (Dashboard.klines f) - 1)) as (price & _ & Hprice).
  { rewrite length_map. lia. }
  rewrite <- (length_map Trader.close) in Hprice at 1.
  rewrite (last_of_final_position _ _ Hprice). cbn [bind].
  unfold recommendation_atr. cbn [Trader.highs Trader.lows Trader.closes].
  destruct (atr_ok (map Trader.high (Dashboard.klines f)) (map Trader.low (Dashboard.klines f))
                   (map Trader.close (Dashboard.klines f)) 14)
    as (out & -> & Hlen & _ & Hdef);
    [lia | now rewrite !length_map | now rewrite !length_map | rewrite length_map; lia |].
  rewrite length_map in Hlen, Hdef.
  destruct (Hdef (length (Dashboard.klines f) - 1)%nat) as (a & Ha & Hpos);
    [change (Z.to_nat 14) with 14%nat; lia | lia |].
  assert (Hlast : Py.last out = Ok (Some a)).
  { apply last_of_final_position. rewrite Hlen. exact Ha. }
  destruct out as [|x out]; [cbn in Hlen; lia|]. rewrite Hlast. cbn [bind].
  eexists. split; [reflexivity|]. cbn [Dashboard.statistics].
  intros atr Hget Hc. cbn in Hget. injection Hget as <-. now apply Hpos.
Qed.

Lemma recommendation_returns_witness :
  exists rec,
    Dashboard.build_recommendation sample_engine (sample_feed 0) "BTCUSDT" = Ok rec
    /\ forall atr, Dict.get (Dashboard.statistics rec) "atr" = Some atr -> 0 <= atr.
Proof.
  destruct (Trader.build_context (Dashboard._agent sample_engine)
              (Trader.mkMarketSnapshot "BTCUSDT"
                 (map Trader.close (Dashboard.klines (sample_feed 0)))
                 (map Trader.high (Dashboard.klines (sample_feed 0)))
                 (map Trader.low (Dashboard.klines (sample_feed 0)))
                 (map Trader.close (Dashboard.klines (sample_feed 0))))
              (Dashboard._fundamental_provider sample_engine "BTCUSDT")
              (Dashboard._sentiment_provider sample_engine "BTCUSDT"))
    as [context|e] eqn:Ec; [|vm_compute in Ec; discriminate].
  destruct (recommendation_returns sample_engine (sample_feed 0) "BTCUSDT" context)
    as (_ & rec & E & Hatr); [cbn; lia | exact Ec |].
  exists rec. split; [exact E|]. intros atr Hget. apply (Hatr atr Hget). cbn. lra.
Defined.

(** ** Orders and short histories *)

(** X22. When a cycle sends an order, the order is for the symbol of the
    cycle at the last close, which is not zero, on the side chosen from the
    composite signal, and its quantity is the position size chosen for an
    equity of 1.0, which is not zero, divided by that price. *)
Theorem order_quantity_is_size_over_price
    (self : Trader.Agent) (w : Trader.World) (symbol : string)
    (fundamentals : Dict.t (list Q)) (sentiment_readings : list SentimentReading) :
  let cycle := Trader.trade self w symbol fundamentals sentiment_readings in
  Trader.calls cycle <> [] ->
  exists context quantity price report rest,
    let position_size :=
      fst (Risk.position_size (Trader._risk self) 1.0 (composite_signal context)) in
    Trader.build_context self (Trader.collect_market_data w symbol)
                         fundamentals sentiment_readings = Ok context
    /\ Trader.calls cycle
       = Trader.SendOrder symbol (Trader.choose_side (composite_signal context))
                          quantity price report :: rest
    /\ Py.last (map Trader.close (Trader.klines w)) = Ok price
    /\ ~ price == 0
    /\ ~ position_size == 0
    /\ quantity = position_size / price.
Proof.
  cbv zeta. intro Hsent.
  destruct (trade_calls _ _ _ _ _ Hsent) as (context & Hctx & Etrade).
  rewrite Etrade in Hsent |- *.
  destruct (decide_calls _ _ _ _ _ Hsent)
    as (price & quantity & _ & Hps & Hlast & Hdiv & Hc & _).
  exists context, quantity, price. eexists. eexists.
  split; [exact Hctx|]. split; [exact Hc|]. split; [exact Hlast|].
  set (ps := fst (Risk.position_size (Trader._risk self) 1.0 (composite_signal context))) in *.
  revert Hdiv. unfold Py.div. case_eqb price 0; [discriminate|].
  intro Hq. injection Hq as <-. split; [exact E|]. split; [exact Hps | reflexivity].
Qed.

Lemma order_quantity_is_size_over_price_witness :
  exists context quantity price report rest,
    Trader.build_context sample_agent (Trader.collect_market_data sample_world "BTCUSDT")
                         sample_fundamentals sample_readings = Ok context
    /\ Trader.calls (Trader.trade sample_agent sample_world "BTCUSDT"
                                  sample_fundamentals sample_readings)
       = Trader.SendOrder "BTCUSDT" (Trader.choose_side (composite_signal context))
                          quantity price report :: rest
    /\ Py.last (map Trader.close (Trader.klines sample_world)) = Ok price
    /\ ~ price == 0
    /\ ~ fst (Risk.position_size (Trader._risk sample_agent) 1.0 (composite_signal context))
         == 0
    /\ quantity
       = fst (Risk.position_size (Trader._risk sample_agent) 1.0 (composite_signal context))
         / price.
Proof.
  apply (order_quantity_is_size_over_price sample_agent sample_world "BTCUSDT"
                                           sample_fundamentals sample_readings).
  vm_compute. discriminate.
Defined.

(** X23. In live mode (no dry run) a cycle that reaches the order still
    records a trade: the report has status NEW and no executed quantity, the
    recorded position has size 0 at the requested price, and the cooldown
    starts from the time of the recording. *)
Theorem live_cycle_records_empty_trade
    (self : Trader.Agent) (w : Trader.World) (symbol : string)
    (fundamentals : Dict.t (list Q)) (sentiment_readings : list SentimentReading) :
  let cycle := Trader.trade self w symbol fundamentals sentiment_readings in
  Execution._dry_run (Trader._execution self) = false ->
  Trader.calls cycle <> [] ->
  exists side quantity price report,
    Trader.calls cycle
    = [Trader.SendOrder symbol side quantity price report;
       Trader.RecordTrade (0.0 * price) price;
       Trader.StopLevels price]
    /\ Execution.status report = "NEW"%string
    /\ Execution.executed_quantity report = 0.0
    /\ Risk._position (Trader._risk (Trader.agent cycle))
       = Risk.mkPositionState (0.0 * price) price (Trader.utcnow_record_trade w)
    /\ Risk.size (Risk._position (Trader._risk (Trader.agent cycle))) == 0.
Proof.
  cbv zeta. intros Hlive Hsent.
  destruct (trade_calls _ _ _ _ _ Hsent) as (context & _ & Etrade).
  rewrite Etrade in Hsent |- *.
  destruct (decide_calls _ _ _ _ _ Hsent)
    as (price & quantity & _ & _ & _ & _ & Hc & Hpos).
  rewrite Hc, Hpos. unfold Execution.send_order. rewrite Hlive.
  cbn [Execution.executed_quantity Execution.avg_price Execution.status].
  exists (Trader.choose_side (composite_signal context)), quantity, price.
  eexists. split; [reflexivity|]. cbn [Execution.status Execution.executed_quantity].
  split; [reflexivity|]. split; [reflexivity|]. split; [reflexivity|].
  cbn [Risk.size]. ring.
Qed.

Lemma live_cycle_records_empty_trade_witness :
  let live := Trader.mkAgent DEFAULT_CONFIG (Risk.init default_risk 0%Z)
                             (Execution.mkExecutionEngine default_execution false) in
  let cycle := Trader.trade live sample_world "BTCUSDT" sample_fundamentals sample_readings in
  exists side quantity price report,
    Trader.calls cycle
    = [Trader.SendOrder "BTCUSDT" side quantity price report;
       Trader.RecordTrade (0.0 * price) price;
       Trader.StopLevels price]
    /\ Execution.status report = "NEW"%string
    /\ Execution.executed_quantity report = 0.0
    /\ Risk._position (Trader._risk (Trader.agent cycle))
       = Risk.mkPositionState (0.0 * price) price (Trader.utcnow_record_trade sample_world)
    /\ Risk.size (Risk._position (Trader._risk (Trader.agent cycle))) == 0.
Proof.
  apply (live_cycle_records_empty_trade
           (Trader.mkAgent DEFAULT_CONFIG (Risk.init default_risk 0%Z)
                           (Execution.mkExecutionEngine default_execution false))
           sample_world "BTCUSDT" sample_fundamentals sample_readings).
  - reflexivity.
  - vm_compute. discriminate.
Defined.

Lemma moving_average_last_nan (values : list Q) (period : Z) :
  (0 < period)%Z -> (Z.of_nat (length values) < period)%Z -> values <> [] ->
  exists out,
    moving_average values period = Ok out
    /\ Py.getitem out (length values - 1) = Ok nan.
Proof.
  intros Hp Hshort Hne. unfold moving_average.
  destruct (Z.leb_spec period 0) as [Hle|_]; [lia|].
  eexists. split; [reflexivity|].
  assert (Hpos : (0 < length values)%nat) by (destruct values; [congruence | cbn; lia]).
  unfold Py.getitem. rewrite nth_error_map_range by lia.
  destruct (Nat.ltb_spec (length values - 1 + 1) (Z.to_nat period)); [reflexivity | lia].
Qed.

(** X24. With fewer prices than one of the two moving-average periods,
    that moving average is NaN at the latest index, so the comparison
    fast > slow is false whatever the prices.  In exact arithmetic, with
    enough prices for the RSI, [generate_technical_signal] then returns a
    negative signal and the value NaN; on floats every result it returns has
    a NaN value and one of the three bearish signals 0.0 - 0.4 + (0.3, 0.0 or
    -0.3), all negative. *)
Theorem short_history_is_bearish (config : TechnicalConfig) :
  (forall prices : list Q,
     enough_prices prices config ->
     (Z.of_nat (length prices) < fast_ma config)%Z
     \/ (Z.of_nat (length prices) < slow_ma config)%Z ->
     exists r,
       generate_technical_signal prices config = Ok r
       /\ value r = nan
       /\ signal r < 0)
  /\ (forall (prices : list float) (r : IEEE.IndicatorResult),
        (Z.of_nat (length prices) < fast_ma config)%Z
        \/ (Z.of_nat (length prices) < slow_ma config)%Z ->
        IEEE.generate_technical_signal prices config = Ok r ->
        is_nan (IEEE.value r) = true
        /\ IEEE.bearish_level (IEEE.signal r)
        /\ (IEEE.signal r <? 0)%float = true).
Proof.
  split.
  - intros prices (Hf & Hs & Hr & Hn) Hshort.
    assert (Hne : prices <> []) by (intros ->; cbn in Hn; lia).
    assert (Hgt : exists fa sl fast slow,
              moving_average prices (fast_ma config) = Ok fa
              /\ moving_average prices (slow_ma config) = Ok sl
              /\ Py.getitem fa (length prices - 1) = Ok fast
              /\ Py.getitem sl (length prices - 1) = Ok slow
              /\ (fast = nan \/ slow = nan)).
    { destruct Hshort as [Hshort|Hshort].
      - destruct (moving_average_last_nan prices _ Hf Hshort Hne) as (fa & Efa & Efast).
        destruct (moving_average_ok prices _ Hs) as (sl & Esl & Lsl).
        destruct (getitem_lt sl (length prices - 1)) as (slow & Eslow & _); [lia|].
        exists fa, sl, nan, slow. repeat split; try assumption. now left.
      - destruct (moving_average_last_nan prices _ Hs Hshort Hne) as (sl & Esl & Eslow).
        destruct (moving_average_ok prices _ Hf) as (fa & Efa & Lfa).
        destruct (getitem_lt fa (length prices - 1)) as (fast & Efast & _); [lia|].
        exists fa, sl, fast, nan. repeat split; try assumption. now right. }
    destruct Hgt as (fa & sl & fast & slow & Efa & Esl & Efast & Eslow & Hnan).
    unfold generate_technical_signal. rewrite Efa, Esl. cbn [bind].
    destruct (rsi_ok prices _ Hr Hn) as (rsi & -> & Lr & _). cbn [bind].
    rewrite Efast, Eslow. cbn [bind].
    destruct (getitem_lt rsi (length prices - 1)) as (rv & -> & _); [lia|]. cbn [bind].
    eexists. split; [reflexivity|]. cbn [value signal].
    assert (Hcmp : float_gt fast slow = false /\ float_sub fast slow = nan).
    { destruct Hnan as [->| ->]; [split; reflexivity|]. destruct fast; split; reflexivity. }
    destruct Hcmp as [-> ->]. split; [reflexivity|].
    destruct rv as [v|]; [|reflexivity].
    destruct (Py.ltb 70 v); [reflexivity|].
    destruct (Py.ltb v 30); reflexivity.
  - intros prices r Hshort E.
    destruct (float_technical_result _ _ _ E)
      as (fa & sl & fast & slow & Efa & Esl & Efast & Eslow & -> & Hlevel).
    assert (Hnan : is_nan fast = true \/ is_nan slow = true).
    { destruct Hshort as [Hshort|Hshort].
      - left. now rewrite (float_moving_average_last_nan _ _ _ _ Hshort Efa Efast).
      - right. now rewrite (float_moving_average_last_nan _ _ _ _ Hshort Esl Eslow). }
    split; [now apply float_sub_nan|].
    assert (Hlt : (slow <? fast)%float = false).
    { destruct Hnan as [H|H]; [now apply float_ltb_nan_r | now apply float_ltb_nan_l]. }
    destruct Hlevel as [[Hgt _]|[_ Hb]]; [congruence|].
    split; [exact Hb | now apply bearish_level_negative].
Qed.

Lemma short_history_is_bearish_witness :
  (exists r,
     generate_technical_signal prices_1_to_15 default_technical = Ok r
     /\ value r = nan
     /\ signal r < 0)
  /\ IEEE.bearish_level
       (IEEE.signal (IEEE.mkIndicatorResult PrimFloat.nan (0.0 - 0.4 + -0.3)%float)).
Proof.
  destruct (short_history_is_bearish default_technical) as (HQ & HF).
  split.
  - apply (HQ prices_1_to_15).
    + unfold enough_prices. cbn. lia.
    + right. cbn. lia.
  - apply (HF IEEE.rising_prices).
    + right. cbn. lia.
    + vm_compute. reflexivity.
Defined.

(** ** A new agent and [run_agent] *)

Lemma fresh_agent_cycle (config : AgentConfig) (utcnow : datetime) (w : Trader.World)
      (symbol : string) (fundamentals : Dict.t (list Q))
      (sentiment_readings : list SentimentReading) :
  (Trader.utcnow_can_trade w - utcnow < cooldown (risk_config config))%Z ->
  let cycle := Trader.trade (Trader.init config utcnow) w symbol fundamentals
                            sentiment_readings in
  Trader.calls cycle = [] /\ Trader.agent cycle = Trader.init config utcnow.
Proof.
  intro Hsoon. cbv zeta. unfold Trader.trade.
  destruct (Trader.build_context _ _ _ _) as [context|e]; [|split; reflexivity].
  unfold Trader.decide. cbn [Risk.can_trade Risk.now_or Trader.init Trader._risk Risk.init
                             Risk._position Risk._config Risk.last_trade_time].
  destruct (Z.leb_spec (cooldown (risk_config config)) (Trader.utcnow_can_trade w - utcnow))
    as [Hle|_]; [lia|].
  cbn [negb Trader.calls Trader.agent]. split; reflexivity.
Qed.

(** X25. An agent is created with the time of its creation as its last
    trade time: a cycle started before one cooldown has passed since the
    creation sends no order and leaves the agent as created, whatever the
    market, the fundamentals and the sentiment. *)
Theorem fresh_agent_is_in_cooldown (config : AgentConfig) (utcnow : datetime)
        (w : Trader.World) (symbol : string) (fundamentals : Dict.t (list Q))
        (sentiment_readings : list SentimentReading) :
  (Trader.utcnow_can_trade w - utcnow < cooldown (risk_config config))%Z ->
  let agent := Trader.init config utcnow in
  let cycle := Trader.trade agent w symbol fundamentals sentiment_readings in
  fst (Risk.can_trade (Trader._risk agent) None (Trader.utcnow_can_trade w)) = false
  /\ Trader.calls cycle = []
  /\ Trader.agent cycle = agent.
Proof.
  intro Hsoon. cbv zeta. split.
  - cbn. apply Z.leb_gt. exact Hsoon.
  - exact (fresh_agent_cycle config utcnow w symbol fundamentals sentiment_readings Hsoon).
Qed.

Lemma fresh_agent_is_in_cooldown_witness :
  let agent := Trader.init DEFAULT_CONFIG 999000000%Z in
  let cycle := Trader.trade agent sample_world "BTCUSDT" sample_fundamentals sample_readings in
  fst (Risk.can_trade (Trader._risk agent) None (Trader.utcnow_can_trade sample_world)) = false
  /\ Trader.calls cycle = []
  /\ Trader.agent cycle = agent.
Proof.
  apply (fresh_agent_is_in_cooldown DEFAULT_CONFIG 999000000%Z sample_world "BTCUSDT"
                                    sample_fundamentals sample_readings).
  vm_compute. reflexivity.
Defined.

(** X26. When every cycle of [run_agent] starts before one cooldown has
    passed since the agent was created, as when the pairs are traded right
    after the creation, no cycle of the run sends an order and every cycle
    leaves the agent as created. *)
Theorem run_agent_within_cooldown (config : AgentConfig) (trading_pairs : list string)
        (utcnow : datetime) (steps : nat -> Main.Step) :
  (forall i, (Trader.utcnow_can_trade (Main.world (steps i)) - utcnow
              < cooldown (risk_config config))%Z) ->
  Forall (fun cycle => Trader.calls cycle = []
                       /\ Trader.agent cycle = Trader.init config utcnow)
         (Main.run_agent config trading_pairs utcnow steps).
Proof.
  intro Hsoon. unfold Main.run_agent. cbv zeta. generalize 0%nat as i.
  induction trading_pairs as [|symbol rest IH]; intro i; cbn [Main.run_pairs].
  - constructor.
  - cbv zeta.
    destruct (fresh_agent_cycle
                config utcnow (Main.world (steps i)) symbol
                (Main.generate_mock_fundamentals (Main.fundamental_draws (steps i)))
                (Main.generate_mock_sentiment (sources (sentiment_config config))
                                              (Main.sentiment_draws (steps i)))
                (Hsoon i)) as [Hcalls Hagent].
    destruct (Trader.outcome _).
    + constructor; [split; assumption|]. rewrite Hagent. apply IH.
    + constructor; [split; assumption | constructor].
Qed.

Lemma run_agent_within_cooldown_witness :
  Forall (fun cycle => Trader.calls cycle = []
                       /\ Trader.agent cycle = Trader.init DEFAULT_CONFIG 999000000%Z)
         (Main.run_agent DEFAULT_CONFIG ["BTCUSDT"%string; "ETHUSDT"%string] 999000000%Z
                         (fun _ => Main.mkStep sample_world (fun _ => 1) (fun _ => 0.5))).
Proof.
  apply (run_agent_within_cooldown DEFAULT_CONFIG ["BTCUSDT"%string; "ETHUSDT"%string]
                                   999000000%Z).
  intro i. vm_compute. reflexivity.
Defined.

